(** * SkillZage: student dashboard, course learning page and quiz taker

    A shallow embedding of the client-side logic of the student-facing
    pages: quiz navigation and scoring ([QuizTaker]), chapter progress,
    quiz gating and page authorization ([CourseLearning]) and course
    purchase ([StudentDashboard]).

    JavaScript numbers are IEEE 754 binary64 values; they are modelled with
    the executable specification of floating-point arithmetic of the
    standard library ([SpecFloat]), so that [Math.round((k / n) * 100)] is
    evaluated exactly as the browser evaluates it. *)

From Stdlib Require Import ZArith List Bool Lia.
From Stdlib Require Import Floats.SpecFloat.
From stdpp Require Import gmap strings pretty list fin_maps sorting.

Local Open Scope Z_scope.

(** ** JavaScript numbers *)

Module JSNumber.

Definition prec : Z := 53.
Definition emax : Z := 1024.

Abbreviation Number := spec_float.

#[global] Instance spec_float_eq_dec : EqDecision spec_float.
Proof. solve_decision. Defined.

(** An integer literal or an integer-valued counter or [length]. *)
Definition of_Z (z : Z) : Number := binary_normalize prec emax z 0 false.

(** [x / y] and [x * y]. *)
Definition div (x y : Number) : Number := SFdiv prec emax x y.
Definition mul (x y : Number) : Number := SFmul prec emax x y.

(** [x >= y]; false as soon as one side is NaN. *)
Definition geb (x y : Number) : bool :=
  match SFcompare x y with
  | Some Gt | Some Eq => true
  | _ => false
  end.

(** [Math.round(x)]: the integer closest to [x], ties going towards
    +infinity; NaN, the infinities and the zeros are returned as they
    are, and a value in [-0.5, 0) gives -0. *)
Definition Math_round (x : Number) : Number :=
  match x with
  | S754_finite s m e =>
      if 0 <=? e then x
      else
        let d := 2 ^ (- e) in
        let n := (cond_Zopp s (Z.pos m) * 2 + d) / (2 * d) in
        if n =? 0 then S754_zero s else of_Z n
  | _ => x
  end.

(** The integer a number stands for, when it is one. *)
Definition to_Z (x : Number) : option Z :=
  match x with
  | S754_zero _ => Some 0
  | S754_finite s m e =>
      if 0 <=? e then Some (cond_Zopp s (Z.pos m) * 2 ^ e)
      else if Z.pos m mod 2 ^ (- e) =? 0
           then Some (cond_Zopp s (Z.pos m / 2 ^ (- e)))
           else None
  | _ => None
  end.

(** [Math.round((k / n) * 100)], the expression shared by the quiz score
    and both completion percentages. *)
Definition round_percent (k n : Z) : Number :=
  Math_round (mul (div (of_Z k) (of_Z n)) (of_Z 100)).

End JSNumber.

Import JSNumber.

(** The rounding the specification speaks of, over the rationals: the
    integer closest to [100 * k / n], a tie going up, that is
    [floor (100 * k / n + 1 / 2)]. *)
Definition round_half_up_percent (k n : Z) : Z := (200 * k + n) / (2 * n).

(** For a given number of items, do the rounded percentages of every count
    [0 <= k <= n] agree with [round_half_up_percent]? *)
Definition percent_exact_upto_count (n : Z) : bool :=
  forallb (fun k => bool_decide (round_percent k n = of_Z (round_half_up_percent k n)))
          (map Z.of_nat (seq 0 (Z.to_nat n + 1))).

Definition percent_exact_below (bound : nat) : bool :=
  forallb (fun n => percent_exact_upto_count (Z.of_nat n)) (seq 1 (bound - 1)).

(** ** Rows of the backend tables

    The pages read and write rows of the hosted tables through the query
    client.  A column that is [null] or missing (JavaScript [undefined]) is
    [None]. *)

Definition truthy_string (o : option string) : bool :=
  match o with
  | Some s => negb (String.eqb s "")
  | None => false
  end.

Definition truthy_bool (o : option bool) : bool := default false o.

(** [a || b] on an optional string. *)
Definition or_string (o : option string) (d : string) : string :=
  if truthy_string o then default d o else d.

Module Course.
Record t := {
  id : string;
  title : string;
  description : string;
  type_ : string;
  category : string;
  university_id : option string;
  is_active : bool;
  is_free : bool }.
End Course.

Module Chapter.
Record t := {
  id : string;
  course_id : string;
  title : string;
  content : string;
  video_url : string;
  order_index : Z;
  is_preview : bool;
  has_start_quiz : bool;
  has_end_quiz : bool }.
End Chapter.

Module Quiz.
Record t := {
  id : string;
  title : string;
  chapter_id : string;
  is_start_quiz : bool;
  is_end_quiz : bool;
  passing_score : Number }.
End Quiz.

Module QuizQuestion.
Record t := {
  id : string;
  quiz_id : string;
  question : string;
  type_ : string;
  options : list string;
  correct_answer : string;
  explanation : string;
  order_index : Z }.
End QuizQuestion.

Module Profile.
Record t := {
  user_id : string;
  name : string;
  email : string;
  role : string;
  university_id : option string;
  purchased_courses : option (list string) }.
End Profile.

(** An element of a progress record's [quiz_attempts].  The quiz taker
    writes [quiz_id], [answers], [is_start_quiz] and [is_end_quiz]; the
    course page writes [quiz_type]; both write [score], [passed] and
    [completed_at]. *)
Module Attempt.
Record t := {
  quiz_id : option string;
  score : Number;
  passed : bool;
  answers : option (gmap string string);
  completed_at : string;
  is_start_quiz : option bool;
  is_end_quiz : option bool;
  quiz_type : option string }.
End Attempt.

(** The [quiz_attempts] column is untyped JSON ([any]): the course page
    treats it as an object keyed by quiz id, the quiz taker as an array.  An
    array held in memory can also carry named properties, which the JSON
    sent to the backend does not keep. *)
Inductive QuizAttempts :=
| AttemptsObject (props : gmap string Attempt.t)
| AttemptsArray (elems : list Attempt.t) (props : gmap string Attempt.t).

(** [Object.values(attempts)], up to the order of the named properties. *)
Definition Object_values (a : QuizAttempts) : list Attempt.t :=
  match a with
  | AttemptsObject props => (map_to_list props).*2
  | AttemptsArray elems props => elems ++ (map_to_list props).*2
  end.

(** [attempts[key] = value].  Quiz ids are backend-generated identifiers,
    never array indices, so on an array the assignment adds a named
    property. *)
Definition set_property (key : string) (value : Attempt.t) (a : QuizAttempts) : QuizAttempts :=
  match a with
  | AttemptsObject props => AttemptsObject (<[key := value]> props)
  | AttemptsArray elems props => AttemptsArray elems (<[key := value]> props)
  end.

(** What [JSON.stringify] keeps of the value when it is sent. *)
Definition to_json (a : QuizAttempts) : QuizAttempts :=
  match a with
  | AttemptsObject props => AttemptsObject props
  | AttemptsArray elems _ => AttemptsArray elems ∅
  end.

Module Progress.
Record t := {
  user_id : option string;
  course_id : option string;
  chapter_id : option string;
  started_at : option string;
  completed : option bool;
  completed_at : option string;
  quiz_attempts : option QuizAttempts;
  updated_at : option string }.

Definition empty : t :=
  {| user_id := None; course_id := None; chapter_id := None; started_at := None;
     completed := None; completed_at := None; quiz_attempts := None; updated_at := None |}.

(** [{...old, ...payload}] restricted to the columns the payload gives. *)
Definition merge (payload old : t) : t :=
  {| user_id := from_option Some (user_id old) (user_id payload);
     course_id := from_option Some (course_id old) (course_id payload);
     chapter_id := from_option Some (chapter_id old) (chapter_id payload);
     started_at := from_option Some (started_at old) (started_at payload);
     completed := from_option Some (completed old) (completed payload);
     completed_at := from_option Some (completed_at old) (completed_at payload);
     quiz_attempts := from_option Some (quiz_attempts old) (quiz_attempts payload);
     updated_at := from_option Some (updated_at old) (updated_at payload) |}.
End Progress.

(** ** The query client *)

Record PostgrestError := { message : string; code : string }.

(** How one awaited request ends: it resolves with data, resolves with an
    error object, or its promise rejects. *)
Inductive Fault :=
| NoFault
| ReturnsError (e : PostgrestError)
| Rejects.

(** The select of [handleQuizComplete] counts as failed unless the error is
    "no rows". *)
Definition select_fails (f : Fault) : Prop :=
  match f with
  | NoFault => False
  | ReturnsError e => code e <> "PGRST116"
  | Rejects => True
  end.

Module Backend.
Record t := {
  courses : list Course.t;
  chapters : list Chapter.t;
  student_progress : gmap (string * string) Progress.t;
  profiles : gmap string Profile.t }.

Definition set_student_progress (sp : gmap (string * string) Progress.t) (b : t) : t :=
  {| courses := courses b; chapters := chapters b; student_progress := sp;
     profiles := profiles b |}.

Definition set_profiles (ps : gmap string Profile.t) (b : t) : t :=
  {| courses := courses b; chapters := chapters b;
     student_progress := student_progress b; profiles := ps |}.
End Backend.

(** The attempts column of the stored progress record of a user for a
    chapter. *)
Definition stored_attempts (b : Backend.t) (user chapter : string) : option QuizAttempts :=
  Backend.student_progress b !! (user, chapter) ≫= Progress.quiz_attempts.

(** Every progress row is stored under its own user and chapter. *)
Definition progress_keys_consistent (b : Backend.t) : Prop :=
  forall user chapter row,
    Backend.student_progress b !! (user, chapter) = Some row ->
    Progress.user_id row = Some user /\ Progress.chapter_id row = Some chapter.

(** ** Handlers

    A handler body runs over a state [S], changes it step by step and
    either reaches its end or throws; what was changed before a [throw]
    stays changed. *)

Section Handlers.
Context {S : Type}.

Definition M (A : Type) : Type := S -> S * option A.

Definition ret {A : Type} (a : A) : M A := fun s => (s, Some a).

Definition bind {A B : Type} (m : M A) (k : A -> M B) : M B :=
  fun s =>
    match m s with
    | (s', Some a) => k a s'
    | (s', None) => (s', None)
    end.

Definition throw {A : Type} : M A := fun s => (s, None).

Definition modify (f : S -> S) : M unit := fun s => (f s, Some tt).

Definition gets {A : Type} (f : S -> A) : M A := fun s => (s, Some (f s)).

(** [try { body } catch { handler }] *)
Definition try_catch {A : Type} (body handler : M A) : M A :=
  fun s =>
    match body s with
    | (s', Some a) => (s', Some a)
    | (s', None) => handler s'
    end.

(** The state a handler leaves behind. *)
Definition exec {A : Type} (m : M A) (s : S) : S := fst (m s).

(** [if (error) throw error] *)
Definition throw_if_error (error : option PostgrestError) : M unit :=
  match error with
  | Some _ => throw
  | None => ret tt
  end.

End Handlers.

Arguments M : clear implicits.

Notation "'let*' x := m 'in' k" := (bind m (fun x => k))
  (at level 10, x name, m at level 100, k at level 200, only parsing).
Notation "'let*' ' p := m 'in' k" := (bind m (fun p => k))
  (at level 10, p pattern, m at level 100, k at level 200, only parsing).

(** [.single()]: exactly one row, else the error [PGRST116]. *)
Definition single {D : Type} (r : option (option D) * option PostgrestError)
  : option D * option PostgrestError :=
  match r with
  | (Some None, _) => (None, Some {| message := "no rows"; code := "PGRST116" |})
  | (data, error) => (mjoin data, error)
  end.

(** [array[i]] for a number [i], [undefined] out of range. *)
Definition nth_Z {A : Type} (l : list A) (i : Z) : option A :=
  if i <? 0 then None else l !! Z.to_nat i.

(** [array.findIndex(P)] *)
Fixpoint findIndex {A : Type} (P : A -> bool) (l : list A) : Z :=
  match l with
  | [] => -1
  | x :: l' =>
      if P x then 0
      else let i := findIndex P l' in if i =? -1 then -1 else i + 1
  end.

(** A state that holds the backend tables. *)
Class HasBackend (S : Type) := {
  get_backend : S -> Backend.t;
  put_backend : Backend.t -> S -> S }.

Section Queries.
Context {S : Type} `{HasBackend S}.

(** [await request]: a rejected promise throws at the [await]; otherwise
    the response object [{ data, error }] comes back, the data computed
    from the tables. *)
Definition await {D : Type} (f : Fault) (query : Backend.t -> D)
  : M S (option D * option PostgrestError) :=
  match f with
  | NoFault => gets (fun s => (Some (query (get_backend s)), None))
  | ReturnsError e => ret (None, Some e)
  | Rejects => throw
  end.

(** [.from('student_progress').select('*').eq('user_id', u).eq('chapter_id', c).single()] *)
Definition select_progress_single (f : Fault) (user chapter : string)
  : M S (option Progress.t * option PostgrestError) :=
  let* r := await f (fun b => Backend.student_progress b !! (user, chapter)) in
  ret (single r).

(** Modelled from the spec: the schema of [student_progress] is not part of
    the sources; a progress record is unique per (user, chapter) and an
    upsert on that key updates the given columns of the existing row or
    inserts the payload as a new row.  A request that fails stores
    nothing. *)
Definition upsert_progress (f : Fault) (user chapter : string) (payload : Progress.t)
  : M S (option PostgrestError) :=
  match f with
  | NoFault =>
      let* _ := modify (fun s =>
        let b := get_backend s in
        let row := Progress.merge payload
                     (default Progress.empty (Backend.student_progress b !! (user, chapter))) in
        put_backend
          (Backend.set_student_progress
             (<[(user, chapter) := row]> (Backend.student_progress b)) b) s) in
      ret None
  | ReturnsError e => ret (Some e)
  | Rejects => throw
  end.

(** The error of an insert that breaks a uniqueness constraint. *)
Definition duplicate_key : PostgrestError :=
  {| message := "duplicate key value violates unique constraint"; code := "23505" |}.

(** Modelled from the spec: [.upsert(payload)] without [onConflict], as
    the quiz taker calls it; the schema of [student_progress] is not part
    of the sources.  The client then resolves conflicts on the primary key
    only, the [id] column of the page's [Progress] interface, which the
    payload does not give, so the request is an insert of a new record.  A
    progress record being unique per (user, chapter), the insert is refused
    with a duplicate-key error when a record of the pair exists, and
    nothing is stored; else the payload is stored as the record of the
    pair. *)
Definition upsert_progress_on_primary_key (f : Fault) (user chapter : string)
    (payload : Progress.t) : M S (option PostgrestError) :=
  match f with
  | NoFault =>
      let* existing := gets (fun s => Backend.student_progress (get_backend s) !! (user, chapter)) in
      match existing with
      | Some _ => ret (Some duplicate_key)
      | None =>
          let* _ := modify (fun s =>
            let b := get_backend s in
            put_backend
              (Backend.set_student_progress
                 (<[(user, chapter) := payload]> (Backend.student_progress b)) b) s) in
          ret None
      end
  | ReturnsError e => ret (Some e)
  | Rejects => throw
  end.

(** [.from('profiles').update({ purchased_courses }).eq('user_id', u)]:
    every matching row is updated, no row is no error. *)
Definition update_purchased_courses (f : Fault) (user : option string) (purchased : list string)
  : M S (option PostgrestError) :=
  match f with
  | NoFault =>
      let* _ := modify (fun s =>
        let b := get_backend s in
        let set_purchased (p : Profile.t) : Profile.t :=
          {| Profile.user_id := Profile.user_id p; Profile.name := Profile.name p;
             Profile.email := Profile.email p; Profile.role := Profile.role p;
             Profile.university_id := Profile.university_id p;
             Profile.purchased_courses := Some purchased |} in
        match user with
        | Some u =>
            put_backend (Backend.set_profiles (alter set_purchased u (Backend.profiles b)) b) s
        | None => s
        end) in
      ret None
  | ReturnsError e => ret (Some e)
  | Rejects => throw
  end.

End Queries.

(** ** Notifications *)

Inductive Description :=
| Text (s : string)
(** [`You scored ${score}%. ${passed ? 'Great job!' : 'Keep practicing!'}`] *)
| ScoreText (score : Number) (passed : bool).

Record Toast := {
  toast_title : string;
  toast_description : Description;
  toast_variant : option string }.

Definition error_toast (description : string) : Toast :=
  {| toast_title := "Error"; toast_description := Text description;
     toast_variant := Some "destructive" |}.

(** The toast both quiz handlers show once an attempt is stored. *)
Definition score_toast (score : Number) (passed : bool) : Toast :=
  {| toast_title := if passed then "Quiz Passed!" else "Quiz Completed";
     toast_description := ScoreText score passed;
     toast_variant := Some (if passed then "default" else "destructive") |}.

(** ** The quiz taker (component [QuizTaker]) *)

Module QuizTaker.

(** The properties the parent passes.  [onQuizComplete] is a function of
    the parent; [onQuizComplete_given] says whether the parent passes one:
    the second and third version of the course page do, the first passes
    its handler as [onComplete], a property the quiz taker does not read,
    so that [onQuizComplete] is [undefined] there. *)
Record Props := {
  quiz : Quiz.t;
  questions : list QuizQuestion.t;
  onQuizComplete_given : bool }.

Record State := {
  currentQuestionIndex : Z;
  answers : gmap string string;
  showResults : bool;
  score : Number;
  isSubmitting : bool }.

Definition initial : State :=
  {| currentQuestionIndex := 0; answers := ∅; showResults := false;
     score := of_Z 0; isSubmitting := false |}.

Definition setCurrentQuestionIndex (f : Z -> Z) (s : State) : State :=
  {| currentQuestionIndex := f (currentQuestionIndex s); answers := answers s;
     showResults := showResults s; score := score s; isSubmitting := isSubmitting s |}.

Definition setAnswers (f : gmap string string -> gmap string string) (s : State) : State :=
  {| currentQuestionIndex := currentQuestionIndex s; answers := f (answers s);
     showResults := showResults s; score := score s; isSubmitting := isSubmitting s |}.

Definition setShowResults (v : bool) (s : State) : State :=
  {| currentQuestionIndex := currentQuestionIndex s; answers := answers s;
     showResults := v; score := score s; isSubmitting := isSubmitting s |}.

Definition setScore (v : Number) (s : State) : State :=
  {| currentQuestionIndex := currentQuestionIndex s; answers := answers s;
     showResults := showResults s; score := v; isSubmitting := isSubmitting s |}.

Definition setIsSubmitting (v : bool) (s : State) : State :=
  {| currentQuestionIndex := currentQuestionIndex s; answers := answers s;
     showResults := showResults s; score := score s; isSubmitting := v |}.

(** [questions.length] *)
Definition questions_length (p : Props) : Z := Z.of_nat (length (questions p)).

(** [questions[currentQuestionIndex]] *)
Definition currentQuestion (p : Props) (s : State) : option QuizQuestion.t :=
  nth_Z (questions p) (currentQuestionIndex s).

Definition handleAnswerChange (questionId answer : string) (s : State) : State :=
  setAnswers (fun prev => <[questionId := answer]> prev) s.

Definition handleNext (p : Props) (s : State) : State :=
  if currentQuestionIndex s <? questions_length p - 1
  then setCurrentQuestionIndex (fun prev => prev + 1) s
  else s.

Definition handlePrevious (s : State) : State :=
  if currentQuestionIndex s >? 0
  then setCurrentQuestionIndex (fun prev => prev - 1) s
  else s.

(** The [forEach] loop of [handleSubmitQuiz]: the number of questions whose
    stored answer is strictly equal to [correct_answer]. *)
Definition correctAnswers (p : Props) (s : State) : Z :=
  fold_left
    (fun correctAnswers question =>
       if bool_decide (answers s !! QuizQuestion.id question
                       = Some (QuizQuestion.correct_answer question))
       then correctAnswers + 1 else correctAnswers)
    (questions p) 0.

Definition calculatedScore (p : Props) (s : State) : Number :=
  Math_round (mul (div (of_Z (correctAnswers p s)) (of_Z (questions_length p))) (of_Z 100)).

Definition passed (p : Props) (s : State) : bool :=
  geb (calculatedScore p s) (Quiz.passing_score (quiz p)).

Definition quizAttempt (p : Props) (s : State) (now : string) : Attempt.t :=
  {| Attempt.quiz_id := Some (Quiz.id (quiz p));
     Attempt.score := calculatedScore p s;
     Attempt.passed := passed p s;
     Attempt.answers := Some (answers s);
     Attempt.completed_at := now;
     Attempt.is_start_quiz := Some (Quiz.is_start_quiz (quiz p));
     Attempt.is_end_quiz := Some (Quiz.is_end_quiz (quiz p));
     Attempt.quiz_type := None |}.

(** [Array.isArray(existing) ? [...existing, quizAttempt] : [quizAttempt]],
    and [[quizAttempt]] when nothing is stored. *)
Definition updatedQuizAttempts (existing : option QuizAttempts) (a : Attempt.t) : QuizAttempts :=
  match existing with
  | Some (AttemptsArray elems _) => AttemptsArray (elems ++ [a]) ∅
  | _ => AttemptsArray [a] ∅
  end.

(** The component, the tables, the toasts shown (oldest first) and the
    calls made to the [onQuizComplete] property. *)
Record World := {
  state : State;
  backend : Backend.t;
  toasts : list Toast;
  onQuizComplete : list (Number * bool) }.

Definition on_state (f : State -> State) (w : World) : World :=
  {| state := f (state w); backend := backend w; toasts := toasts w;
     onQuizComplete := onQuizComplete w |}.

Definition toast (t : Toast) (w : World) : World :=
  {| state := state w; backend := backend w; toasts := toasts w ++ [t];
     onQuizComplete := onQuizComplete w |}.

Definition call_onQuizComplete (score : Number) (passed : bool) (w : World) : World :=
  {| state := state w; backend := backend w; toasts := toasts w;
     onQuizComplete := onQuizComplete w ++ [(score, passed)] |}.

#[global] Instance QuizTaker_backend : HasBackend World := {
  get_backend := backend;
  put_backend b w :=
    {| state := state w; backend := b; toasts := toasts w;
       onQuizComplete := onQuizComplete w |} }.

(** [handleSubmitQuiz].  [auth_user] is the signed-in user's id as
    [supabase.auth.getUser()] reports it and [now] the clock.  The errors
    the requests may return are not looked at; the upsert names no
    conflict columns.  Calling [onQuizComplete] when the parent gave none
    throws a [TypeError] inside the [try]. *)
Definition handleSubmitQuiz (p : Props) (now : string) (auth_user : option string)
    (f_auth f_select f_upsert : Fault) : M World unit :=
  let chapter := Quiz.chapter_id (quiz p) in
  let* _ := modify (on_state (setIsSubmitting true)) in
  let* s := gets state in
  let calculatedScore := calculatedScore p s in
  let passed := geb calculatedScore (Quiz.passing_score (quiz p)) in
  let* _ := modify (on_state (setScore calculatedScore)) in
  let* _ := modify (on_state (setShowResults true)) in
  let* _ :=
    try_catch
      (let* '(user, _) := await f_auth (fun _ => auth_user) in
       match mjoin user with
       | Some uid =>
           let* '(progressData, _) := select_progress_single f_select uid chapter in
           let updated :=
             updatedQuizAttempts (progressData ≫= Progress.quiz_attempts) (quizAttempt p s now) in
           let payload :=
             {| Progress.user_id := Some uid;
                Progress.course_id := progressData ≫= Progress.course_id;
                Progress.chapter_id := Some chapter;
                Progress.started_at := Some (or_string (progressData ≫= Progress.started_at) now);
                Progress.completed := None;
                Progress.completed_at := None;
                Progress.quiz_attempts := Some (to_json updated);
                Progress.updated_at := Some now |} in
           let* _ := upsert_progress_on_primary_key f_upsert uid chapter payload in
           let* _ := modify (toast (score_toast calculatedScore passed)) in
           if onQuizComplete_given p
           then modify (call_onQuizComplete calculatedScore passed)
           else throw
       | None => ret tt
       end)
      (modify (toast (error_toast "Failed to save quiz results"))) in
  modify (on_state (setIsSubmitting false)).

(** The component state [handleSubmitQuiz] leaves behind. *)
Definition submitted (p : Props) (s : State) : State :=
  setIsSubmitting false
    (setShowResults true (setScore (calculatedScore p s) (setIsSubmitting true s))).

(** *** What is on screen *)

Inductive Button :=
| SubmitButton (disabled : bool)
| NextButton (disabled : bool).

Inductive View :=
| ResultsView (passed : bool)
| LoadingView
| QuestionView (question : QuizQuestion.t) (previous_disabled : bool) (forward : Button).

Definition render (p : Props) (s : State) : View :=
  if showResults s then ResultsView (geb (score s) (Quiz.passing_score (quiz p)))
  else
    match currentQuestion p s with
    | None => LoadingView
    | Some q =>
        let isLastQuestion := currentQuestionIndex s =? questions_length p - 1 in
        let canProceed := truthy_string (answers s !! QuizQuestion.id q) in
        QuestionView q (currentQuestionIndex s =? 0)
          (if isLastQuestion
           then SubmitButton (negb canProceed || isSubmitting s)
           else NextButton (negb canProceed))
    end.

(** The values of the radio items shown for a question. *)
Definition radio_values (q : QuizQuestion.t) : list string :=
  if String.eqb (QuizQuestion.type_ q) "multiple_choice"
  then QuizQuestion.options q
  else ["True"; "False"].

(** *** The user's actions *)

Inductive Event :=
| ClickPrevious
| ClickNext
| ClickSubmit
| SelectAnswer (value : string).

(** An action is possible when its control is on screen and not disabled. *)
Definition enabled (p : Props) (s : State) (ev : Event) : bool :=
  match render p s, ev with
  | QuestionView _ previous_disabled _, ClickPrevious => negb previous_disabled
  | QuestionView _ _ (NextButton disabled), ClickNext => negb disabled
  | QuestionView _ _ (SubmitButton disabled), ClickSubmit => negb disabled
  | QuestionView q _ _, SelectAnswer value => bool_decide (value ∈ radio_values q)
  | _, _ => false
  end.

Definition step (p : Props) (s : State) (ev : Event) : State :=
  match ev with
  | ClickPrevious => handlePrevious s
  | ClickNext => handleNext p s
  | ClickSubmit => submitted p s
  | SelectAnswer value =>
      match currentQuestion p s with
      | Some q => handleAnswerChange (QuizQuestion.id q) value s
      | None => s
      end
  end.

Inductive reachable (p : Props) : State -> Prop :=
| reachable_initial : reachable p initial
| reachable_step s ev :
    reachable p s -> enabled p s ev = true -> reachable p (step p s ev).

End QuizTaker.

(** ** The course page (component [CourseLearning]) *)

Module CourseLearning.

(** The route parameter and the signed-in user's profile. *)
Record Context := {
  courseId : option string;
  profile : option Profile.t }.

Record State := {
  course : option Course.t;
  chapters : list Chapter.t;
  currentChapter : option Chapter.t;
  progress : gmap string Progress.t;
  isLoading : bool;
  completionPercentage : Number;
  currentQuiz : option Quiz.t;
  quizQuestions : list QuizQuestion.t;
  showQuiz : bool;
  (** the toasts shown, oldest first *)
  toasts : list Toast;
  (** the routes [navigate] was called with *)
  navigated : list string }.

Definition initial : State :=
  {| course := None; chapters := []; currentChapter := None; progress := ∅;
     isLoading := true; completionPercentage := of_Z 0; currentQuiz := None;
     quizQuestions := []; showQuiz := false; toasts := []; navigated := [] |}.

Definition setCourse (v : option Course.t) (s : State) : State :=
  {| course := v; chapters := chapters s; currentChapter := currentChapter s;
     progress := progress s; isLoading := isLoading s;
     completionPercentage := completionPercentage s; currentQuiz := currentQuiz s;
     quizQuestions := quizQuestions s; showQuiz := showQuiz s; toasts := toasts s;
     navigated := navigated s |}.

Definition setChapters (v : list Chapter.t) (s : State) : State :=
  {| course := course s; chapters := v; currentChapter := currentChapter s;
     progress := progress s; isLoading := isLoading s;
     completionPercentage := completionPercentage s; currentQuiz := currentQuiz s;
     quizQuestions := quizQuestions s; showQuiz := showQuiz s; toasts := toasts s;
     navigated := navigated s |}.

Definition setCurrentChapter (v : option Chapter.t) (s : State) : State :=
  {| course := course s; chapters := chapters s; currentChapter := v;
     progress := progress s; isLoading := isLoading s;
     completionPercentage := completionPercentage s; currentQuiz := currentQuiz s;
     quizQuestions := quizQuestions s; showQuiz := showQuiz s; toasts := toasts s;
     navigated := navigated s |}.

Definition setProgress (f : gmap string Progress.t -> gmap string Progress.t) (s : State) : State :=
  {| course := course s; chapters := chapters s; currentChapter := currentChapter s;
     progress := f (progress s); isLoading := isLoading s;
     completionPercentage := completionPercentage s; currentQuiz := currentQuiz s;
     quizQuestions := quizQuestions s; showQuiz := showQuiz s; toasts := toasts s;
     navigated := navigated s |}.

Definition setIsLoading (v : bool) (s : State) : State :=
  {| course := course s; chapters := chapters s; currentChapter := currentChapter s;
     progress := progress s; isLoading := v;
     completionPercentage := completionPercentage s; currentQuiz := currentQuiz s;
     quizQuestions := quizQuestions s; showQuiz := showQuiz s; toasts := toasts s;
     navigated := navigated s |}.

Definition setCompletionPercentage (v : Number) (s : State) : State :=
  {| course := course s; chapters := chapters s; currentChapter := currentChapter s;
     progress := progress s; isLoading := isLoading s;
     completionPercentage := v; currentQuiz := currentQuiz s;
     quizQuestions := quizQuestions s; showQuiz := showQuiz s; toasts := toasts s;
     navigated := navigated s |}.

Definition setCurrentQuiz (v : option Quiz.t) (s : State) : State :=
  {| course := course s; chapters := chapters s; currentChapter := currentChapter s;
     progress := progress s; isLoading := isLoading s;
     completionPercentage := completionPercentage s; currentQuiz := v;
     quizQuestions := quizQuestions s; showQuiz := showQuiz s; toasts := toasts s;
     navigated := navigated s |}.

Definition setQuizQuestions (v : list QuizQuestion.t) (s : State) : State :=
  {| course := course s; chapters := chapters s; currentChapter := currentChapter s;
     progress := progress s; isLoading := isLoading s;
     completionPercentage := completionPercentage s; currentQuiz := currentQuiz s;
     quizQuestions := v; showQuiz := showQuiz s; toasts := toasts s;
     navigated := navigated s |}.

Definition setShowQuiz (v : bool) (s : State) : State :=
  {| course := course s; chapters := chapters s; currentChapter := currentChapter s;
     progress := progress s; isLoading := isLoading s;
     completionPercentage := completionPercentage s; currentQuiz := currentQuiz s;
     quizQuestions := quizQuestions s; showQuiz := v; toasts := toasts s;
     navigated := navigated s |}.

Definition toast (t : Toast) (s : State) : State :=
  {| course := course s; chapters := chapters s; currentChapter := currentChapter s;
     progress := progress s; isLoading := isLoading s;
     completionPercentage := completionPercentage s; currentQuiz := currentQuiz s;
     quizQuestions := quizQuestions s; showQuiz := showQuiz s; toasts := toasts s ++ [t];
     navigated := navigated s |}.

(** The toaster is shared with the components the page mounts. *)
Definition setToasts (v : list Toast) (s : State) : State :=
  {| course := course s; chapters := chapters s; currentChapter := currentChapter s;
     progress := progress s; isLoading := isLoading s;
     completionPercentage := completionPercentage s; currentQuiz := currentQuiz s;
     quizQuestions := quizQuestions s; showQuiz := showQuiz s; toasts := v;
     navigated := navigated s |}.

Definition navigate (route : string) (s : State) : State :=
  {| course := course s; chapters := chapters s; currentChapter := currentChapter s;
     progress := progress s; isLoading := isLoading s;
     completionPercentage := completionPercentage s; currentQuiz := currentQuiz s;
     quizQuestions := quizQuestions s; showQuiz := showQuiz s; toasts := toasts s;
     navigated := navigated s ++ [route] |}.

Record World := {
  backend : Backend.t;
  ui : State }.

Definition on_ui (f : State -> State) (w : World) : World :=
  {| backend := backend w; ui := f (ui w) |}.

#[global] Instance CourseLearning_backend : HasBackend World := {
  get_backend := backend;
  put_backend b w := {| backend := b; ui := ui w |} }.

(** [profile.purchased_courses?.includes(courseId) || profile.role === 'admin'] *)
Definition hasAccess (profile : Profile.t) (courseId : string) : bool :=
  default false ((fun purchased => bool_decide (courseId ∈ purchased))
                   <$> Profile.purchased_courses profile)
  || String.eqb (Profile.role profile) "admin".

Definition access_denied : Toast :=
  {| toast_title := "Access Denied";
     toast_description := Text "You don't have access to this course.";
     toast_variant := Some "destructive" |}.

(** [.order('order_index')] *)
Definition order_by_index (l : list Chapter.t) : list Chapter.t :=
  @merge_sort _ (fun a b => Chapter.order_index a <= Chapter.order_index b)
    (fun a b => decide (Chapter.order_index a <= Chapter.order_index b)) l.

Definition fetchCourseData (ctx : Context) (f_course f_chapters f_progress : Fault)
  : M World unit :=
  match courseId ctx, profile ctx with
  | Some courseId, Some profile =>
      if String.eqb courseId "" then ret tt
      else
        let* _ :=
          try_catch
            (let* _ := modify (on_ui (setIsLoading true)) in
             if negb (hasAccess profile courseId) then
               let* _ := modify (on_ui (toast access_denied)) in
               modify (on_ui (navigate "/dashboard"))
             else
               let* r := await f_course (fun b =>
                 find (fun c => String.eqb (Course.id c) courseId) (Backend.courses b)) in
               let '(courseData, courseError) := single r in
               let* _ := throw_if_error courseError in
               let* _ := modify (on_ui (setCourse courseData)) in
               let* '(chaptersData, chaptersError) := await f_chapters (fun b =>
                 order_by_index
                   (filter (fun c => Chapter.course_id c = courseId) (Backend.chapters b))) in
               let* _ := throw_if_error chaptersError in
               let* _ := modify (on_ui (setChapters (default [] chaptersData))) in
               let* _ :=
                 match chaptersData with
                 | Some (first :: _) => modify (on_ui (setCurrentChapter (Some first)))
                 | _ => ret tt
                 end in
               let* '(progressData, progressError) := await f_progress (fun b =>
                 filter (fun p => Progress.course_id p = Some courseId
                                  ∧ Progress.user_id p = Some (Profile.user_id profile))
                        (map_to_list (Backend.student_progress b)).*2) in
               let* _ := throw_if_error progressError in
               let progressMap :=
                 fold_left (fun progressMap p =>
                              match Progress.chapter_id p with
                              | Some chapter => <[chapter := p]> progressMap
                              | None => progressMap
                              end)
                           (default [] progressData) ∅ in
               modify (on_ui (setProgress (fun _ => progressMap))))
            (modify (on_ui (toast (error_toast "Failed to load course data.")))) in
        modify (on_ui (setIsLoading false))
  | _, _ => ret tt
  end.

(** [progress[chapter.id]?.completed] *)
Definition chapter_completed (progress : gmap string Progress.t) (chapter : Chapter.t) : bool :=
  truthy_bool (progress !! Chapter.id chapter ≫= Progress.completed).

Definition calculateProgress (s : State) : State :=
  let completedChapters := Z.of_nat (length (filter (chapter_completed (progress s)) (chapters s))) in
  let chapters_length := Z.of_nat (length (chapters s)) in
  let percentage :=
    if chapters_length >? 0
    then Math_round (mul (div (of_Z completedChapters) (of_Z chapters_length)) (of_Z 100))
    else of_Z 0 in
  setCompletionPercentage percentage s.

(** The effect on [chapters] and [progress]. *)
Definition progress_effect (s : State) : State :=
  if Z.of_nat (length (chapters s)) >? 0 then calculateProgress s else s.

Definition chapter_completed_toast : Toast :=
  {| toast_title := "Chapter Completed!";
     toast_description := Text "Great job! Moving to the next chapter.";
     toast_variant := None |}.

Definition markChapterAsCompleted (ctx : Context) (now : string) (f_upsert : Fault)
    (chapterId : string) : M World unit :=
  match profile ctx with
  | None => ret tt
  | Some profile =>
      try_catch
        (let* progress := gets (fun w => progress (ui w)) in
         let* error :=
           upsert_progress f_upsert (Profile.user_id profile) chapterId
             {| Progress.user_id := Some (Profile.user_id profile);
                Progress.course_id := courseId ctx;
                Progress.chapter_id := Some chapterId;
                Progress.started_at :=
                  Some (or_string (progress !! chapterId ≫= Progress.started_at) now);
                Progress.completed := Some true;
                Progress.completed_at := Some now;
                Progress.quiz_attempts := None;
                Progress.updated_at := None |} in
         let* _ := throw_if_error error in
         let* _ :=
           modify (on_ui (setProgress (fun prev =>
             <[chapterId :=
                 Progress.merge
                   {| Progress.user_id := None; Progress.course_id := None;
                      Progress.chapter_id := None; Progress.started_at := None;
                      Progress.completed := Some true;
                      Progress.completed_at := Some now;
                      Progress.quiz_attempts := None; Progress.updated_at := None |}
                   (default Progress.empty (prev !! chapterId))]> prev))) in
         let* _ := modify (on_ui (toast chapter_completed_toast)) in
         let* chapters := gets (fun w => chapters (ui w)) in
         let currentIndex := findIndex (fun ch => String.eqb (Chapter.id ch) chapterId) chapters in
         if currentIndex <? Z.of_nat (length chapters) - 1
         then modify (on_ui (setCurrentChapter (nth_Z chapters (currentIndex + 1))))
         else ret tt)
        (modify (on_ui (toast (error_toast "Failed to save progress."))))
  end.

(** The record [handleQuizComplete] stores under the quiz's id. *)
Definition attemptData (quiz : Quiz.t) (now : string) (score : Number) (passed : bool) : Attempt.t :=
  {| Attempt.quiz_id := None;
     Attempt.score := score;
     Attempt.passed := passed;
     Attempt.answers := None;
     Attempt.completed_at := now;
     Attempt.is_start_quiz := None;
     Attempt.is_end_quiz := None;
     Attempt.quiz_type := Some (if Quiz.is_start_quiz quiz then "start" else "end") |}.

Definition handleQuizComplete (ctx : Context) (now : string) (f_select f_upsert : Fault)
    (score : Number) (passed : bool) : M World unit :=
  let* s := gets ui in
  match currentQuiz s, profile ctx, currentChapter s with
  | Some currentQuiz, Some profile, Some currentChapter =>
      try_catch
        (let* '(currentProgress, fetchError) :=
           select_progress_single f_select (Profile.user_id profile) (Chapter.id currentChapter) in
         let* _ :=
           match fetchError with
           | Some e => if String.eqb (code e) "PGRST116" then ret tt else throw
           | None => ret tt
           end in
         let quizAttempts :=
           set_property (Quiz.id currentQuiz) (attemptData currentQuiz now score passed)
             (default (AttemptsObject ∅) (currentProgress ≫= Progress.quiz_attempts)) in
         let* error :=
           upsert_progress f_upsert (Profile.user_id profile) (Chapter.id currentChapter)
             {| Progress.user_id := Some (Profile.user_id profile);
                Progress.course_id := courseId ctx;
                Progress.chapter_id := Some (Chapter.id currentChapter);
                Progress.started_at :=
                  Some (or_string (currentProgress ≫= Progress.started_at) now);
                Progress.completed :=
                  Some (truthy_bool (currentProgress ≫= Progress.completed));
                Progress.completed_at := None;
                Progress.quiz_attempts := Some (to_json quizAttempts);
                Progress.updated_at := None |} in
         let* _ := throw_if_error error in
         let* _ :=
           modify (on_ui (setProgress (fun prev =>
             <[Chapter.id currentChapter :=
                 Progress.merge
                   {| Progress.user_id := None; Progress.course_id := None;
                      Progress.chapter_id := None; Progress.started_at := None;
                      Progress.completed := None; Progress.completed_at := None;
                      Progress.quiz_attempts := Some quizAttempts;
                      Progress.updated_at := None |}
                   (default Progress.empty (prev !! Chapter.id currentChapter))]> prev))) in
         let* _ := modify (on_ui (setShowQuiz false)) in
         let* _ := modify (on_ui (setCurrentQuiz None)) in
         let* _ := modify (on_ui (setQuizQuestions [])) in
         modify (on_ui (toast (score_toast score passed))))
        (modify (on_ui (toast (error_toast "Failed to save quiz results."))))
  | _, _, _ => ret tt
  end.

Definition hasCompletedStartQuiz (s : State) (chapterId : string) : bool :=
  match progress s !! chapterId ≫= Progress.quiz_attempts with
  | None => false
  | Some quiz_attempts =>
      existsb (fun attempt =>
                 bool_decide (Attempt.quiz_type attempt = Some "start") && Attempt.passed attempt)
              (Object_values quiz_attempts)
  end.

Definition canAccessChapterContent (s : State) (chapter : Chapter.t) : bool :=
  if negb (Chapter.has_start_quiz chapter) then true
  else hasCompletedStartQuiz s (Chapter.id chapter).

Definition hasCompletedEndQuiz (s : State) (chapterId : string) : bool :=
  match progress s !! chapterId ≫= Progress.quiz_attempts with
  | None => false
  | Some quiz_attempts =>
      existsb (fun attempt =>
                 bool_decide (Attempt.quiz_type attempt = Some "end") && Attempt.passed attempt)
              (Object_values quiz_attempts)
  end.

(** [markChapterAsStarted]: nothing is done without a profile or when the
    local entry of the chapter has a [started_at]; a failed upsert is only
    logged. *)
Definition markChapterAsStarted (ctx : Context) (now : string) (f_upsert : Fault)
    (chapterId : string) : M World unit :=
  let* progress := gets (fun w => progress (ui w)) in
  match profile ctx with
  | None => ret tt
  | Some profile =>
      if truthy_string (progress !! chapterId ≫= Progress.started_at) then ret tt
      else
        try_catch
          (let* error :=
             upsert_progress f_upsert (Profile.user_id profile) chapterId
               {| Progress.user_id := Some (Profile.user_id profile);
                  Progress.course_id := courseId ctx;
                  Progress.chapter_id := Some chapterId;
                  Progress.started_at := Some now;
                  Progress.completed := Some false;
                  Progress.completed_at := None;
                  Progress.quiz_attempts := None;
                  Progress.updated_at := None |} in
           let* _ := throw_if_error error in
           modify (on_ui (setProgress (fun prev =>
             <[chapterId :=
                 Progress.merge
                   {| Progress.user_id := None; Progress.course_id := None;
                      Progress.chapter_id := None; Progress.started_at := Some now;
                      Progress.completed := Some false;
                      Progress.completed_at := None;
                      Progress.quiz_attempts := None; Progress.updated_at := None |}
                   (default Progress.empty (prev !! chapterId))]> prev))))
          (ret tt)
  end.

Definition handleChapterSelect (ctx : Context) (now : string) (f_upsert : Fault)
    (chapter : Chapter.t) : M World unit :=
  let* _ := modify (on_ui (setCurrentChapter (Some chapter))) in
  markChapterAsStarted ctx now f_upsert (Chapter.id chapter).

(** [.single()] on the rows a filter selects. *)
Definition single_row {D : Type} (r : option (list D) * option PostgrestError)
  : option D * option PostgrestError :=
  match r with
  | (Some [row], error) => (Some row, error)
  | (Some _, _) => (None, Some {| message := "no rows"; code := "PGRST116" |})
  | (None, error) => (None, error)
  end.

(** [.order('order_index')] on questions. *)
Definition order_questions (l : list QuizQuestion.t) : list QuizQuestion.t :=
  @merge_sort _ (fun a b => QuizQuestion.order_index a <= QuizQuestion.order_index b)
    (fun a b => decide (QuizQuestion.order_index a <= QuizQuestion.order_index b)) l.

(** [fetchQuizData]: the quiz of a chapter, then its questions.  The two
    tables are read only; they are given as [quizzes] and
    [quiz_questions]. *)
Definition fetchQuizData (quizzes : list Quiz.t) (quiz_questions : list QuizQuestion.t)
    (f_quiz f_questions : Fault) (chapterId : string) (isStartQuiz : bool) : M World unit :=
  try_catch
    (let* r := await f_quiz (fun _ =>
       filter (fun q => Quiz.chapter_id q = chapterId
                        ∧ Quiz.is_start_quiz q = isStartQuiz
                        ∧ Quiz.is_end_quiz q = negb isStartQuiz) quizzes) in
     let '(quizData, quizError) := single_row r in
     let* _ := throw_if_error quizError in
     match quizData with
     | None => throw
     | Some quizData =>
         let* '(questionsData, questionsError) := await f_questions (fun _ =>
           order_questions
             (filter (fun q => QuizQuestion.quiz_id q = Quiz.id quizData) quiz_questions)) in
         let* _ := throw_if_error questionsError in
         let* _ := modify (on_ui (setCurrentQuiz (Some quizData))) in
         let* _ := modify (on_ui (setQuizQuestions (default [] questionsData))) in
         modify (on_ui (setShowQuiz true))
     end)
    (modify (on_ui (toast (error_toast "Failed to load quiz.")))).

(** The quiz modal is on screen. *)
Definition quiz_modal_shown (s : State) : bool :=
  showQuiz s && bool_decide (is_Some (currentQuiz s))
  && (Z.of_nat (length (quizQuestions s)) >? 0).

(** The local entry that [markChapterAsCompleted] writes over [old]:
    [{...old, completed_at: now, completed: true}]. *)
Definition completed_entry (now : string) (old : option Progress.t) : Progress.t :=
  Progress.merge
    {| Progress.user_id := None; Progress.course_id := None;
       Progress.chapter_id := None; Progress.started_at := None;
       Progress.completed := Some true; Progress.completed_at := Some now;
       Progress.quiz_attempts := None; Progress.updated_at := None |}
    (default Progress.empty old).

(** The "Previous" and "Next" buttons below a chapter. *)
Definition currentChapterIndex (s : State) (currentChapter : Chapter.t) : Z :=
  findIndex (fun ch => String.eqb (Chapter.id ch) (Chapter.id currentChapter)) (chapters s).

Definition previousChapter_disabled (s : State) (currentChapter : Chapter.t) : bool :=
  currentChapterIndex s currentChapter =? 0.

Definition previousChapter_click (s : State) : State :=
  match currentChapter s with
  | Some current =>
      let currentIndex := currentChapterIndex s current in
      if currentIndex >? 0
      then setCurrentChapter (nth_Z (chapters s) (currentIndex - 1)) s
      else s
  | None => s
  end.

Definition nextChapter_disabled (s : State) (currentChapter : Chapter.t) : bool :=
  currentChapterIndex s currentChapter =? Z.of_nat (length (chapters s)) - 1.

Definition nextChapter_click (s : State) : State :=
  match currentChapter s with
  | Some current =>
      let currentIndex := currentChapterIndex s current in
      if currentIndex <? Z.of_nat (length (chapters s)) - 1
      then setCurrentChapter (nth_Z (chapters s) (currentIndex + 1)) s
      else s
  | None => s
  end.

End CourseLearning.

(** ** The quiz modal of the course page

    [{showQuiz && currentQuiz && quizQuestions.length > 0 && (...
    <QuizTaker quiz={currentQuiz} questions={quizQuestions}
    onQuizComplete={handleQuizComplete} ... />)}]: the page mounts the quiz
    taker on its current quiz.  Both components work on the same tables
    and show their toasts in the same toaster. *)

Module QuizModal.

(** How the requests of one submission end: those of the quiz taker, then
    those of the page's [handleQuizComplete]. *)
Record Faults := {
  taker_auth : Fault;
  taker_select : Fault;
  taker_upsert : Fault;
  page_select : Fault;
  page_upsert : Fault }.

Definition no_faults : Faults :=
  {| taker_auth := NoFault; taker_select := NoFault; taker_upsert := NoFault;
     page_select := NoFault; page_upsert := NoFault |}.

(** The properties the page passes while the modal is shown.  [wired]
    tells the versions of the page apart: the first one passes its handler
    as [onComplete]. *)
Definition props (wired : bool) (s : CourseLearning.State) : option QuizTaker.Props :=
  if CourseLearning.quiz_modal_shown s
  then (fun quiz =>
          {| QuizTaker.quiz := quiz;
             QuizTaker.questions := CourseLearning.quizQuestions s;
             QuizTaker.onQuizComplete_given := wired |}) <$> CourseLearning.currentQuiz s
  else None.

(** The quiz taker of the modal in state [t]. *)
Definition taker (t : QuizTaker.State) (w : CourseLearning.World) : QuizTaker.World :=
  {| QuizTaker.state := t;
     QuizTaker.backend := CourseLearning.backend w;
     QuizTaker.toasts := CourseLearning.toasts (CourseLearning.ui w);
     QuizTaker.onQuizComplete := [] |}.

(** The page once the quiz taker has run. *)
Definition page (tw : QuizTaker.World) (w : CourseLearning.World) : CourseLearning.World :=
  {| CourseLearning.backend := QuizTaker.backend tw;
     CourseLearning.ui := CourseLearning.setToasts (QuizTaker.toasts tw) (CourseLearning.ui w) |}.

(** A click on the submit button of the modal, the quiz taker being in
    state [t]: its [handleSubmitQuiz] runs, as the user of the page's
    profile, then the page's [handleQuizComplete] for every call of
    [onQuizComplete].  [now] and [now'] are the clock readings of the two
    handlers. *)
Definition submit (wired : bool) (ctx : CourseLearning.Context) (now now' : string)
    (f : Faults) (t : QuizTaker.State) (w : CourseLearning.World) : CourseLearning.World :=
  match props wired (CourseLearning.ui w) with
  | None => w
  | Some p =>
      let tw :=
        exec (QuizTaker.handleSubmitQuiz p now
                (Profile.user_id <$> CourseLearning.profile ctx)
                (taker_auth f) (taker_select f) (taker_upsert f))
             (taker t w) in
      fold_left
        (fun w '(score, passed) =>
           exec (CourseLearning.handleQuizComplete ctx now' (page_select f) (page_upsert f)
                   score passed) w)
        (QuizTaker.onQuizComplete tw) (page tw w)
  end.

End QuizModal.

(** ** The dashboard (component [StudentDashboard]) *)

Module StudentDashboard.

Record CourseProgress := {
  course_id : string;
  completed_chapters : Z;
  total_chapters : Z;
  completion_percentage : Number }.

Record State := {
  universityCourses : list Course.t;
  publicCourses : list Course.t;
  purchasedCourses : list Course.t;
  isLoading : bool;
  courseProgress : gmap string CourseProgress;
  (** the toasts shown, oldest first *)
  toasts : list Toast }.

Definition initial : State :=
  {| universityCourses := []; publicCourses := []; purchasedCourses := [];
     isLoading := true; courseProgress := ∅; toasts := [] |}.

Definition setUniversityCourses (v : list Course.t) (s : State) : State :=
  {| universityCourses := v; publicCourses := publicCourses s;
     purchasedCourses := purchasedCourses s; isLoading := isLoading s;
     courseProgress := courseProgress s; toasts := toasts s |}.

Definition setPublicCourses (v : list Course.t) (s : State) : State :=
  {| universityCourses := universityCourses s; publicCourses := v;
     purchasedCourses := purchasedCourses s; isLoading := isLoading s;
     courseProgress := courseProgress s; toasts := toasts s |}.

Definition setPurchasedCourses (v : list Course.t) (s : State) : State :=
  {| universityCourses := universityCourses s; publicCourses := publicCourses s;
     purchasedCourses := v; isLoading := isLoading s;
     courseProgress := courseProgress s; toasts := toasts s |}.

Definition setIsLoading (v : bool) (s : State) : State :=
  {| universityCourses := universityCourses s; publicCourses := publicCourses s;
     purchasedCourses := purchasedCourses s; isLoading := v;
     courseProgress := courseProgress s; toasts := toasts s |}.

Definition setCourseProgress (v : gmap string CourseProgress) (s : State) : State :=
  {| universityCourses := universityCourses s; publicCourses := publicCourses s;
     purchasedCourses := purchasedCourses s; isLoading := isLoading s;
     courseProgress := v; toasts := toasts s |}.

Definition toast (t : Toast) (s : State) : State :=
  {| universityCourses := universityCourses s; publicCourses := publicCourses s;
     purchasedCourses := purchasedCourses s; isLoading := isLoading s;
     courseProgress := courseProgress s; toasts := toasts s ++ [t] |}.

Record World := {
  backend : Backend.t;
  ui : State }.

Definition on_ui (f : State -> State) (w : World) : World :=
  {| backend := backend w; ui := f (ui w) |}.

#[global] Instance StudentDashboard_backend : HasBackend World := {
  get_backend := backend;
  put_backend b w := {| backend := b; ui := ui w |} }.

(** A call that is not awaited: what it throws is not the caller's. *)
Definition detached (m : M World unit) : M World unit :=
  fun w => (exec m w, Some tt).

(** [fetchCourses]: the three lists of the dashboard.  An error a query
    returns is logged and the list left as it was. *)
Definition fetchCourses (profile : option Profile.t) (f_university f_public f_purchased : Fault)
  : M World unit :=
  let* _ := modify (on_ui (setIsLoading true)) in
  let* _ :=
    match profile ≫= Profile.university_id with
    | Some university =>
        if String.eqb university "" then ret tt
        else
          let* '(uniCourses, uniError) := await f_university (fun b =>
            filter (fun c => Course.university_id c = Some university ∧ Course.is_active c = true)
                   (Backend.courses b)) in
          match uniError with
          | Some _ => ret tt
          | None => modify (on_ui (setUniversityCourses (default [] uniCourses)))
          end
    | None => ret tt
    end in
  let* '(pubCourses, pubError) := await f_public (fun b =>
    filter (fun c => Course.type_ c = "public" ∧ Course.is_active c = true) (Backend.courses b)) in
  let* _ :=
    match pubError with
    | Some _ => ret tt
    | None => modify (on_ui (setPublicCourses (default [] pubCourses)))
    end in
  let* _ :=
    match profile ≫= Profile.purchased_courses with
    | Some (first :: rest) =>
        let* '(purchCourses, purchError) := await f_purchased (fun b =>
          filter (fun c => Course.id c ∈ first :: rest) (Backend.courses b)) in
        match purchError with
        | Some _ => ret tt
        | None => modify (on_ui (setPurchasedCourses (default [] purchCourses)))
        end
    | _ => ret tt
    end in
  modify (on_ui (setIsLoading false)).

(** The loop of [fetchCourseProgress] over the purchased course ids; the
    two queries of a course end as [faults] says. *)
Fixpoint fetchCourseProgress_loop (profile : Profile.t) (faults : string -> Fault * Fault)
    (ids : list string) (progressData : gmap string CourseProgress)
  : M World (gmap string CourseProgress) :=
  match ids with
  | [] => ret progressData
  | courseId :: ids' =>
      let* '(chapters, _) := await (fst (faults courseId)) (fun b =>
        filter (fun c => Chapter.course_id c = courseId) (Backend.chapters b)) in
      let* '(progress, _) := await (snd (faults courseId)) (fun b =>
        filter (fun p => Progress.course_id p = Some courseId
                         ∧ Progress.user_id p = Some (Profile.user_id profile)
                         ∧ Progress.completed p = Some true)
               (map_to_list (Backend.student_progress b)).*2) in
      let totalChapters := default 0 (Z.of_nat ∘ length <$> chapters) in
      let completedChapters := default 0 (Z.of_nat ∘ length <$> progress) in
      let completionPercentage :=
        if totalChapters >? 0
        then Math_round (mul (div (of_Z completedChapters) (of_Z totalChapters)) (of_Z 100))
        else of_Z 0 in
      fetchCourseProgress_loop profile faults ids'
        (<[courseId := {| course_id := courseId;
                          completed_chapters := completedChapters;
                          total_chapters := totalChapters;
                          completion_percentage := completionPercentage |}]> progressData)
  end.

Definition fetchCourseProgress (profile : option Profile.t) (faults : string -> Fault * Fault)
  : M World unit :=
  match profile with
  | Some p =>
      match Profile.purchased_courses p with
      | Some (first :: rest) =>
          let* progressData := fetchCourseProgress_loop p faults (first :: rest) ∅ in
          modify (on_ui (setCourseProgress progressData))
      | _ => ret tt
      end
  | None => ret tt
  end.

Definition course_added : Toast :=
  {| toast_title := "Course Added!";
     toast_description := Text "Free course has been added to your library.";
     toast_variant := None |}.

Definition payment_integration : Toast :=
  {| toast_title := "Payment Integration";
     toast_description := Text "Payment system coming soon!";
     toast_variant := None |}.

Definition handlePurchaseCourse (profile : option Profile.t)
    (f_update f_university f_public f_purchased : Fault)
    (courseId : string) (course : Course.t) : M World unit :=
  if Course.is_free course then
    try_catch
      (let updatedPurchasedCourses :=
         default [] (profile ≫= Profile.purchased_courses) ++ [courseId] in
       let* error :=
         update_purchased_courses f_update (Profile.user_id <$> profile)
           updatedPurchasedCourses in
       let* _ := throw_if_error error in
       let* _ := modify (on_ui (toast course_added)) in
       detached (fetchCourses profile f_university f_public f_purchased))
      (modify (on_ui (toast (error_toast "Failed to add course. Please try again."))))
  else
    modify (on_ui (toast payment_integration)).

(** The route of the "Continue Learning" link of a course card; a card
    without it shows "Preview" and the purchase button. *)
Definition CourseCard_link (course : Course.t) (isPurchased isUniversityCourse : bool)
  : option string :=
  if isPurchased || isUniversityCourse
  then Some ("/course/" +:+ Course.id course)
  else None.

(** [profile?.purchased_courses?.includes(course.id)] *)
Definition in_purchased_courses (profile : option Profile.t) (course : Course.t) : bool :=
  default false ((fun purchased => bool_decide (Course.id course ∈ purchased))
                   <$> (profile ≫= Profile.purchased_courses)).

(** The links of the cards on the courses tab: the university section, "My
    Courses" and the marketplace (public courses not yet purchased). *)
Definition learning_links (profile : option Profile.t) (s : State) : list string :=
  omap (fun c => CourseCard_link c false true) (universityCourses s)
  ++ omap (fun c => CourseCard_link c true false) (purchasedCourses s)
  ++ omap (fun c => CourseCard_link c false false)
       (filter (fun c => in_purchased_courses profile c = false) (publicCourses s)).

End StudentDashboard.

(** ** The profile form (component [StudentProfile]) *)

Module StudentProfile.

(** The columns of a profile row that the [Profile] interface does not
    name ([(profile as any).phone] and so on). *)
Record Details := {
  phone : option string;
  address : option string;
  date_of_birth : option string;
  student_id : option string;
  year_of_study : option string;
  major : option string;
  bio : option string }.

Record Form := {
  form_name : string;
  form_email : string;
  form_phone : string;
  form_address : string;
  form_date_of_birth : string;
  form_student_id : string;
  form_university_id : string;
  form_year_of_study : string;
  form_major : string;
  form_bio : string }.

(** The form [loadProfileData] sets from the profile. *)
Definition loadProfileData (profile : Profile.t) (details : Details) : Form :=
  {| form_name := or_string (Some (Profile.name profile)) "";
     form_email := or_string (Some (Profile.email profile)) "";
     form_phone := or_string (phone details) "";
     form_address := or_string (address details) "";
     form_date_of_birth := or_string (date_of_birth details) "";
     form_student_id := or_string (student_id details) "";
     form_university_id := or_string (Profile.university_id profile) "no_university";
     form_year_of_study := or_string (year_of_study details) "";
     form_major := or_string (major details) "";
     form_bio := or_string (bio details) "" |}.

(** The columns [handleSave] sends to [profiles]. *)
Record Update := {
  update_name : string;
  update_university_id : option string;
  update_phone : string;
  update_address : string;
  update_date_of_birth : option string;
  update_student_id : string;
  update_year_of_study : string;
  update_major : string;
  update_bio : string }.

Definition handleSave_update (form : Form) : Update :=
  {| update_name := form_name form;
     update_university_id :=
       if String.eqb (form_university_id form) "no_university" then None
       else Some (form_university_id form);
     update_phone := form_phone form;
     update_address := form_address form;
     update_date_of_birth :=
       if truthy_string (Some (form_date_of_birth form)) then Some (form_date_of_birth form)
       else None;
     update_student_id := form_student_id form;
     update_year_of_study := form_year_of_study form;
     update_major := form_major form;
     update_bio := form_bio form |}.

End StudentProfile.

(** ** Invariants of the quiz taker *)

Section QuizInvariants.
Import QuizTaker.
Variable p : Props.

(** Every question before the current one has an entry in [answers]. *)
Definition earlier_answered (s : State) : Prop :=
  forall j q, 0 <= j < currentQuestionIndex s ->
    nth_Z (questions p) j = Some q -> is_Some (answers s !! QuizQuestion.id q).

Definition navigation_invariant (s : State) : Prop :=
  0 <= currentQuestionIndex s <= questions_length p - 1 /\ earlier_answered s.

End QuizInvariants.

(** ** Sample data *)

Module Sample.

(** Question [i] of a quiz: two options, the first one correct. *)
Definition question (i : nat) : QuizQuestion.t :=
  {| QuizQuestion.id := "q" +:+ pretty i;
     QuizQuestion.quiz_id := "quiz-1";
     QuizQuestion.question := "?";
     QuizQuestion.type_ := "multiple_choice";
     QuizQuestion.options := ["A"; "B"];
     QuizQuestion.correct_answer := "A";
     QuizQuestion.explanation := "";
     QuizQuestion.order_index := Z.of_nat i |}.

(** A start quiz of [n] questions for chapter [ch0]. *)
Definition quiz_of (n : nat) (passing_score : Z) : QuizTaker.Props :=
  {| QuizTaker.quiz :=
       {| Quiz.id := "quiz-1"; Quiz.title := "Quiz"; Quiz.chapter_id := "ch0";
          Quiz.is_start_quiz := true; Quiz.is_end_quiz := false;
          Quiz.passing_score := of_Z passing_score |};
     QuizTaker.questions := question <$> seq 0 n;
     QuizTaker.onQuizComplete_given := true |}.

(** The first [k] of [n] questions answered correctly, the others not. *)
Definition answers_of (k n : nat) : gmap string string :=
  list_to_map ((fun i => ("q" +:+ pretty i, if (i <? k)%nat then "A" else "B")) <$> seq 0 n).

Definition answered (k n : nat) : QuizTaker.State :=
  QuizTaker.setAnswers (fun _ => answers_of k n)
    (QuizTaker.setCurrentQuestionIndex (fun _ => Z.of_nat n - 1) QuizTaker.initial).

(** Two questions: answer the first, go on, answer the second. *)
Definition walk : list QuizTaker.Event :=
  [QuizTaker.SelectAnswer "A"; QuizTaker.ClickNext; QuizTaker.SelectAnswer "B"].

Definition after_walk : QuizTaker.State :=
  fold_left (QuizTaker.step (quiz_of 2 50)) walk QuizTaker.initial.

(** Chapter [i] of course [c-1], without a start quiz. *)
Definition chapter (i : nat) : Chapter.t :=
  {| Chapter.id := "ch" +:+ pretty i; Chapter.course_id := "c-1";
     Chapter.title := "Chapter"; Chapter.content := "text"; Chapter.video_url := "";
     Chapter.order_index := Z.of_nat i; Chapter.is_preview := false;
     Chapter.has_start_quiz := false; Chapter.has_end_quiz := false |}.

(** The progress row of user [u-1] for chapter [i]. *)
Definition progress_row (completed : bool) (i : nat) : Progress.t :=
  {| Progress.user_id := Some "u-1"; Progress.course_id := Some "c-1";
     Progress.chapter_id := Some ("ch" +:+ pretty i);
     Progress.started_at := Some "2024-01-01T00:00:00.000Z";
     Progress.completed := Some completed;
     Progress.completed_at := if completed then Some "2024-01-02T00:00:00.000Z" else None;
     Progress.quiz_attempts := None; Progress.updated_at := None |}.

(** The course page with [n] chapters, the first [k] of them completed. *)
Definition learning (k n : nat) : CourseLearning.State :=
  CourseLearning.setProgress
    (fun _ => list_to_map ((fun i => ("ch" +:+ pretty i, progress_row true i)) <$> seq 0 k))
    (CourseLearning.setChapters (chapter <$> seq 0 n) CourseLearning.initial).

(** A student of university [uni-1] who has purchased [purchased]. *)
Definition student (purchased : list string) : Profile.t :=
  {| Profile.user_id := "u-1"; Profile.name := "Student"; Profile.email := "s@example.org";
     Profile.role := "student"; Profile.university_id := Some "uni-1";
     Profile.purchased_courses := Some purchased |}.

(** [c-1] is assigned by the university, [c-2] is free, [c-3] is priced. *)
Definition university_course : Course.t :=
  {| Course.id := "c-1"; Course.title := "Algebra"; Course.description := "";
     Course.type_ := "university"; Course.category := "math";
     Course.university_id := Some "uni-1"; Course.is_active := true;
     Course.is_free := false |}.

Definition free_course : Course.t :=
  {| Course.id := "c-2"; Course.title := "Typing"; Course.description := "";
     Course.type_ := "public"; Course.category := "skills";
     Course.university_id := None; Course.is_active := true;
     Course.is_free := true |}.

Definition priced_course : Course.t :=
  {| Course.id := "c-3"; Course.title := "Design"; Course.description := "";
     Course.type_ := "public"; Course.category := "skills";
     Course.university_id := None; Course.is_active := true;
     Course.is_free := false |}.

(** A failed attempt at the start quiz, as the course page stores it. *)
Definition failed_attempt : Attempt.t :=
  {| Attempt.quiz_id := None; Attempt.score := of_Z 40; Attempt.passed := false;
     Attempt.answers := None; Attempt.completed_at := "2024-01-01T10:00:00.000Z";
     Attempt.is_start_quiz := None; Attempt.is_end_quiz := None;
     Attempt.quiz_type := Some "start" |}.

(** The tables: the three courses, three chapters of [c-1], the profile of
    [u-1] with [purchased], and [attempts] stored for chapter [ch0]. *)
Definition tables (purchased : list string) (attempts : option QuizAttempts) : Backend.t :=
  {| Backend.courses := [university_course; free_course; priced_course];
     Backend.chapters := chapter <$> seq 0 3;
     Backend.student_progress :=
       {[ ("u-1", "ch0") :=
            {| Progress.user_id := Some "u-1"; Progress.course_id := Some "c-1";
               Progress.chapter_id := Some "ch0";
               Progress.started_at := Some "2024-01-01T00:00:00.000Z";
               Progress.completed := Some false; Progress.completed_at := None;
               Progress.quiz_attempts := attempts; Progress.updated_at := None |} ]};
     Backend.profiles := {[ "u-1" := student purchased ]} |}.

Definition dashboard (purchased : list string) : StudentDashboard.World :=
  {| StudentDashboard.backend := tables purchased None;
     StudentDashboard.ui := StudentDashboard.initial |}.

(** The course page of [c-1], chapter [ch0] open, its start quiz just
    taken. *)
Definition page (purchased : list string) (attempts : option QuizAttempts) : CourseLearning.World :=
  {| CourseLearning.backend := tables purchased attempts;
     CourseLearning.ui :=
       CourseLearning.setCurrentQuiz (Some (QuizTaker.quiz (quiz_of 2 50)))
         (CourseLearning.setCurrentChapter (Some (chapter 0))
            (CourseLearning.setChapters (chapter <$> seq 0 3) CourseLearning.initial)) |}.

Definition page_context (purchased : list string) : CourseLearning.Context :=
  {| CourseLearning.courseId := Some "c-1";
     CourseLearning.profile := Some (student purchased) |}.

(** The quiz taker at the last question, everything answered. *)
Definition taker (attempts : option QuizAttempts) : QuizTaker.World :=
  {| QuizTaker.state := after_walk;
     QuizTaker.backend := tables ["c-1"] attempts;
     QuizTaker.toasts := [];
     QuizTaker.onQuizComplete := [] |}.

(** The tables of a course of [n] chapters of which user [u-1], who has
    purchased it, has completed the first [k]. *)
Definition course_tables (k n : nat) : Backend.t :=
  {| Backend.courses := [university_course];
     Backend.chapters := chapter <$> seq 0 n;
     Backend.student_progress :=
       list_to_map ((fun i => (("u-1", "ch" +:+ pretty i), progress_row true i)) <$> seq 0 k);
     Backend.profiles := {[ "u-1" := student ["c-1"] ]} |}.

End Sample.

(** ** Further sample data *)

Module Scenario.

(** The attempt the quiz taker stores after the walk of [Sample.walk]. *)
Definition taker_attempt : Attempt.t :=
  QuizTaker.quizAttempt (Sample.quiz_of 2 50) Sample.after_walk "2024-01-03T00:00:00.000Z".

(** The progress row of chapter [ch0] holding that attempt in an array. *)
Definition taker_row : Progress.t :=
  {| Progress.user_id := Some "u-1"; Progress.course_id := Some "c-1";
     Progress.chapter_id := Some "ch0";
     Progress.started_at := Some "2024-01-01T00:00:00.000Z";
     Progress.completed := Some false; Progress.completed_at := None;
     Progress.quiz_attempts := Some (AttemptsArray [taker_attempt] ∅);
     Progress.updated_at := Some "2024-01-03T00:00:00.000Z" |}.

(** The course page holding that row for chapter [ch0]. *)
Definition page_after_taker : CourseLearning.State :=
  CourseLearning.setProgress (fun _ => {[ "ch0" := taker_row ]})
    (CourseLearning.ui (Sample.page ["c-1"] None)).

(** A chapter with a start quiz. *)
Definition gated_chapter : Chapter.t :=
  {| Chapter.id := "ch0"; Chapter.course_id := "c-1";
     Chapter.title := "Chapter"; Chapter.content := "text"; Chapter.video_url := "";
     Chapter.order_index := 0; Chapter.is_preview := false;
     Chapter.has_start_quiz := true; Chapter.has_end_quiz := false |}.

(** The course page of [c-1] with the gated chapter open and its start
    quiz just taken, [attempts] stored for it. *)
Definition gated_page (attempts : option QuizAttempts) : CourseLearning.World :=
  {| CourseLearning.backend := Sample.tables ["c-1"] attempts;
     CourseLearning.ui :=
       CourseLearning.setCurrentQuiz (Some (QuizTaker.quiz (Sample.quiz_of 2 50)))
         (CourseLearning.setCurrentChapter (Some gated_chapter)
            (CourseLearning.setChapters [gated_chapter] CourseLearning.initial)) |}.

(** The quiz and question tables: the start quiz of [ch0] with three
    questions stored out of order, and a question of another quiz. *)
Definition quizzes : list Quiz.t := [QuizTaker.quiz (Sample.quiz_of 2 50)].

Definition quiz_questions : list QuizQuestion.t :=
  [Sample.question 2; Sample.question 0; Sample.question 1].

(** The tables before the student has any progress record. *)
Definition fresh_tables : Backend.t :=
  Backend.set_student_progress ∅ (Sample.tables ["c-1"] None).

(** The course page of [c-1] as loaded over these tables: chapter [ch0] is
    the current one. *)
Definition loaded_page : CourseLearning.World :=
  exec (CourseLearning.fetchCourseData (Sample.page_context ["c-1"]) NoFault NoFault NoFault)
    {| CourseLearning.backend := fresh_tables; CourseLearning.ui := CourseLearning.initial |}.

(** The student has selected chapter [ch0] in the list, which records it
    as started. *)
Definition started_page : CourseLearning.World :=
  exec (CourseLearning.handleChapterSelect (Sample.page_context ["c-1"])
          "2024-01-02T09:00:00.000Z" NoFault (Sample.chapter 0))
    loaded_page.

(** The student opens the start quiz of [ch0]. *)
Definition open_quiz (w : CourseLearning.World) : CourseLearning.World :=
  exec (CourseLearning.fetchQuizData quizzes quiz_questions NoFault NoFault "ch0" true) w.

(** The student opens the start quiz of [ch0] and submits it, the quiz
    taker being in state [t]; no request fails. *)
Definition take_quiz (now now' : string) (t : QuizTaker.State) (w : CourseLearning.World)
  : CourseLearning.World :=
  QuizModal.submit true (Sample.page_context ["c-1"]) now now' QuizModal.no_faults t
    (open_quiz w).

(** One of the three questions answered correctly, then all three. *)
Definition first_try : QuizTaker.State := Sample.answered 1 3.

Definition second_try : QuizTaker.State := Sample.answered 3 3.

End Scenario.

(** * Properties *)

(** ** Quiz navigation *)

Section QuizNavigation.
Import QuizTaker.
Variable p : Props.

Lemma truthy_string_Some (o : option string) :
  truthy_string o = true -> exists v, o = Some v /\ v <> "".
Proof.
  destruct o as [v|]; simpl; [|discriminate].
  intros Hv. exists v. split; [reflexivity|].
  intros ->. discriminate.
Qed.

(** What the enabled controls say about the state. *)
Lemma enabled_next_inv (s : State) :
  enabled p s ClickNext = true ->
  showResults s = false /\
  currentQuestionIndex s <> questions_length p - 1 /\
  exists q, currentQuestion p s = Some q /\
            truthy_string (answers s !! QuizQuestion.id q) = true.
Proof.
  unfold enabled, render. destruct (showResults s); [discriminate|].
  destruct (currentQuestion p s) as [q|]; [|discriminate].
  destruct (currentQuestionIndex s =? questions_length p - 1) eqn:Hlast; [discriminate|].
  intros Hd. apply negb_true_iff, negb_false_iff in Hd.
  apply Z.eqb_neq in Hlast. eauto.
Qed.

Lemma enabled_submit_inv (s : State) :
  enabled p s ClickSubmit = true ->
  showResults s = false /\
  currentQuestionIndex s = questions_length p - 1 /\
  exists q, currentQuestion p s = Some q /\
            truthy_string (answers s !! QuizQuestion.id q) = true.
Proof.
  unfold enabled, render. destruct (showResults s); [discriminate|].
  destruct (currentQuestion p s) as [q|]; [|discriminate].
  destruct (currentQuestionIndex s =? questions_length p - 1) eqn:Hlast; [|discriminate].
  intros Hd. apply negb_true_iff, orb_false_iff in Hd as [Hd _].
  apply negb_false_iff in Hd. apply Z.eqb_eq in Hlast. eauto.
Qed.

Lemma enabled_previous_inv (s : State) :
  enabled p s ClickPrevious = true -> currentQuestionIndex s <> 0.
Proof.
  unfold enabled, render. destruct (showResults s); [discriminate|].
  destruct (currentQuestion p s) as [q|]; [|discriminate].
  intros Hd.
  assert (negb (currentQuestionIndex s =? 0) = true) as Hz
    by (destruct (currentQuestionIndex s =? questions_length p - 1); exact Hd).
  apply negb_true_iff, Z.eqb_neq in Hz. exact Hz.
Qed.

Lemma step_preserves_invariant (s : State) (ev : Event) :
  navigation_invariant p s -> enabled p s ev = true -> navigation_invariant p (step p s ev).
Proof.
  intros [Hrange Hans] Hen. destruct ev as [| | |v]; simpl.
  - apply enabled_previous_inv in Hen. unfold handlePrevious.
    rewrite Z.gtb_ltb.
    destruct (Z.ltb_spec 0 (currentQuestionIndex s)) as [Hpos|Hpos]; [|lia].
    split; simpl; [lia|].
    intros j q Hj Hq. simpl in Hj. apply (Hans j q); [lia|exact Hq].
  - apply enabled_next_inv in Hen as (_ & Hlast & q & Hq & Htruthy).
    unfold handleNext.
    destruct (Z.ltb_spec (currentQuestionIndex s) (questions_length p - 1)) as [Hlt|Hlt];
      [|lia].
    split; simpl; [lia|].
    intros j q' Hj Hq'. simpl in Hj.
    destruct (decide (j = currentQuestionIndex s)) as [->|Hne].
    + unfold currentQuestion in Hq. rewrite Hq in Hq'. injection Hq' as <-.
      apply truthy_string_Some in Htruthy as (v & Hv & _).
      simpl. rewrite Hv. eauto.
    + apply (Hans j q'); [lia|exact Hq'].
  - split; simpl; [exact Hrange|exact Hans].
  - destruct (currentQuestion p s) as [q|]; [|split; assumption].
    split; simpl; [exact Hrange|].
    intros j q' Hj Hq'. apply lookup_insert_is_Some'. right. eauto.
Qed.

Lemma reachable_invariant (s : State) :
  1 <= questions_length p -> reachable p s -> navigation_invariant p s.
Proof.
  intros HN Hreach. induction Hreach as [|s ev _ IH Hen].
  - split; simpl; [lia|]. intros j q Hj. simpl in Hj. lia.
  - apply step_preserves_invariant; assumption.
Qed.

End QuizNavigation.

Section QuizFlow.
Import QuizTaker.

(** C9. Quiz navigation: from question 0, in every reachable state of a
    quiz of at least one question the index is within [0, N-1]; an enabled
    "Next" moves it by exactly +1 and is enabled only when the current
    question has a selected answer; an enabled "Previous" moves it by
    exactly -1; and "Submit" is on screen only at the last question. *)
Theorem quiz_navigation_state_machine (p : Props) (s : State) :
  1 <= questions_length p -> reachable p s ->
  currentQuestionIndex initial = 0
  /\ 0 <= currentQuestionIndex s <= questions_length p - 1
  /\ (enabled p s ClickNext = true ->
        currentQuestionIndex (step p s ClickNext) = currentQuestionIndex s + 1
        /\ exists q v, currentQuestion p s = Some q
                       /\ answers s !! QuizQuestion.id q = Some v /\ v <> "")
  /\ (enabled p s ClickPrevious = true ->
        currentQuestionIndex (step p s ClickPrevious) = currentQuestionIndex s - 1)
  /\ (forall q previous_disabled disabled,
        render p s = QuestionView q previous_disabled (SubmitButton disabled) ->
        currentQuestionIndex s = questions_length p - 1).
Proof.
  intros HN Hreach.
  destruct (reachable_invariant p s HN Hreach) as [Hrange _].
  split; [reflexivity|]. split; [exact Hrange|]. repeat split.
  - apply enabled_next_inv in H as (_ & Hlast & _).
    simpl. unfold handleNext.
    destruct (Z.ltb_spec (currentQuestionIndex s) (questions_length p - 1)); [reflexivity|lia].
  - apply enabled_next_inv in H as (_ & _ & q & Hq & Htruthy).
    apply truthy_string_Some in Htruthy as (v & Hv & Hne). eauto.
  - intros Hen. apply enabled_previous_inv in Hen.
    simpl. unfold handlePrevious. rewrite Z.gtb_ltb.
    destruct (Z.ltb_spec 0 (currentQuestionIndex s)); [reflexivity|lia].
  - intros q pd d. unfold render.
    destruct (showResults s); [discriminate|].
    destruct (currentQuestion p s); [|discriminate].
    destruct (Z.eqb_spec (currentQuestionIndex s) (questions_length p - 1)) as [Heq|Hne];
      [intros _; exact Heq|discriminate].
Qed.

Lemma quiz_navigation_state_machine_witness :
  1 <= questions_length (Sample.quiz_of 2 50)
  /\ enabled (Sample.quiz_of 2 50) (step (Sample.quiz_of 2 50) initial (SelectAnswer "A")) ClickNext = true
  /\ currentQuestionIndex
       (step (Sample.quiz_of 2 50) (step (Sample.quiz_of 2 50) initial (SelectAnswer "A")) ClickNext)
     = 0 + 1.
Proof.
  split; [vm_compute; discriminate|]. split; [reflexivity|].
  assert (reachable (Sample.quiz_of 2 50) (step (Sample.quiz_of 2 50) initial (SelectAnswer "A")))
    as Hreach by (apply reachable_step; [apply reachable_initial|reflexivity]).
  destruct (quiz_navigation_state_machine (Sample.quiz_of 2 50) _ ltac:(vm_compute; discriminate) Hreach)
    as (_ & _ & Hnext & _).
  destruct (Hnext eq_refl) as [Hidx _]. exact Hidx.
Defined.

(** C10. In every reachable state of a quiz of at least one question, when
    "Submit" is enabled the answers map has an entry for every one of the
    questions. *)
Theorem submit_enabled_all_answered (p : Props) (s : State) :
  1 <= questions_length p -> reachable p s -> enabled p s ClickSubmit = true ->
  forall q, q ∈ questions p -> is_Some (answers s !! QuizQuestion.id q).
Proof.
  intros HN Hreach Hen q Hq.
  destruct (reachable_invariant p s HN Hreach) as [Hrange Hans].
  apply enabled_submit_inv in Hen as (_ & Hlast & q' & Hq' & Htruthy).
  apply list_elem_of_lookup in Hq as [i Hi].
  pose proof (lookup_lt_Some _ _ _ Hi) as Hlen.
  unfold questions_length in *.
  destruct (decide (Z.of_nat i = currentQuestionIndex s)) as [Heq|Hne].
  - unfold currentQuestion, nth_Z in Hq'. rewrite <- Heq in Hq'.
    destruct (Z.ltb_spec (Z.of_nat i) 0); [lia|].
    rewrite Nat2Z.id, Hi in Hq'. injection Hq' as <-.
    apply truthy_string_Some in Htruthy as (v & Hv & _). eauto.
  - apply (Hans (Z.of_nat i)); [lia|].
    unfold nth_Z. destruct (Z.ltb_spec (Z.of_nat i) 0); [lia|].
    rewrite Nat2Z.id. exact Hi.
Qed.

Lemma submit_enabled_all_answered_witness :
  1 <= questions_length (Sample.quiz_of 2 50)
  /\ enabled (Sample.quiz_of 2 50) Sample.after_walk ClickSubmit = true
  /\ (forall q, q ∈ questions (Sample.quiz_of 2 50) ->
                is_Some (answers Sample.after_walk !! QuizQuestion.id q)).
Proof.
  split; [vm_compute; discriminate|]. split; [reflexivity|].
  apply (submit_enabled_all_answered (Sample.quiz_of 2 50) Sample.after_walk).
  - vm_compute. discriminate.
  - unfold Sample.after_walk, Sample.walk. cbv beta iota delta [fold_left].
    repeat (apply reachable_step; [|reflexivity]). apply reachable_initial.
  - reflexivity.
Defined.

End QuizFlow.

(** ** Percentages *)

Section Percentages.

Lemma percent_exact_below_40 (k n : Z) :
  1 <= n < 40 -> 0 <= k <= n ->
  round_percent k n = of_Z (round_half_up_percent k n).
Proof.
  intros Hn Hk.
  assert (percent_exact_below 40 = true) as Hall by (vm_compute; reflexivity).
  unfold percent_exact_below in Hall.
  rewrite forallb_forall in Hall.
  specialize (Hall (Z.to_nat n)).
  rewrite Z2Nat.id in Hall by lia.
  assert (percent_exact_upto_count n = true) as Hcount
    by (apply Hall, in_seq; lia).
  unfold percent_exact_upto_count in Hcount.
  rewrite forallb_forall in Hcount.
  eapply bool_decide_eq_true_1, Hcount.
  apply in_map_iff. exists (Z.to_nat k). split; [lia|apply in_seq; lia].
Qed.

Lemma round_half_up_percent_range (k n : Z) :
  1 <= n -> 0 <= k <= n -> 0 <= round_half_up_percent k n <= 100.
Proof.
  intros Hn Hk. unfold round_half_up_percent. split.
  - apply Z.div_pos; lia.
  - enough ((200 * k + n) / (2 * n) < 101) by lia.
    apply Z.div_lt_upper_bound; lia.
Qed.

End Percentages.

(** ** Quiz scoring *)

Section QuizScoring.
Import QuizTaker.

(** The loop counts the correctly answered questions, each once. *)
Lemma correctAnswers_count (p : Props) (s : State) :
  correctAnswers p s =
  Z.of_nat (length (filter (fun q => answers s !! QuizQuestion.id q
                                     = Some (QuizQuestion.correct_answer q))
                           (questions p))).
Proof.
  unfold correctAnswers.
  enough (forall l acc,
    fold_left (fun n q => if bool_decide (answers s !! QuizQuestion.id q
                                          = Some (QuizQuestion.correct_answer q))
                          then n + 1 else n) l acc
    = acc + Z.of_nat (length (filter (fun q => answers s !! QuizQuestion.id q
                                               = Some (QuizQuestion.correct_answer q)) l)))
    as Hgen by (rewrite Hgen; lia).
  induction l as [|q l IH]; intros acc; simpl; [lia|].
  rewrite IH, filter_cons. case_bool_decide; case_decide; try tauto; simpl; lia.
Qed.

Lemma correctAnswers_range (p : Props) (s : State) :
  0 <= correctAnswers p s <= questions_length p.
Proof.
  rewrite correctAnswers_count. unfold questions_length.
  pose proof (length_filter (fun q => answers s !! QuizQuestion.id q
                                      = Some (QuizQuestion.correct_answer q)) (questions p)).
  lia.
Qed.

(** Below forty questions the score is the rounded percentage of correct
    answers. *)
Lemma calculatedScore_exact_below_40 (p : Props) (s : State) :
  1 <= questions_length p < 40 ->
  calculatedScore p s
  = of_Z (round_half_up_percent (correctAnswers p s) (questions_length p)).
Proof.
  intros HN. apply percent_exact_below_40; [exact HN|apply correctAnswers_range].
Qed.

(** The component that [handleSubmitQuiz] leaves behind shows the results
    with the calculated score, whatever the requests do. *)
Lemma handleSubmitQuiz_state (p : Props) (now : string) (auth_user : option string)
    (f_auth f_select f_upsert : Fault) (w : World) :
  state (exec (handleSubmitQuiz p now auth_user f_auth f_select f_upsert) w)
  = submitted p (state w).
Proof.
  unfold handleSubmitQuiz, exec, try_catch, select_progress_single,
    upsert_progress_on_primary_key, await, bind, modify, gets, ret, throw.
  destruct f_auth; simpl; try reflexivity.
  destruct auth_user as [uid|]; simpl; [|reflexivity].
  destruct f_select, f_upsert; simpl; try reflexivity;
    destruct (Backend.student_progress (backend w) !! (uid, Quiz.chapter_id (quiz p)))
      eqn:Hrow;
    simpl; rewrite ?Hrow; simpl; destruct (onQuizComplete_given p); reflexivity.
Qed.

(** The example of the specification: four questions, three correct,
    passing score 75. *)
Example score_3_of_4 :
  calculatedScore (Sample.quiz_of 4 75) (Sample.answered 3 4) = of_Z 75
  /\ passed (Sample.quiz_of 4 75) (Sample.answered 3 4) = true.
Proof. split; vm_compute; reflexivity. Qed.

(** C2. A quiz of forty questions with twenty-three correct answers: the
    exact percentage is 57.5, which rounds to 58, but the score computed
    by [handleSubmitQuiz] is 57, so with a passing score of 58 the attempt
    is stored as not passed. *)
Theorem score_23_of_40 :
  questions_length (Sample.quiz_of 40 58) = 40
  /\ correctAnswers (Sample.quiz_of 40 58) (Sample.answered 23 40) = 23
  /\ round_half_up_percent 23 40 = 58
  /\ calculatedScore (Sample.quiz_of 40 58) (Sample.answered 23 40) = of_Z 57
  /\ passed (Sample.quiz_of 40 58) (Sample.answered 23 40) = false
  /\ geb (of_Z (round_half_up_percent 23 40)) (Quiz.passing_score (quiz (Sample.quiz_of 40 58)))
     = true.
Proof. repeat split; vm_compute; reflexivity. Qed.

End QuizScoring.

(** ** Chapter progress *)

Section ChapterProgress.
Import CourseLearning.

Lemma calculateProgress_empty (s : State) :
  chapters s = [] -> completionPercentage (calculateProgress s) = of_Z 0.
Proof. intros Hnil. unfold calculateProgress. rewrite Hnil. reflexivity. Qed.

(** A chapter counts once, and only when its progress entry is completed. *)
Lemma completed_chapters_range (s : State) :
  (length (filter (chapter_completed (progress s)) (chapters s)) <= length (chapters s))%nat.
Proof. apply length_filter. Qed.

Lemma calculateProgress_exact_below_40 (s : State) :
  (1 <= length (chapters s) < 40)%nat ->
  completionPercentage (calculateProgress s)
  = of_Z (round_half_up_percent
            (Z.of_nat (length (filter (chapter_completed (progress s)) (chapters s))))
            (Z.of_nat (length (chapters s)))).
Proof.
  intros Hlen. unfold calculateProgress. simpl.
  destruct (Z.gtb_spec (Z.of_nat (length (chapters s))) 0) as [_|Hle]; [|lia].
  pose proof (completed_chapters_range s).
  apply percent_exact_below_40; lia.
Qed.

Lemma to_Z_of_Z_percent (z : Z) : 0 <= z <= 100 -> to_Z (of_Z z) = Some z.
Proof.
  intros Hz.
  assert (forallb (fun n => bool_decide (to_Z (of_Z (Z.of_nat n)) = Some (Z.of_nat n)))
                  (seq 0 101) = true) as Hall by (vm_compute; reflexivity).
  rewrite forallb_forall in Hall.
  specialize (Hall (Z.to_nat z)). rewrite Z2Nat.id in Hall by lia.
  eapply bool_decide_eq_true_1, Hall, in_seq. lia.
Qed.

(** Below forty chapters the percentage shown is an integer of [0, 100]. *)
Lemma calculateProgress_range_below_40 (s : State) :
  (length (chapters s) < 40)%nat ->
  exists z, to_Z (completionPercentage (calculateProgress s)) = Some z /\ 0 <= z <= 100.
Proof.
  intros Hlen. destruct (chapters s) as [|c cs] eqn:Hchapters.
  - exists 0. rewrite calculateProgress_empty by exact Hchapters. split; [reflexivity|lia].
  - assert (1 <= length (chapters s) < 40)%nat as Hrange
      by (rewrite Hchapters in *; simpl in *; lia).
    rewrite (calculateProgress_exact_below_40 s Hrange).
    pose proof (completed_chapters_range s).
    assert (0 <= round_half_up_percent
                   (Z.of_nat (length (filter (chapter_completed (progress s)) (chapters s))))
                   (Z.of_nat (length (chapters s))) <= 100) as Hpercent
      by (apply round_half_up_percent_range; lia).
    eexists. split; [apply to_Z_of_Z_percent; exact Hpercent|exact Hpercent].
Qed.

(** C3. A course of forty chapters with twenty-three completed: the exact
    percentage is 57.5, which rounds to 58, but [calculateProgress] on the
    course page and [fetchCourseProgress] on the dashboard both give 57. *)
Theorem progress_23_of_40 :
  length (chapters (Sample.learning 23 40)) = 40%nat
  /\ length (filter (chapter_completed (progress (Sample.learning 23 40)))
                    (chapters (Sample.learning 23 40))) = 23%nat
  /\ round_half_up_percent 23 40 = 58
  /\ completionPercentage (calculateProgress (Sample.learning 23 40)) = of_Z 57
  /\ StudentDashboard.courseProgress
       (StudentDashboard.ui
          (exec (StudentDashboard.fetchCourseProgress (Some (Sample.student ["c-1"]))
                   (fun _ => (NoFault, NoFault)))
                {| StudentDashboard.backend := Sample.course_tables 23 40;
                   StudentDashboard.ui := StudentDashboard.initial |}))
     !! "c-1"
     = Some {| StudentDashboard.course_id := "c-1";
               StudentDashboard.completed_chapters := 23;
               StudentDashboard.total_chapters := 40;
               StudentDashboard.completion_percentage := of_Z 57 |}.
Proof. repeat split; vm_compute; reflexivity. Qed.

End ChapterProgress.

(** ** The start-quiz gate *)

Section AccessGate.
Import CourseLearning.

(** C1. The content of a chapter is accessible if and only if the chapter
    has no start quiz, or the attempts of its progress entry contain one of
    type "start" that is passed. *)
Theorem canAccessChapterContent_iff (s : State) (chapter : Chapter.t) :
  canAccessChapterContent s chapter = true <->
  Chapter.has_start_quiz chapter = false
  \/ exists entry attempts attempt,
       progress s !! Chapter.id chapter = Some entry
       /\ Progress.quiz_attempts entry = Some attempts
       /\ attempt ∈ Object_values attempts
       /\ Attempt.quiz_type attempt = Some "start"
       /\ Attempt.passed attempt = true.
Proof.
  unfold canAccessChapterContent, hasCompletedStartQuiz.
  destruct (Chapter.has_start_quiz chapter); simpl; [|tauto].
  destruct (progress s !! Chapter.id chapter) as [entry|]; simpl.
  - destruct (Progress.quiz_attempts entry) as [attempts|] eqn:Hstored.
    + rewrite existsb_exists. split.
      * intros (attempt & Hin & Hok). right.
        apply andb_true_iff in Hok as [Htype Hpassed].
        apply bool_decide_eq_true in Htype.
        exists entry, attempts, attempt.
        rewrite list_elem_of_In. repeat split; assumption.
      * intros [Hno|(entry' & attempts' & attempt & Hentry & Hattempts & Hin & Htype & Hpassed)];
          [discriminate|].
        injection Hentry as <-.
        assert (attempts = attempts') as -> by congruence.
        exists attempt. rewrite <- list_elem_of_In. split; [exact Hin|].
        apply andb_true_iff. split; [apply bool_decide_eq_true; exact Htype|exact Hpassed].
    + split; [discriminate|].
      intros [Hno|(entry' & attempts' & attempt & Hentry & Hattempts & _)]; [discriminate|].
      congruence.
  - split; [discriminate|].
    intros [Hno|(entry' & attempts' & attempt & Hentry & _)]; discriminate.
Qed.

End AccessGate.

(** ** Purchases *)

Section Purchases.
Import StudentDashboard.

(** Reloading the course lists reads the tables and writes none. *)
Lemma fetchCourses_backend (profile : option Profile.t) (f_university f_public f_purchased : Fault)
    (w : World) :
  backend (exec (fetchCourses profile f_university f_public f_purchased) w) = backend w.
Proof.
  unfold fetchCourses, exec, bind, modify, await, gets, ret, throw.
  destruct (profile ≫= Profile.university_id) as [university|]; simpl.
  - destruct (String.eqb university ""); simpl;
      destruct (profile ≫= Profile.purchased_courses) as [[|first rest]|]; simpl;
      destruct f_university, f_public, f_purchased; reflexivity.
  - destruct (profile ≫= Profile.purchased_courses) as [[|first rest]|]; simpl;
      destruct f_public, f_purchased; reflexivity.
Qed.

(** C7. Purchasing a priced course shows the "Payment Integration" toast
    and changes nothing else: the tables, and with them the stored list of
    purchased courses, and every other part of the dashboard are as
    before. *)
Theorem handlePurchaseCourse_priced (profile : option Profile.t)
    (f_update f_university f_public f_purchased : Fault)
    (courseId : string) (course : Course.t) (w : World) :
  Course.is_free course = false ->
  handlePurchaseCourse profile f_update f_university f_public f_purchased courseId course w
  = ({| backend := backend w;
        ui := {| universityCourses := universityCourses (ui w);
                 publicCourses := publicCourses (ui w);
                 purchasedCourses := purchasedCourses (ui w);
                 isLoading := isLoading (ui w);
                 courseProgress := courseProgress (ui w);
                 toasts := toasts (ui w) ++ [payment_integration] |} |}, Some tt).
Proof. intros Hpriced. unfold handlePurchaseCourse. rewrite Hpriced. reflexivity. Qed.

Lemma handlePurchaseCourse_priced_witness :
  Course.is_free Sample.priced_course = false
  /\ backend (exec (handlePurchaseCourse (Some (Sample.student [])) NoFault NoFault NoFault NoFault
                    "c-3" Sample.priced_course) (Sample.dashboard []))
     = Sample.tables [] None.
Proof.
  split; [reflexivity|].
  unfold exec.
  rewrite (handlePurchaseCourse_priced (Some (Sample.student [])) NoFault NoFault NoFault NoFault
             "c-3" Sample.priced_course (Sample.dashboard []) eq_refl).
  reflexivity.
Defined.

(** C4, as the code has it. A free-course purchase that the backend
    accepts stores the list of the signed-in profile with the course id
    appended: the id occurs once more than it did, hence exactly once when
    the profile did not have it. *)
Theorem handlePurchaseCourse_free_appends (profile row : Profile.t)
    (f_university f_public f_purchased : Fault)
    (courseId : string) (course : Course.t) (w : World) :
  Course.is_free course = true ->
  Backend.profiles (backend w) !! Profile.user_id profile = Some row ->
  let before := default [] (Profile.purchased_courses profile) in
  let w' := exec (handlePurchaseCourse (Some profile) NoFault f_university f_public f_purchased
                    courseId course) w in
  (Profile.purchased_courses <$> Backend.profiles (backend w') !! Profile.user_id profile)
  = Some (Some (before ++ [courseId]))
  /\ count_occ String.string_dec (before ++ [courseId]) courseId
     = S (count_occ String.string_dec before courseId)
  /\ (courseId ∉ before -> count_occ String.string_dec (before ++ [courseId]) courseId = 1%nat).
Proof.
  intros Hfree Hrow before w'.
  assert (count_occ String.string_dec (before ++ [courseId]) courseId
          = S (count_occ String.string_dec before courseId)) as Hcount.
  { rewrite count_occ_app. simpl. destruct (String.string_dec courseId courseId); [lia|congruence]. }
  split; [|split; [exact Hcount|]].
  - subst w'. unfold handlePurchaseCourse. rewrite Hfree.
    unfold exec, try_catch, bind, update_purchased_courses, modify, ret, throw_if_error,
      detached, bind. simpl.
    rewrite fetchCourses_backend. simpl.
    rewrite lookup_alter_eq, Hrow. reflexivity.
  - intros Hnew. rewrite Hcount.
    rewrite (proj1 (count_occ_not_In String.string_dec before courseId)); [reflexivity|].
    rewrite <- list_elem_of_In. exact Hnew.
Qed.

Lemma handlePurchaseCourse_free_appends_witness :
  Course.is_free Sample.free_course = true
  /\ (Profile.purchased_courses
       <$> Backend.profiles
             (backend (exec (handlePurchaseCourse (Some (Sample.student [])) NoFault NoFault
                               NoFault NoFault "c-2" Sample.free_course) (Sample.dashboard [])))
           !! "u-1")
     = Some (Some ["c-2"]).
Proof.
  split; [reflexivity|].
  exact (proj1 (handlePurchaseCourse_free_appends (Sample.student []) (Sample.student [])
                  NoFault NoFault NoFault "c-2" Sample.free_course (Sample.dashboard [])
                  eq_refl eq_refl)).
Defined.

(** The claim of C4 fails when the profile already has the course: the
    stored list then holds the id twice. *)
Lemma free_purchase_twice :
  Course.is_free Sample.free_course = true
  /\ (Profile.purchased_courses
       <$> Backend.profiles
             (backend (exec (handlePurchaseCourse (Some (Sample.student ["c-2"])) NoFault NoFault
                               NoFault NoFault "c-2" Sample.free_course)
                            (Sample.dashboard ["c-2"])))
           !! "u-1")
     = Some (Some ["c-2"; "c-2"])
  /\ count_occ String.string_dec ["c-2"; "c-2"] "c-2" <> 1%nat.
Proof. split; [reflexivity|]. split; [vm_compute; reflexivity|vm_compute; discriminate]. Qed.

End Purchases.

(** ** Authorization of the course page *)

Section Authorization.

Lemma hasAccess_iff (profile : Profile.t) (courseId : string) :
  CourseLearning.hasAccess profile courseId = true <->
  (exists purchased, Profile.purchased_courses profile = Some purchased /\ courseId ∈ purchased)
  \/ Profile.role profile = "admin".
Proof.
  unfold CourseLearning.hasAccess. rewrite orb_true_iff, String.eqb_eq.
  destruct (Profile.purchased_courses profile) as [purchased|]; simpl.
  - rewrite bool_decide_eq_true. split.
    + intros [Hin|Hadmin]; [left; eauto|right; exact Hadmin].
    + intros [(l & Hl & Hin)|Hadmin]; [left; congruence|right; exact Hadmin].
  - split.
    + intros [Hin|Hadmin]; [discriminate|right; exact Hadmin].
    + intros [(l & Hl & Hin)|Hadmin]; [discriminate|right; exact Hadmin].
Qed.

(** Without access the page shows "Access Denied" and goes to the
    dashboard; nothing is fetched. *)
Lemma fetchCourseData_denied (ctx : CourseLearning.Context) (courseId : string)
    (profile : Profile.t) (f_course f_chapters f_progress : Fault) (w : CourseLearning.World) :
  CourseLearning.courseId ctx = Some courseId -> courseId <> "" ->
  CourseLearning.profile ctx = Some profile ->
  CourseLearning.hasAccess profile courseId = false ->
  CourseLearning.fetchCourseData ctx f_course f_chapters f_progress w
  = (CourseLearning.on_ui
       (fun s => CourseLearning.setIsLoading false
                   (CourseLearning.navigate "/dashboard"
                      (CourseLearning.toast CourseLearning.access_denied
                         (CourseLearning.setIsLoading true s)))) w, Some tt).
Proof.
  intros Hid Hne Hprofile Hdenied. unfold CourseLearning.fetchCourseData.
  rewrite Hid, Hprofile.
  apply String.eqb_neq in Hne. rewrite Hne, Hdenied. reflexivity.
Qed.

(** With access the page never navigates away. *)
Lemma fetchCourseData_granted (ctx : CourseLearning.Context) (courseId : string)
    (profile : Profile.t) (f_course f_chapters f_progress : Fault) (w : CourseLearning.World) :
  CourseLearning.courseId ctx = Some courseId ->
  CourseLearning.profile ctx = Some profile ->
  CourseLearning.hasAccess profile courseId = true ->
  CourseLearning.navigated
    (CourseLearning.ui (exec (CourseLearning.fetchCourseData ctx f_course f_chapters f_progress) w))
  = CourseLearning.navigated (CourseLearning.ui w).
Proof.
  intros Hid Hprofile Hgranted. unfold CourseLearning.fetchCourseData.
  rewrite Hid, Hprofile.
  destruct (String.eqb courseId ""); [reflexivity|].
  rewrite Hgranted.
  unfold exec, try_catch, bind, await, gets, modify, ret, throw, throw_if_error, single.
  destruct f_course; simpl; try reflexivity.
  destruct (find _ _); simpl; try reflexivity.
  destruct f_chapters; simpl; try reflexivity.
  destruct (CourseLearning.order_by_index _); simpl;
    destruct f_progress; reflexivity.
Qed.

(** C5. A student whose university assigns course [c-1] and who has not
    purchased it: the dashboard lists the course under the university's
    courses with a "Continue Learning" link to its page, and the page
    answers with "Access Denied" and goes back to the dashboard. *)
Theorem university_course_redirected :
  Sample.university_course
    ∈ StudentDashboard.universityCourses
        (StudentDashboard.ui
           (exec (StudentDashboard.fetchCourses (Some (Sample.student [])) NoFault NoFault NoFault)
                 (Sample.dashboard [])))
  /\ "/course/c-1"
     ∈ StudentDashboard.learning_links (Some (Sample.student []))
         (StudentDashboard.ui
            (exec (StudentDashboard.fetchCourses (Some (Sample.student [])) NoFault NoFault NoFault)
                  (Sample.dashboard [])))
  /\ CourseLearning.hasAccess (Sample.student []) "c-1" = false
  /\ CourseLearning.navigated
       (CourseLearning.ui
          (exec (CourseLearning.fetchCourseData (Sample.page_context []) NoFault NoFault NoFault)
                (Sample.page [] None)))
     = ["/dashboard"]
  /\ CourseLearning.toasts
       (CourseLearning.ui
          (exec (CourseLearning.fetchCourseData (Sample.page_context []) NoFault NoFault NoFault)
                (Sample.page [] None)))
     = [CourseLearning.access_denied].
Proof.
  split; [vm_compute; apply list_elem_of_here|].
  split; [vm_compute; apply list_elem_of_here|].
  split; [reflexivity|].
  split; reflexivity.
Qed.

End Authorization.

(** ** Failed requests *)

Section Failures.

Lemma markChapterAsCompleted_failed (ctx : CourseLearning.Context) (now : string) (f : Fault)
    (chapterId : string) (w : CourseLearning.World) :
  f <> NoFault -> is_Some (CourseLearning.profile ctx) ->
  CourseLearning.markChapterAsCompleted ctx now f chapterId w
  = (CourseLearning.on_ui (CourseLearning.toast (error_toast "Failed to save progress.")) w,
     Some tt).
Proof.
  intros Hf [profile Hprofile]. unfold CourseLearning.markChapterAsCompleted.
  rewrite Hprofile. destruct f; [congruence| |]; destruct w; reflexivity.
Qed.

Lemma handleQuizComplete_failed (ctx : CourseLearning.Context) (now : string)
    (f_select f_upsert : Fault) (score : Number) (passed : bool) (w : CourseLearning.World) :
  is_Some (CourseLearning.currentQuiz (CourseLearning.ui w)) ->
  is_Some (CourseLearning.profile ctx) ->
  is_Some (CourseLearning.currentChapter (CourseLearning.ui w)) ->
  select_fails f_select \/ f_upsert <> NoFault ->
  CourseLearning.handleQuizComplete ctx now f_select f_upsert score passed w
  = (CourseLearning.on_ui (CourseLearning.toast (error_toast "Failed to save quiz results.")) w,
     Some tt).
Proof.
  intros [quiz Hquiz] [profile Hprofile] [chapter Hchapter] Hfail.
  unfold CourseLearning.handleQuizComplete, bind, gets.
  rewrite Hquiz, Hprofile, Hchapter.
  unfold try_catch, select_progress_single, upsert_progress, await, bind, gets, modify, ret,
    throw, throw_if_error, single.
  destruct w as [b s]. simpl in *.
  destruct f_select as [|e|]; simpl.
  - destruct Hfail as [[]|Hupsert].
    destruct (Backend.student_progress b !! _); simpl;
      (destruct f_upsert; [congruence|reflexivity|reflexivity]).
  - destruct (String.eqb (code e) "PGRST116") eqn:Hcode; simpl; [|reflexivity].
    apply String.eqb_eq in Hcode.
    destruct Hfail as [Hselect|Hupsert]; [simpl in Hselect; congruence|].
    destruct f_upsert; [congruence|reflexivity|reflexivity].
  - reflexivity.
Qed.

Lemma handlePurchaseCourse_failed (profile : option Profile.t)
    (f_update f_university f_public f_purchased : Fault) (courseId : string) (course : Course.t)
    (w : StudentDashboard.World) :
  Course.is_free course = true -> f_update <> NoFault ->
  StudentDashboard.handlePurchaseCourse profile f_update f_university f_public f_purchased
    courseId course w
  = (StudentDashboard.on_ui
       (StudentDashboard.toast (error_toast "Failed to add course. Please try again.")) w,
     Some tt).
Proof.
  intros Hfree Hf. unfold StudentDashboard.handlePurchaseCourse. rewrite Hfree.
  destruct f_update; [congruence| |]; destruct w; reflexivity.
Qed.

(** Whatever the requests do, each of the three handlers returns. *)
Lemma markChapterAsCompleted_returns (ctx : CourseLearning.Context) (now : string) (f : Fault)
    (chapterId : string) (w : CourseLearning.World) :
  snd (CourseLearning.markChapterAsCompleted ctx now f chapterId w) = Some tt.
Proof.
  unfold CourseLearning.markChapterAsCompleted.
  destruct (CourseLearning.profile ctx); [|reflexivity].
  unfold try_catch, upsert_progress, bind, gets, modify, ret, throw, throw_if_error.
  destruct f; simpl; try reflexivity.
  destruct (_ <? _); reflexivity.
Qed.

Lemma handleQuizComplete_returns (ctx : CourseLearning.Context) (now : string)
    (f_select f_upsert : Fault) (score : Number) (passed : bool) (w : CourseLearning.World) :
  snd (CourseLearning.handleQuizComplete ctx now f_select f_upsert score passed w) = Some tt.
Proof.
  unfold CourseLearning.handleQuizComplete, bind, gets.
  destruct w as [b s]. simpl.
  destruct (CourseLearning.currentQuiz s), (CourseLearning.profile ctx),
    (CourseLearning.currentChapter s); try reflexivity.
  unfold try_catch, select_progress_single, upsert_progress, await, bind, gets, modify, ret,
    throw, throw_if_error, single.
  destruct f_select as [|e|]; simpl; try reflexivity.
  - destruct (Backend.student_progress _ !! _); simpl; destruct f_upsert; reflexivity.
  - destruct (String.eqb (code e) "PGRST116"); simpl; [|reflexivity].
    destruct f_upsert; reflexivity.
Qed.

Lemma handlePurchaseCourse_returns (profile : option Profile.t)
    (f_update f_university f_public f_purchased : Fault) (courseId : string) (course : Course.t)
    (w : StudentDashboard.World) :
  snd (StudentDashboard.handlePurchaseCourse profile f_update f_university f_public f_purchased
         courseId course w) = Some tt.
Proof.
  unfold StudentDashboard.handlePurchaseCourse.
  destruct (Course.is_free course); [|reflexivity].
  unfold try_catch, update_purchased_courses, bind, modify, ret, throw, throw_if_error,
    StudentDashboard.detached.
  destruct f_update; reflexivity.
Qed.

(** The quiz taker does not look at the error its upsert returns: nothing
    is stored, the score toast is shown and [onQuizComplete] is called. *)
Lemma handleSubmitQuiz_error_ignored (p : QuizTaker.Props) (now uid : string)
    (e : PostgrestError) (w : QuizTaker.World) :
  QuizTaker.onQuizComplete_given p = true ->
  QuizTaker.handleSubmitQuiz p now (Some uid) NoFault NoFault (ReturnsError e) w
  = ({| QuizTaker.state := QuizTaker.submitted p (QuizTaker.state w);
        QuizTaker.backend := QuizTaker.backend w;
        QuizTaker.toasts :=
          QuizTaker.toasts w
          ++ [score_toast (QuizTaker.calculatedScore p (QuizTaker.state w))
                (QuizTaker.passed p (QuizTaker.state w))];
        QuizTaker.onQuizComplete :=
          QuizTaker.onQuizComplete w
          ++ [(QuizTaker.calculatedScore p (QuizTaker.state w),
               QuizTaker.passed p (QuizTaker.state w))] |},
     Some tt).
Proof.
  intros Hgiven.
  unfold QuizTaker.handleSubmitQuiz, try_catch, select_progress_single,
    upsert_progress_on_primary_key, await, bind, gets, modify, ret, throw, single.
  rewrite Hgiven. destruct w as [s b ts calls]. simpl.
  destruct (Backend.student_progress b !! (uid, Quiz.chapter_id (QuizTaker.quiz p)));
    reflexivity.
Qed.

(** So it is when the backend refuses the insert because the chapter has a
    progress record. *)
Lemma handleSubmitQuiz_refused (p : QuizTaker.Props) (now uid : string)
    (row : Progress.t) (w : QuizTaker.World) :
  QuizTaker.onQuizComplete_given p = true ->
  Backend.student_progress (QuizTaker.backend w) !! (uid, Quiz.chapter_id (QuizTaker.quiz p))
  = Some row ->
  QuizTaker.handleSubmitQuiz p now (Some uid) NoFault NoFault NoFault w
  = ({| QuizTaker.state := QuizTaker.submitted p (QuizTaker.state w);
        QuizTaker.backend := QuizTaker.backend w;
        QuizTaker.toasts :=
          QuizTaker.toasts w
          ++ [score_toast (QuizTaker.calculatedScore p (QuizTaker.state w))
                (QuizTaker.passed p (QuizTaker.state w))];
        QuizTaker.onQuizComplete :=
          QuizTaker.onQuizComplete w
          ++ [(QuizTaker.calculatedScore p (QuizTaker.state w),
               QuizTaker.passed p (QuizTaker.state w))] |},
     Some tt).
Proof.
  intros Hgiven Hrow.
  unfold QuizTaker.handleSubmitQuiz, try_catch, select_progress_single,
    upsert_progress_on_primary_key, await, bind, gets, modify, ret, throw, single.
  rewrite Hgiven. destruct w as [s b ts calls]. simpl in *.
  rewrite Hrow. simpl. rewrite Hrow. reflexivity.
Qed.

(** A rejected request of the quiz taker is caught and reported. *)
Lemma handleSubmitQuiz_rejected (p : QuizTaker.Props) (now uid : string) (w : QuizTaker.World) :
  let w' := exec (QuizTaker.handleSubmitQuiz p now (Some uid) NoFault NoFault Rejects) w in
  QuizTaker.backend w' = QuizTaker.backend w
  /\ QuizTaker.toasts w' = QuizTaker.toasts w ++ [error_toast "Failed to save quiz results"]
  /\ QuizTaker.onQuizComplete w' = QuizTaker.onQuizComplete w.
Proof.
  unfold QuizTaker.handleSubmitQuiz, exec, try_catch, select_progress_single,
    upsert_progress_on_primary_key, await, bind, gets, modify, ret, throw, single.
  destruct w as [s b ts calls]. simpl.
  destruct (Backend.student_progress b !! (uid, Quiz.chapter_id (QuizTaker.quiz p)));
    repeat split.
Qed.

(** A chapter marked as completed: once the upsert has succeeded the local
    entry is completed. *)
Lemma markChapterAsCompleted_succeeded (ctx : CourseLearning.Context) (now chapterId : string)
    (w : CourseLearning.World) :
  is_Some (CourseLearning.profile ctx) ->
  CourseLearning.progress
    (CourseLearning.ui (exec (CourseLearning.markChapterAsCompleted ctx now NoFault chapterId) w))
    !! chapterId ≫= Progress.completed = Some true.
Proof.
  intros [profile Hprofile]. unfold CourseLearning.markChapterAsCompleted. rewrite Hprofile.
  unfold exec, try_catch, upsert_progress, bind, gets, modify, ret, throw, throw_if_error.
  simpl. destruct (_ <? _); simpl; rewrite lookup_insert_eq; reflexivity.
Qed.

(** C8. Saving a quiz attempt in the quiz taker.  When the upsert of
    [handleSubmitQuiz] comes back with an error, the handler returns
    normally and nothing is stored, but the only toast shown is the score
    toast ("Quiz Passed!" or "Quiz Completed"), not an error, and the
    results are on screen.  So it is for every error the request returns,
    and on the sample data for the chapter [ch0], whose progress record
    exists, so that the insert is refused as a duplicate: the user is told
    "Quiz Passed!" and no attempt is stored. *)
Theorem quiz_save_failure_not_reported :
  (forall quiz questions now uid e w,
     let p := {| QuizTaker.quiz := quiz; QuizTaker.questions := questions;
                 QuizTaker.onQuizComplete_given := true |} in
     let shown := score_toast (QuizTaker.calculatedScore p (QuizTaker.state w))
                    (QuizTaker.passed p (QuizTaker.state w)) in
     let r := QuizTaker.handleSubmitQuiz p now (Some uid) NoFault NoFault (ReturnsError e) w in
     snd r = Some tt
     /\ QuizTaker.backend (fst r) = QuizTaker.backend w
     /\ QuizTaker.showResults (QuizTaker.state (fst r)) = true
     /\ QuizTaker.toasts (fst r) = QuizTaker.toasts w ++ [shown]
     /\ toast_title shown <> "Error")
  /\ (let r := QuizTaker.handleSubmitQuiz (Sample.quiz_of 2 50) "2024-01-03T00:00:00.000Z"
                 (Some "u-1") NoFault NoFault NoFault (Sample.taker None) in
      snd r = Some tt
      /\ is_Some (Backend.student_progress (QuizTaker.backend (Sample.taker None))
                    !! ("u-1", "ch0"))
      /\ QuizTaker.backend (fst r) = QuizTaker.backend (Sample.taker None)
      /\ stored_attempts (QuizTaker.backend (fst r)) "u-1" "ch0" = None
      /\ QuizTaker.showResults (QuizTaker.state (fst r)) = true
      /\ toast_title <$> QuizTaker.toasts (fst r) = ["Quiz Passed!"]).
Proof.
  split.
  - intros quiz questions now uid e w p shown r. subst r.
    rewrite handleSubmitQuiz_error_ignored by reflexivity. simpl.
    repeat split. subst shown. unfold score_toast. simpl.
    destruct (QuizTaker.passed p (QuizTaker.state w)); discriminate.
  - simpl. repeat split; try (vm_compute; reflexivity).
    eexists. vm_compute. reflexivity.
Qed.

(** X1. When its request fails, each of the three handlers that check the
    returned error (marking a chapter completed, the course page saving a
    quiz attempt, adding a free course) returns normally, leaves the
    tables and the component state as they were, the local progress map
    included, and shows an error toast. *)
Theorem failed_request_leaves_state :
  (forall ctx now f chapterId w,
     f <> NoFault -> is_Some (CourseLearning.profile ctx) ->
     let r := CourseLearning.markChapterAsCompleted ctx now f chapterId w in
     snd r = Some tt
     /\ CourseLearning.backend (fst r) = CourseLearning.backend w
     /\ CourseLearning.progress (CourseLearning.ui (fst r))
        = CourseLearning.progress (CourseLearning.ui w)
     /\ CourseLearning.ui (fst r)
        = CourseLearning.toast (error_toast "Failed to save progress.") (CourseLearning.ui w))
  /\ (forall ctx now f_select f_upsert score passed w,
        is_Some (CourseLearning.currentQuiz (CourseLearning.ui w)) ->
        is_Some (CourseLearning.profile ctx) ->
        is_Some (CourseLearning.currentChapter (CourseLearning.ui w)) ->
        select_fails f_select \/ f_upsert <> NoFault ->
        let r := CourseLearning.handleQuizComplete ctx now f_select f_upsert score passed w in
        snd r = Some tt
        /\ CourseLearning.backend (fst r) = CourseLearning.backend w
        /\ CourseLearning.progress (CourseLearning.ui (fst r))
           = CourseLearning.progress (CourseLearning.ui w)
        /\ CourseLearning.ui (fst r)
           = CourseLearning.toast (error_toast "Failed to save quiz results.")
               (CourseLearning.ui w))
  /\ (forall profile f_update f_university f_public f_purchased courseId course w,
        Course.is_free course = true -> f_update <> NoFault ->
        let r := StudentDashboard.handlePurchaseCourse profile f_update f_university f_public
                   f_purchased courseId course w in
        snd r = Some tt
        /\ StudentDashboard.backend (fst r) = StudentDashboard.backend w
        /\ StudentDashboard.ui (fst r)
           = StudentDashboard.toast (error_toast "Failed to add course. Please try again.")
               (StudentDashboard.ui w)).
Proof.
  split; [|split].
  - intros ctx now f chapterId w Hf Hprofile r. subst r.
    rewrite markChapterAsCompleted_failed by assumption. repeat split.
  - intros ctx now f_select f_upsert score passed w Hquiz Hprofile Hchapter Hfail r. subst r.
    rewrite handleQuizComplete_failed by assumption. repeat split.
  - intros profile f_update f_university f_public f_purchased courseId course w Hfree Hf r.
    subst r. rewrite handlePurchaseCourse_failed by assumption. repeat split.
Qed.

Lemma failed_request_leaves_state_witness :
  Rejects <> NoFault
  /\ is_Some (CourseLearning.profile (Sample.page_context ["c-1"]))
  /\ CourseLearning.progress
       (CourseLearning.ui
          (fst (CourseLearning.markChapterAsCompleted (Sample.page_context ["c-1"])
                  "2024-01-03T00:00:00.000Z" Rejects "ch0" (Sample.page ["c-1"] None))))
     = CourseLearning.progress (CourseLearning.ui (Sample.page ["c-1"] None)).
Proof.
  split; [discriminate|]. split; [eexists; reflexivity|].
  destruct failed_request_leaves_state as [Hmark _].
  destruct (Hmark (Sample.page_context ["c-1"]) "2024-01-03T00:00:00.000Z" Rejects "ch0"
              (Sample.page ["c-1"] None) ltac:(discriminate) ltac:(eexists; reflexivity))
    as (_ & _ & Hprogress & _).
  exact Hprogress.
Defined.

End Failures.

(** ** Stored quiz attempts *)

Section StoredAttempts.

(** What the course page stores: the attempt set under the quiz id on what
    was stored, as JSON. *)
Lemma handleQuizComplete_stores (ctx : CourseLearning.Context) (now : string)
    (score : Number) (passed : bool) (w : CourseLearning.World)
    (quiz : Quiz.t) (profile : Profile.t) (chapter : Chapter.t) :
  CourseLearning.currentQuiz (CourseLearning.ui w) = Some quiz ->
  CourseLearning.profile ctx = Some profile ->
  CourseLearning.currentChapter (CourseLearning.ui w) = Some chapter ->
  stored_attempts
    (CourseLearning.backend
       (exec (CourseLearning.handleQuizComplete ctx now NoFault NoFault score passed) w))
    (Profile.user_id profile) (Chapter.id chapter)
  = Some (to_json
            (set_property (Quiz.id quiz) (CourseLearning.attemptData quiz now score passed)
               (default (AttemptsObject ∅)
                  (stored_attempts (CourseLearning.backend w)
                     (Profile.user_id profile) (Chapter.id chapter))))).
Proof.
  intros Hquiz Hprofile Hchapter.
  unfold CourseLearning.handleQuizComplete, exec, bind, gets.
  rewrite Hquiz, Hprofile, Hchapter.
  unfold try_catch, select_progress_single, upsert_progress, await, bind, gets, modify, ret,
    throw, throw_if_error, single, stored_attempts.
  destruct w as [b s]. simpl.
  destruct (Backend.student_progress b !! (Profile.user_id profile, Chapter.id chapter))
    as [row|] eqn:Hrow; simpl; rewrite lookup_insert_eq; reflexivity.
Qed.

(** The fields the two attempt records carry. *)
Lemma attemptData_fields (quiz : Quiz.t) (now : string) (score : Number) (passed : bool) :
  let a := CourseLearning.attemptData quiz now score passed in
  Attempt.score a = score /\ Attempt.passed a = passed /\ Attempt.completed_at a = now
  /\ Attempt.quiz_type a = Some (if Quiz.is_start_quiz quiz then "start" else "end")
  /\ Attempt.answers a = None.
Proof. repeat split. Qed.

Lemma quizAttempt_fields (p : QuizTaker.Props) (s : QuizTaker.State) (now : string) :
  let a := QuizTaker.quizAttempt p s now in
  Attempt.score a = QuizTaker.calculatedScore p s
  /\ Attempt.passed a = QuizTaker.passed p s
  /\ Attempt.answers a = Some (QuizTaker.answers s)
  /\ Attempt.completed_at a = now
  /\ Attempt.is_start_quiz a = Some (Quiz.is_start_quiz (QuizTaker.quiz p))
  /\ Attempt.is_end_quiz a = Some (Quiz.is_end_quiz (QuizTaker.quiz p)).
Proof. repeat split. Qed.

(** C6. The start quiz of chapter [ch0], with three questions, is taken
    twice in the quiz modal of the course page, first with one correct
    answer (score 33, failed), then with three (score 100, passed); no
    request fails.

    When the chapter has a progress record (the student had selected the
    chapter), the insert of the quiz taker is refused both times and its
    attempt record, the one with the per-question answers, is never
    stored; the page stores its own record under the quiz's id, so after
    the second submission the record of the first is gone: one attempt is
    stored, without answers.

    When the chapter has no progress record, the quiz taker stores its
    record of the first attempt in an array, on which the page's
    assignment under the quiz's id is dropped by JSON; the second
    submission stores nothing: the insert of the quiz taker is refused and
    the page stores the array as it was.

    Each time the user is shown the score toasts and no error. *)
Theorem resubmission_loses_attempt :
  let quiz := QuizTaker.quiz (Sample.quiz_of 3 50) in
  let first_at := "2024-01-03T10:00:00.000Z" in
  let first_at' := "2024-01-03T10:00:01.000Z" in
  let second_at := "2024-01-04T10:00:00.000Z" in
  let second_at' := "2024-01-04T10:00:01.000Z" in
  let stored w := stored_attempts (CourseLearning.backend w) "u-1" "ch0" in
  let shown w := toast_title <$> CourseLearning.toasts (CourseLearning.ui w) in
  let started1 := Scenario.take_quiz first_at first_at' Scenario.first_try Scenario.started_page in
  let started2 := Scenario.take_quiz second_at second_at' Scenario.second_try started1 in
  let fresh1 := Scenario.take_quiz first_at first_at' Scenario.first_try Scenario.loaded_page in
  let fresh2 := Scenario.take_quiz second_at second_at' Scenario.second_try fresh1 in
  (is_Some (Backend.student_progress (CourseLearning.backend Scenario.started_page)
              !! ("u-1", "ch0"))
   /\ stored Scenario.started_page = None
   /\ stored started1
      = Some (AttemptsObject
                {[ "quiz-1" := CourseLearning.attemptData quiz first_at' (of_Z 33) false ]})
   /\ stored started2
      = Some (AttemptsObject
                {[ "quiz-1" := CourseLearning.attemptData quiz second_at' (of_Z 100) true ]})
   /\ Attempt.answers <$> default [] (Object_values <$> stored started2) = [None]
   /\ shown started2 = ["Quiz Completed"; "Quiz Completed"; "Quiz Passed!"; "Quiz Passed!"])
  /\ (Backend.student_progress (CourseLearning.backend Scenario.loaded_page)
        !! ("u-1", "ch0") = None
      /\ stored fresh1
         = Some (AttemptsArray
                   [QuizTaker.quizAttempt (Sample.quiz_of 3 50) Scenario.first_try first_at] ∅)
      /\ stored fresh2 = stored fresh1
      /\ shown fresh2 = ["Quiz Completed"; "Quiz Completed"; "Quiz Passed!"; "Quiz Passed!"]).
Proof.
  repeat split; try (vm_compute; reflexivity).
  eexists. vm_compute. reflexivity.
Qed.

End StoredAttempts.

(** ** More on the quiz taker *)

Section QuizTakerMore.
Import QuizTaker.

(** X2. An action never removes an answer, and only the answer of the
    question on screen can change: selecting a value stores it for that
    question and leaves the answers under all other question ids as they
    were. *)
Theorem step_answers (p : Props) (s : State) (ev : Event) :
  (forall k, is_Some (answers s !! k) -> is_Some (answers (step p s ev) !! k))
  /\ (forall q k, currentQuestion p s = Some q -> k <> QuizQuestion.id q ->
        answers (step p s ev) !! k = answers s !! k)
  /\ (currentQuestion p s = None -> answers (step p s ev) = answers s)
  /\ (forall q value, currentQuestion p s = Some q -> ev = SelectAnswer value ->
        answers (step p s ev) !! QuizQuestion.id q = Some value).
Proof.
  repeat split.
  - intros k Hk. destruct ev as [| | |v]; simpl.
    + unfold handlePrevious. destruct (_ >? _); exact Hk.
    + unfold handleNext. destruct (_ <? _); exact Hk.
    + exact Hk.
    + destruct (currentQuestion p s); [|exact Hk].
      simpl. apply lookup_insert_is_Some'. right. exact Hk.
  - intros q k Hq Hne. destruct ev as [| | |v]; simpl.
    + unfold handlePrevious. destruct (_ >? _); reflexivity.
    + unfold handleNext. destruct (_ <? _); reflexivity.
    + reflexivity.
    + rewrite Hq. simpl. apply lookup_insert_ne. congruence.
  - intros Hnone. destruct ev as [| | |v]; simpl.
    + unfold handlePrevious. destruct (_ >? _); reflexivity.
    + unfold handleNext. destruct (_ <? _); reflexivity.
    + reflexivity.
    + rewrite Hnone. reflexivity.
  - intros q value Hq ->. simpl. rewrite Hq. simpl. apply lookup_insert_eq.
Qed.




End QuizTakerMore.

(** ** More on scoring and on what the quiz taker stores *)

Section QuizTakerStores.
Import QuizTaker.

Lemma geb_of_Z_percent (a b : Z) :
  0 <= a <= 100 -> 0 <= b <= 100 -> geb (of_Z a) (of_Z b) = (b <=? a).
Proof.
  intros Ha Hb.
  assert (forallb (fun x => forallb (fun y =>
            bool_decide (geb (of_Z (Z.of_nat x)) (of_Z (Z.of_nat y))
                         = (Z.of_nat y <=? Z.of_nat x))) (seq 0 101)) (seq 0 101) = true)
    as Hall by (vm_compute; reflexivity).
  rewrite forallb_forall in Hall.
  specialize (Hall (Z.to_nat a) ltac:(apply in_seq; lia)).
  rewrite forallb_forall in Hall.
  specialize (Hall (Z.to_nat b) ltac:(apply in_seq; lia)).
  rewrite !Z2Nat.id in Hall by lia.
  eapply bool_decide_eq_true_1, Hall.
Qed.

(** X4. For a quiz of fewer than forty questions and a whole passing score
    between 0 and 100, the score is the percentage of correctly answered
    questions rounded to the nearest integer (halves up), it lies between
    0 and 100, and the attempt is passed exactly when the score reaches
    the passing score. *)
Theorem score_below_40 (p : Props) (s : State) (threshold : Z) :
  1 <= questions_length p < 40 -> 0 <= threshold <= 100 ->
  Quiz.passing_score (quiz p) = of_Z threshold ->
  0 <= correctAnswers p s <= questions_length p
  /\ calculatedScore p s
     = of_Z (round_half_up_percent (correctAnswers p s) (questions_length p))
  /\ 0 <= round_half_up_percent (correctAnswers p s) (questions_length p) <= 100
  /\ (passed p s = true
      <-> threshold <= round_half_up_percent (correctAnswers p s) (questions_length p)).
Proof.
  intros HN Hthreshold Hpassing.
  pose proof (correctAnswers_range p s) as HK.
  pose proof (round_half_up_percent_range (correctAnswers p s) (questions_length p)
                ltac:(lia) HK) as Hrange.
  split; [exact HK|]. split; [apply calculatedScore_exact_below_40; exact HN|].
  split; [exact Hrange|].
  unfold passed. rewrite Hpassing, (calculatedScore_exact_below_40 p s HN).
  rewrite geb_of_Z_percent by assumption. apply Z.leb_le.
Qed.

Lemma score_below_40_witness :
  1 <= questions_length (Sample.quiz_of 4 75) < 40
  /\ 0 <= 75 <= 100
  /\ Quiz.passing_score (quiz (Sample.quiz_of 4 75)) = of_Z 75
  /\ calculatedScore (Sample.quiz_of 4 75) (Sample.answered 3 4)
     = of_Z (round_half_up_percent (correctAnswers (Sample.quiz_of 4 75) (Sample.answered 3 4))
               (questions_length (Sample.quiz_of 4 75))).
Proof.
  assert (1 <= questions_length (Sample.quiz_of 4 75) < 40) as HN
    by (vm_compute; split; [discriminate|reflexivity]).
  split; [exact HN|]. split; [lia|]. split; [reflexivity|].
  exact (proj1 (proj2 (score_below_40 (Sample.quiz_of 4 75) (Sample.answered 3 4) 75
                         HN ltac:(lia) eq_refl))).
Defined.

(** X5. For a chapter without a progress record the quiz taker stores a
    new record: its attempt alone in an array, the clock reading as start
    time, and neither a course id nor a completed flag; the score toast is
    shown and [onQuizComplete] is called once. *)
Theorem handleSubmitQuiz_first_record (p : Props) (now uid : string) (w : World) :
  onQuizComplete_given p = true ->
  Backend.student_progress (backend w) !! (uid, Quiz.chapter_id (quiz p)) = None ->
  let w' := exec (handleSubmitQuiz p now (Some uid) NoFault NoFault NoFault) w in
  Backend.student_progress (backend w') !! (uid, Quiz.chapter_id (quiz p))
  = Some {| Progress.user_id := Some uid; Progress.course_id := None;
            Progress.chapter_id := Some (Quiz.chapter_id (quiz p));
            Progress.started_at := Some now; Progress.completed := None;
            Progress.completed_at := None;
            Progress.quiz_attempts := Some (AttemptsArray [quizAttempt p (state w) now] ∅);
            Progress.updated_at := Some now |}
  /\ toasts w' = toasts w ++ [score_toast (calculatedScore p (state w)) (passed p (state w))]
  /\ onQuizComplete w'
     = onQuizComplete w ++ [(calculatedScore p (state w), passed p (state w))].
Proof.
  intros Hgiven Hrow.
  unfold handleSubmitQuiz, exec, try_catch, select_progress_single,
    upsert_progress_on_primary_key, await, bind, gets, modify, ret, throw, single.
  rewrite Hgiven. destruct w as [s b ts calls]. simpl in *.
  rewrite Hrow. simpl. rewrite Hrow. simpl. rewrite lookup_insert_eq.
  repeat split.
Qed.

Lemma handleSubmitQuiz_first_record_witness :
  onQuizComplete_given (Sample.quiz_of 3 50) = true
  /\ Backend.student_progress
       (backend (QuizModal.taker Scenario.first_try Scenario.loaded_page))
       !! ("u-1", Quiz.chapter_id (quiz (Sample.quiz_of 3 50))) = None
  /\ onQuizComplete
       (exec (handleSubmitQuiz (Sample.quiz_of 3 50) "2024-01-03T10:00:00.000Z" (Some "u-1")
                NoFault NoFault NoFault)
             (QuizModal.taker Scenario.first_try Scenario.loaded_page))
     = [(of_Z 33, false)].
Proof.
  split; [reflexivity|]. split; [reflexivity|].
  destruct (handleSubmitQuiz_first_record (Sample.quiz_of 3 50) "2024-01-03T10:00:00.000Z"
              "u-1" (QuizModal.taker Scenario.first_try Scenario.loaded_page)
              eq_refl eq_refl) as (_ & _ & Hcalls).
  rewrite Hcalls. vm_compute. reflexivity.
Defined.


End QuizTakerStores.

(** ** More on loading the course page *)

Section PageLoading.
Import CourseLearning.

(** X7. With a course id and a profile at hand, loading the page goes to
    the dashboard exactly when the course id is not among the profile's
    purchased courses and the role is not "admin". *)
Theorem fetchCourseData_redirects_iff (ctx : Context) (id : string) (pr : Profile.t)
    (f_course f_chapters f_progress : Fault) (w : World) :
  courseId ctx = Some id -> id <> "" -> profile ctx = Some pr ->
  navigated (ui (exec (fetchCourseData ctx f_course f_chapters f_progress) w))
  = navigated (ui w) ++ ["/dashboard"]
  <-> ~ ((exists purchased, Profile.purchased_courses pr = Some purchased /\ id ∈ purchased)
         \/ Profile.role pr = "admin").
Proof.
  intros Hid Hne Hprofile. rewrite <- hasAccess_iff.
  destruct (hasAccess pr id) eqn:Haccess.
  - rewrite (fetchCourseData_granted ctx id pr) by assumption.
    split; [|congruence].
    intros Heq. apply (f_equal length) in Heq. rewrite length_app in Heq. simpl in Heq. lia.
  - unfold exec. rewrite (fetchCourseData_denied ctx id pr) by assumption.
    split; [congruence|reflexivity].
Qed.

Lemma fetchCourseData_redirects_iff_witness :
  courseId (Sample.page_context []) = Some "c-1" /\ "c-1" <> ""
  /\ profile (Sample.page_context []) = Some (Sample.student [])
  /\ (navigated (ui (exec (fetchCourseData (Sample.page_context []) NoFault NoFault NoFault)
                          (Sample.page [] None)))
      = navigated (ui (Sample.page [] None)) ++ ["/dashboard"]
      <-> ~ ((exists purchased,
                Profile.purchased_courses (Sample.student []) = Some purchased
                /\ "c-1" ∈ purchased)
             \/ Profile.role (Sample.student []) = "admin")).
Proof.
  split; [reflexivity|]. split; [discriminate|]. split; [reflexivity|].
  apply (fetchCourseData_redirects_iff (Sample.page_context []) "c-1" (Sample.student []));
    [reflexivity|discriminate|reflexivity].
Defined.



(** X9. When the user has access and one of the three requests fails, or
    the course row does not exist, the page shows "Failed to load course
    data." and keeps the progress map it had. *)
Theorem fetchCourseData_failure (ctx : Context) (id : string) (pr : Profile.t)
    (f_course f_chapters f_progress : Fault) (w : World) :
  courseId ctx = Some id -> id <> "" -> profile ctx = Some pr -> hasAccess pr id = true ->
  f_course <> NoFault
  \/ find (fun c => String.eqb (Course.id c) id) (Backend.courses (backend w)) = None
  \/ f_chapters <> NoFault \/ f_progress <> NoFault ->
  toasts (ui (exec (fetchCourseData ctx f_course f_chapters f_progress) w))
  = toasts (ui w) ++ [error_toast "Failed to load course data."]
  /\ progress (ui (exec (fetchCourseData ctx f_course f_chapters f_progress) w))
     = progress (ui w).
Proof.
  intros Hid Hne Hprofile Haccess Hfail. unfold fetchCourseData. rewrite Hid, Hprofile.
  apply String.eqb_neq in Hne. rewrite Hne, Haccess.
  unfold exec, try_catch, bind, await, gets, modify, ret, throw, throw_if_error, single.
  destruct w as [b s]. simpl in *.
  destruct f_course; simpl; [|repeat split..].
  destruct (find _ _); simpl; [|repeat split].
  destruct f_chapters; simpl; [|repeat split..].
  destruct (order_by_index _); simpl;
    (destruct f_progress; simpl; [|repeat split..]);
    exfalso; destruct Hfail as [H|[H|[H|H]]]; congruence.
Qed.

Lemma fetchCourseData_failure_witness :
  courseId (Sample.page_context ["c-1"]) = Some "c-1" /\ "c-1" <> ""
  /\ profile (Sample.page_context ["c-1"]) = Some (Sample.student ["c-1"])
  /\ hasAccess (Sample.student ["c-1"]) "c-1" = true
  /\ toasts (ui (exec (fetchCourseData (Sample.page_context ["c-1"]) NoFault Rejects NoFault)
                      (Sample.page ["c-1"] None)))
     = toasts (ui (Sample.page ["c-1"] None)) ++ [error_toast "Failed to load course data."].
Proof.
  split; [reflexivity|]. split; [discriminate|]. split; [reflexivity|]. split; [reflexivity|].
  apply (fetchCourseData_failure (Sample.page_context ["c-1"]) "c-1" (Sample.student ["c-1"])
           NoFault Rejects NoFault (Sample.page ["c-1"] None) eq_refl ltac:(discriminate)
           eq_refl eq_refl).
  right. right. left. discriminate.
Defined.

End PageLoading.

(** ** More on chapters *)

Section Chapters.
Import CourseLearning.

Ltac case_ltb :=
  match goal with
  | |- context [?a <? ?b] => destruct (Z.ltb_spec a b)
  end.

Lemma findIndex_none {A : Type} (P : A -> bool) (l : list A) :
  (forall y, y ∈ l -> P y = false) -> findIndex P l = -1.
Proof.
  induction l as [|x l IH]; intros Hnone; simpl; [reflexivity|].
  rewrite (Hnone x) by apply list_elem_of_here.
  rewrite IH by (intros y Hy; apply Hnone, list_elem_of_further, Hy). reflexivity.
Qed.

Lemma findIndex_first {A : Type} (P : A -> bool) (pre : list A) (x : A) (rest : list A) :
  (forall y, y ∈ pre -> P y = false) -> P x = true ->
  findIndex P (pre ++ x :: rest) = Z.of_nat (length pre).
Proof.
  intros Hpre Hx. induction pre as [|y pre IH]; simpl.
  - rewrite Hx. reflexivity.
  - rewrite (Hpre y) by apply list_elem_of_here.
    rewrite IH by (intros z Hz; apply Hpre, list_elem_of_further, Hz).
    destruct (Z.eqb_spec (Z.of_nat (length pre)) (-1)); lia.
Qed.

Lemma id_eqb_false (chapterId : string) (pre : list Chapter.t) :
  (forall c, c ∈ pre -> Chapter.id c <> chapterId) ->
  forall c, c ∈ pre -> String.eqb (Chapter.id c) chapterId = false.
Proof. intros Hpre c Hc. apply String.eqb_neq, Hpre, Hc. Qed.

Lemma nth_Z_middle {A : Type} (pre : list A) (x : A) (rest : list A) :
  nth_Z (pre ++ x :: rest) (Z.of_nat (length pre)) = Some x.
Proof.
  unfold nth_Z. destruct (Z.ltb_spec (Z.of_nat (length pre)) 0); [lia|].
  rewrite Nat2Z.id. apply list_lookup_middle. reflexivity.
Qed.

Lemma nth_Z_after {A : Type} (pre : list A) (x y : A) (rest : list A) :
  nth_Z (pre ++ x :: y :: rest) (Z.of_nat (length pre) + 1) = Some y.
Proof.
  replace (pre ++ x :: y :: rest) with ((pre ++ [x]) ++ y :: rest)
    by (rewrite <- app_assoc; reflexivity).
  replace (Z.of_nat (length pre) + 1) with (Z.of_nat (length (pre ++ [x])))
    by (rewrite length_app; simpl; lia).
  apply nth_Z_middle.
Qed.

Lemma nth_Z_before {A : Type} (pre : list A) (x y : A) (rest : list A) :
  nth_Z ((pre ++ [x]) ++ y :: rest) (Z.of_nat (length (pre ++ [x])) - 1) = Some x.
Proof.
  rewrite <- app_assoc. simpl.
  replace (Z.of_nat (length (pre ++ [x])) - 1) with (Z.of_nat (length pre))
    by (rewrite length_app; simpl; lia).
  apply nth_Z_middle.
Qed.

(** X10. After a chapter is marked as completed the page moves on to the
    chapter that follows the first one with that id in the list; at the
    last chapter it stays where it is. *)
Theorem markChapterAsCompleted_advances (ctx : Context) (now chapterId : string) (w : World)
    (pre : list Chapter.t) (ch : Chapter.t) (rest : list Chapter.t) :
  is_Some (profile ctx) ->
  chapters (ui w) = pre ++ ch :: rest -> Chapter.id ch = chapterId ->
  (forall c, c ∈ pre -> Chapter.id c <> chapterId) ->
  currentChapter (ui (exec (markChapterAsCompleted ctx now NoFault chapterId) w))
  = match rest with
    | next :: _ => Some next
    | [] => currentChapter (ui w)
    end.
Proof.
  intros [pr Hprofile] Hchapters Hid Hpre.
  unfold markChapterAsCompleted. rewrite Hprofile.
  unfold exec, try_catch, upsert_progress, bind, gets, modify, ret, throw, throw_if_error.
  destruct w as [b s]. simpl in *. rewrite Hchapters.
  rewrite (findIndex_first _ pre ch rest (id_eqb_false chapterId pre Hpre))
    by (apply String.eqb_eq; exact Hid).
  rewrite length_app. simpl.
  destruct rest as [|next rest].
  - case_ltb; [simpl in *; lia|]. reflexivity.
  - case_ltb; [|simpl in *; lia]. simpl. apply nth_Z_after.
Qed.

Lemma markChapterAsCompleted_advances_witness :
  is_Some (profile (Sample.page_context ["c-1"]))
  /\ chapters (ui (Sample.page ["c-1"] None))
     = [] ++ Sample.chapter 0 :: [Sample.chapter 1; Sample.chapter 2]
  /\ currentChapter
       (ui (exec (markChapterAsCompleted (Sample.page_context ["c-1"])
                    "2024-01-03T00:00:00.000Z" NoFault "ch0") (Sample.page ["c-1"] None)))
     = Some (Sample.chapter 1).
Proof.
  split; [eexists; reflexivity|]. split; [reflexivity|].
  apply (markChapterAsCompleted_advances (Sample.page_context ["c-1"])
           "2024-01-03T00:00:00.000Z" "ch0" (Sample.page ["c-1"] None)
           [] (Sample.chapter 0) [Sample.chapter 1; Sample.chapter 2]).
  - eexists; reflexivity.
  - reflexivity.
  - reflexivity.
  - intros c Hc. inversion Hc.
Defined.

(** X11. The "Previous" and "Next" buttons below a chapter: with the
    current chapter the first of its id in the list, "Previous" is disabled
    exactly at the first chapter and otherwise opens the chapter before,
    "Next" is disabled exactly at the last chapter and otherwise opens the
    chapter after. *)
Theorem chapter_navigation (s : State) (pre : list Chapter.t) (cur : Chapter.t)
    (rest : list Chapter.t) :
  chapters s = pre ++ cur :: rest -> currentChapter s = Some cur ->
  (forall c, c ∈ pre -> Chapter.id c <> Chapter.id cur) ->
  previousChapter_disabled s cur = bool_decide (pre = [])
  /\ nextChapter_disabled s cur = bool_decide (rest = [])
  /\ currentChapter (previousChapter_click s) = Some (default cur (last pre))
  /\ currentChapter (nextChapter_click s) = Some (default cur (head rest)).
Proof.
  intros Hchapters Hcurrent Hpre.
  assert (currentChapterIndex s cur = Z.of_nat (length pre)) as Hindex.
  { unfold currentChapterIndex. rewrite Hchapters.
    apply findIndex_first; [apply id_eqb_false, Hpre|apply String.eqb_refl]. }
  unfold previousChapter_disabled, nextChapter_disabled, previousChapter_click,
    nextChapter_click.
  rewrite Hcurrent, !Hindex, Hchapters, length_app. simpl.
  split; [|split; [|split]].
  - destruct pre; reflexivity.
  - destruct rest; simpl; [apply Z.eqb_eq|apply Z.eqb_neq]; lia.
  - rewrite Z.gtb_ltb.
    destruct pre as [|c pre _] using rev_ind; simpl.
    + rewrite Hcurrent. reflexivity.
    + rewrite last_snoc. simpl.
      case_ltb; [|rewrite length_app in *; simpl in *; lia].
      simpl. apply nth_Z_before.
  - destruct rest as [|next rest]; simpl.
    + case_ltb; [simpl in *; lia|]. exact Hcurrent.
    + case_ltb; [|simpl in *; lia]. simpl. apply nth_Z_after.
Qed.

Lemma chapter_navigation_witness :
  chapters (ui (Sample.page ["c-1"] None))
  = [] ++ Sample.chapter 0 :: [Sample.chapter 1; Sample.chapter 2]
  /\ currentChapter (ui (Sample.page ["c-1"] None)) = Some (Sample.chapter 0)
  /\ currentChapter (nextChapter_click (ui (Sample.page ["c-1"] None)))
     = Some (Sample.chapter 1).
Proof.
  split; [reflexivity|]. split; [reflexivity|].
  destruct (chapter_navigation (ui (Sample.page ["c-1"] None)) [] (Sample.chapter 0)
              [Sample.chapter 1; Sample.chapter 2] eq_refl eq_refl)
    as (_ & _ & _ & Hnext).
  - intros c Hc. inversion Hc.
  - exact Hnext.
Defined.

End Chapters.

(** ** More on chapter progress *)

Section ProgressMore.
Import CourseLearning.

(** X12. Marking a chapter as started does nothing when no profile is at
    hand or the local entry of the chapter already has a start time, and a
    failed upsert is passed over in silence: no state changes and no toast
    is shown. *)
Theorem markChapterAsStarted_nothing (ctx : Context) (now : string) (f : Fault)
    (chapterId : string) (w : World) :
  profile ctx = None
  \/ truthy_string (progress (ui w) !! chapterId ≫= Progress.started_at) = true
  \/ f <> NoFault ->
  markChapterAsStarted ctx now f chapterId w = (w, Some tt).
Proof.
  intros Hcase. unfold markChapterAsStarted, bind, gets.
  destruct (profile ctx) as [pr|]; [|reflexivity].
  destruct (truthy_string (progress (ui w) !! chapterId ≫= Progress.started_at));
    [reflexivity|].
  destruct Hcase as [Hnone|[Hstarted|Hf]]; [discriminate..|].
  destruct f; [congruence| |]; reflexivity.
Qed.

Lemma markChapterAsStarted_nothing_witness :
  (profile (Sample.page_context ["c-1"]) = None
   \/ truthy_string (progress (ui (Sample.page ["c-1"] None)) !! "ch0" ≫= Progress.started_at)
      = true
   \/ Rejects <> NoFault)
  /\ markChapterAsStarted (Sample.page_context ["c-1"]) "2024-01-03T00:00:00.000Z" Rejects "ch0"
       (Sample.page ["c-1"] None)
     = (Sample.page ["c-1"] None, Some tt).
Proof.
  assert (Rejects <> NoFault) as Hf by discriminate.
  split; [right; right; exact Hf|].
  apply markChapterAsStarted_nothing. right. right. exact Hf.
Defined.

Lemma markChapterAsCompleted_effect (ctx : Context) (now chapterId : string) (pr : Profile.t)
    (w : World) :
  profile ctx = Some pr ->
  let w' := exec (markChapterAsCompleted ctx now NoFault chapterId) w in
  progress (ui w')
  = <[chapterId := completed_entry now (progress (ui w) !! chapterId)]> (progress (ui w))
  /\ chapters (ui w') = chapters (ui w)
  /\ exists row,
       Progress.completed row = Some true
       /\ Progress.quiz_attempts row
          = Backend.student_progress (backend w) !! (Profile.user_id pr, chapterId)
              ≫= Progress.quiz_attempts
       /\ Progress.user_id row = Some (Profile.user_id pr)
       /\ Progress.chapter_id row = Some chapterId
       /\ (is_Some (courseId ctx) -> Progress.course_id row = courseId ctx)
       /\ backend w'
          = Backend.set_student_progress
              (<[(Profile.user_id pr, chapterId) := row]>
                 (Backend.student_progress (backend w))) (backend w).
Proof.
  intros Hprofile. unfold markChapterAsCompleted. rewrite Hprofile.
  unfold exec, try_catch, upsert_progress, bind, gets, modify, ret, throw, throw_if_error.
  destruct w as [b s]. simpl.
  destruct (_ <? _); simpl; (split; [reflexivity|]; split; [reflexivity|]);
    eexists; (split; [|split; [|split; [|split; [|split; [|reflexivity]]]]]); simpl;
    try reflexivity;
    try (destruct (Backend.student_progress b !! (Profile.user_id pr, chapterId)); reflexivity);
    intros [id Hid]; rewrite Hid; reflexivity.
Qed.

Lemma handleChapterSelect_effect (ctx : Context) (now : string) (chapter : Chapter.t)
    (pr : Profile.t) (w : World) :
  profile ctx = Some pr ->
  truthy_string (progress (ui w) !! Chapter.id chapter ≫= Progress.started_at) = false ->
  let w' := exec (handleChapterSelect ctx now NoFault chapter) w in
  progress (ui w') !! Chapter.id chapter ≫= Progress.completed = Some false
  /\ Backend.student_progress (backend w') !! (Profile.user_id pr, Chapter.id chapter)
       ≫= Progress.completed = Some false.
Proof.
  intros Hprofile Hstarted.
  unfold handleChapterSelect, markChapterAsStarted. rewrite Hprofile.
  unfold exec, try_catch, upsert_progress, bind, gets, modify, ret, throw, throw_if_error.
  destruct w as [b s]. simpl in *. rewrite Hstarted. simpl.
  rewrite !lookup_insert_eq. split; reflexivity.
Qed.

(** X13. Selecting a chapter whose local entry has no start time marks it
    as not completed, in the table and on the page; so a chapter that was
    completed without having been selected (the local entry then holds no
    start time) is not completed any more once it is selected. *)
Theorem select_resets_completion (ctx : Context) (now later : string) (chapter : Chapter.t)
    (pr : Profile.t) (w : World) :
  profile ctx = Some pr ->
  truthy_string (progress (ui w) !! Chapter.id chapter ≫= Progress.started_at) = false ->
  let w1 := exec (markChapterAsCompleted ctx now NoFault (Chapter.id chapter)) w in
  let w2 := exec (handleChapterSelect ctx later NoFault chapter) w1 in
  chapter_completed (progress (ui w1)) chapter = true
  /\ Backend.student_progress (backend w1) !! (Profile.user_id pr, Chapter.id chapter)
       ≫= Progress.completed = Some true
  /\ chapter_completed (progress (ui w2)) chapter = false
  /\ Backend.student_progress (backend w2) !! (Profile.user_id pr, Chapter.id chapter)
       ≫= Progress.completed = Some false.
Proof.
  intros Hprofile Hstarted w1 w2.
  destruct (markChapterAsCompleted_effect ctx now (Chapter.id chapter) pr w Hprofile)
    as (Hprogress & _ & row & Hrow & _ & _ & _ & _ & Hbackend).
  fold w1 in Hprogress, Hbackend.
  assert (truthy_string (progress (ui w1) !! Chapter.id chapter ≫= Progress.started_at) = false)
    as Hstill.
  { rewrite Hprogress, lookup_insert_eq. simpl.
    destruct (progress (ui w) !! Chapter.id chapter); exact Hstarted. }
  destruct (handleChapterSelect_effect ctx later chapter pr w1 Hprofile Hstill)
    as [Hlocal Hstored].
  fold w2 in Hlocal, Hstored.
  unfold chapter_completed. rewrite Hlocal, Hstored, Hprogress, Hbackend. simpl.
  rewrite !lookup_insert_eq. simpl. rewrite Hrow. repeat split.
Qed.

Lemma select_resets_completion_witness :
  is_Some (profile (Sample.page_context ["c-1"]))
  /\ truthy_string (progress (ui (Sample.page ["c-1"] None)) !! Chapter.id (Sample.chapter 0)
                    ≫= Progress.started_at) = false
  /\ chapter_completed
       (progress
          (ui (exec (handleChapterSelect (Sample.page_context ["c-1"]) "2024-01-04T00:00:00.000Z"
                       NoFault (Sample.chapter 0))
                    (exec (markChapterAsCompleted (Sample.page_context ["c-1"])
                             "2024-01-03T00:00:00.000Z" NoFault (Chapter.id (Sample.chapter 0)))
                          (Sample.page ["c-1"] None)))))
       (Sample.chapter 0) = false.
Proof.
  split; [eexists; reflexivity|]. split; [reflexivity|].
  exact (proj1 (proj2 (proj2 (select_resets_completion (Sample.page_context ["c-1"])
                         "2024-01-03T00:00:00.000Z" "2024-01-04T00:00:00.000Z" (Sample.chapter 0)
                         (Sample.student ["c-1"]) (Sample.page ["c-1"] None) eq_refl eq_refl)))).
Defined.

Lemma filter_length_mono {A : Type} (P Q : A -> bool) (l : list A) :
  (forall x, x ∈ l -> P x = true -> Q x = true) ->
  (length (filter P l) <= length (filter Q l))%nat.
Proof.
  induction l as [|x l IH]; intros Himp; [reflexivity|].
  rewrite !filter_cons.
  assert (length (filter P l) <= length (filter Q l))%nat as Hle
    by (apply IH; intros y Hy; apply Himp, list_elem_of_further, Hy).
  pose proof (Himp x (list_elem_of_here _ _)) as Hx.
  destruct (P x), (Q x); repeat case_decide; simpl in *; try lia; try tauto;
    try (specialize (Hx eq_refl); discriminate).
Qed.

(** X14. A chapter marked as completed counts as completed on the page and
    in the table, the local entries and the stored rows of all other
    chapters are untouched, no stored quiz attempt changes, and the number
    of completed chapters does not go down. *)
Theorem markChapterAsCompleted_completes (ctx : Context) (now chapterId : string)
    (pr : Profile.t) (w : World) :
  profile ctx = Some pr ->
  let w' := exec (markChapterAsCompleted ctx now NoFault chapterId) w in
  progress (ui w') !! chapterId ≫= Progress.completed = Some true
  /\ Backend.student_progress (backend w') !! (Profile.user_id pr, chapterId)
       ≫= Progress.completed = Some true
  /\ (forall other, other <> chapterId -> progress (ui w') !! other = progress (ui w) !! other)
  /\ (forall key, key <> (Profile.user_id pr, chapterId) ->
        Backend.student_progress (backend w') !! key = Backend.student_progress (backend w) !! key)
  /\ (forall user chapter,
        stored_attempts (backend w') user chapter = stored_attempts (backend w) user chapter)
  /\ (length (filter (chapter_completed (progress (ui w))) (chapters (ui w)))
      <= length (filter (chapter_completed (progress (ui w'))) (chapters (ui w'))))%nat.
Proof.
  intros Hprofile w'.
  destruct (markChapterAsCompleted_effect ctx now chapterId pr w Hprofile)
    as (Hprogress & Hchapters & row & Hrow & Hattempts & _ & _ & _ & Hbackend).
  fold w' in Hprogress, Hchapters, Hbackend.
  rewrite Hprogress, Hchapters, Hbackend. unfold stored_attempts. simpl.
  rewrite !lookup_insert_eq. simpl.
  split; [reflexivity|]. split; [exact Hrow|].
  split; [intros other Hother; apply lookup_insert_ne; congruence|].
  split; [intros key Hkey; apply lookup_insert_ne; congruence|]. split.
  - intros user chapter.
    destruct (decide ((Profile.user_id pr, chapterId) = (user, chapter))) as [Heq|Hne].
    + injection Heq as <- <-. rewrite lookup_insert_eq. exact Hattempts.
    + rewrite lookup_insert_ne by exact Hne. reflexivity.
  - apply filter_length_mono. intros ch _. unfold chapter_completed.
    destruct (decide (Chapter.id ch = chapterId)) as [->|Hne].
    + rewrite lookup_insert_eq. reflexivity.
    + rewrite lookup_insert_ne by congruence. trivial.
Qed.

Lemma markChapterAsCompleted_completes_witness :
  profile (Sample.page_context ["c-1"]) = Some (Sample.student ["c-1"])
  /\ progress (ui (exec (markChapterAsCompleted (Sample.page_context ["c-1"])
                           "2024-01-03T00:00:00.000Z" NoFault "ch0") (Sample.page ["c-1"] None)))
       !! "ch0" ≫= Progress.completed = Some true.
Proof.
  split; [reflexivity|].
  exact (proj1 (markChapterAsCompleted_completes (Sample.page_context ["c-1"])
                  "2024-01-03T00:00:00.000Z" "ch0" (Sample.student ["c-1"])
                  (Sample.page ["c-1"] None) eq_refl)).
Defined.

End ProgressMore.

(** ** More on the start-quiz gate *)

Section GateMore.
Import CourseLearning.

Lemma set_property_value (key : string) (a : Attempt.t) (attempts : QuizAttempts) :
  a ∈ Object_values (set_property key a attempts).
Proof.
  assert (forall props : gmap string Attempt.t, a ∈ (map_to_list (<[key := a]> props)).*2)
    as Hin.
  { intros props. apply list_elem_of_fmap. exists (key, a). split; [reflexivity|].
    apply elem_of_map_to_list, lookup_insert_eq. }
  destruct attempts as [props|elems props]; simpl; [apply Hin|].
  apply elem_of_app. right. apply Hin.
Qed.

(** What [handleQuizComplete] leaves on the page once it has stored the
    attempt. *)
Lemma handleQuizComplete_local (ctx : Context) (now : string) (score : Number) (passed : bool)
    (w : World) (quiz : Quiz.t) (pr : Profile.t) (chapter : Chapter.t) :
  currentQuiz (ui w) = Some quiz -> profile ctx = Some pr ->
  currentChapter (ui w) = Some chapter ->
  let w' := exec (handleQuizComplete ctx now NoFault NoFault score passed) w in
  progress (ui w') !! Chapter.id chapter ≫= Progress.quiz_attempts
  = Some (set_property (Quiz.id quiz) (attemptData quiz now score passed)
            (default (AttemptsObject ∅)
               (stored_attempts (backend w) (Profile.user_id pr) (Chapter.id chapter))))
  /\ showQuiz (ui w') = false /\ currentQuiz (ui w') = None /\ quizQuestions (ui w') = []
  /\ toasts (ui w') = toasts (ui w) ++ [score_toast score passed].
Proof.
  intros Hquiz Hprofile Hchapter.
  unfold handleQuizComplete, exec, bind, gets.
  rewrite Hquiz, Hprofile, Hchapter.
  unfold try_catch, select_progress_single, upsert_progress, await, bind, gets, modify, ret,
    throw, throw_if_error, single, stored_attempts.
  destruct w as [b s]. simpl.
  destruct (Backend.student_progress b !! (Profile.user_id pr, Chapter.id chapter));
    simpl; rewrite lookup_insert_eq; repeat split.
Qed.

(** X15. Once the course page has stored a passed attempt at a start quiz,
    the content of the current chapter is accessible and the quiz dialog
    is closed. *)
Theorem passed_start_quiz_opens_gate (ctx : Context) (now : string) (score : Number)
    (w : World) (quiz : Quiz.t) (pr : Profile.t) (chapter : Chapter.t) :
  currentQuiz (ui w) = Some quiz -> profile ctx = Some pr ->
  currentChapter (ui w) = Some chapter -> Quiz.is_start_quiz quiz = true ->
  let w' := exec (handleQuizComplete ctx now NoFault NoFault score true) w in
  canAccessChapterContent (ui w') chapter = true
  /\ hasCompletedStartQuiz (ui w') (Chapter.id chapter) = true
  /\ showQuiz (ui w') = false.
Proof.
  intros Hquiz Hprofile Hchapter Hstart w'.
  destruct (handleQuizComplete_local ctx now score true w quiz pr chapter Hquiz Hprofile Hchapter)
    as (Hlocal & Hshow & _).
  fold w' in Hlocal, Hshow.
  assert (hasCompletedStartQuiz (ui w') (Chapter.id chapter) = true) as Hgate.
  { unfold hasCompletedStartQuiz. rewrite Hlocal. apply existsb_exists.
    exists (attemptData quiz now score true).
    split; [apply list_elem_of_In, set_property_value|].
    simpl. rewrite Hstart. reflexivity. }
  unfold canAccessChapterContent. rewrite Hgate.
  split; [destruct (Chapter.has_start_quiz chapter); reflexivity|]. split; [reflexivity|exact Hshow].
Qed.

Lemma passed_start_quiz_opens_gate_witness :
  currentQuiz (ui (Sample.page ["c-1"] None)) = Some (QuizTaker.quiz (Sample.quiz_of 2 50))
  /\ profile (Sample.page_context ["c-1"]) = Some (Sample.student ["c-1"])
  /\ currentChapter (ui (Sample.page ["c-1"] None)) = Some (Sample.chapter 0)
  /\ Quiz.is_start_quiz (QuizTaker.quiz (Sample.quiz_of 2 50)) = true
  /\ hasCompletedStartQuiz
       (ui (exec (handleQuizComplete (Sample.page_context ["c-1"]) "2024-01-03T00:00:00.000Z"
                    NoFault NoFault (of_Z 100) true) (Sample.page ["c-1"] None)))
       (Chapter.id (Sample.chapter 0)) = true.
Proof.
  split; [reflexivity|]. split; [reflexivity|]. split; [reflexivity|]. split; [reflexivity|].
  exact (proj1 (proj2 (passed_start_quiz_opens_gate (Sample.page_context ["c-1"])
                         "2024-01-03T00:00:00.000Z" (of_Z 100) (Sample.page ["c-1"] None)
                         (QuizTaker.quiz (Sample.quiz_of 2 50)) (Sample.student ["c-1"])
                         (Sample.chapter 0) eq_refl eq_refl eq_refl eq_refl))).
Defined.

(** X16. After the first attempt stored for a chapter by the course page,
    the content is accessible exactly when the chapter has no start quiz,
    or the attempt was at a start quiz and passed: a failed attempt, or a
    passed end quiz, does not open a chapter with a start quiz. *)
Theorem first_attempt_gate (ctx : Context) (now : string) (score : Number) (passed : bool)
    (w : World) (quiz : Quiz.t) (pr : Profile.t) (chapter : Chapter.t) :
  currentQuiz (ui w) = Some quiz -> profile ctx = Some pr ->
  currentChapter (ui w) = Some chapter ->
  stored_attempts (backend w) (Profile.user_id pr) (Chapter.id chapter) = None ->
  canAccessChapterContent
    (ui (exec (handleQuizComplete ctx now NoFault NoFault score passed) w)) chapter
  = negb (Chapter.has_start_quiz chapter) || (Quiz.is_start_quiz quiz && passed).
Proof.
  intros Hquiz Hprofile Hchapter Hstored.
  destruct (handleQuizComplete_local ctx now score passed w quiz pr chapter
              Hquiz Hprofile Hchapter) as (Hlocal & _).
  unfold canAccessChapterContent, hasCompletedStartQuiz. rewrite Hlocal, Hstored. simpl.
  rewrite insert_empty, map_to_list_singleton. simpl.
  destruct (Chapter.has_start_quiz chapter), (Quiz.is_start_quiz quiz), passed; reflexivity.
Qed.

Lemma first_attempt_gate_witness :
  currentQuiz (ui (Sample.page ["c-1"] None)) = Some (QuizTaker.quiz (Sample.quiz_of 2 50))
  /\ profile (Sample.page_context ["c-1"]) = Some (Sample.student ["c-1"])
  /\ currentChapter (ui (Sample.page ["c-1"] None)) = Some (Sample.chapter 0)
  /\ stored_attempts (backend (Sample.page ["c-1"] None)) (Profile.user_id (Sample.student ["c-1"]))
       (Chapter.id (Sample.chapter 0)) = None
  /\ canAccessChapterContent
       (ui (exec (handleQuizComplete (Sample.page_context ["c-1"]) "2024-01-03T00:00:00.000Z"
                    NoFault NoFault (of_Z 0) false) (Sample.page ["c-1"] None)))
       (Sample.chapter 0)
     = negb (Chapter.has_start_quiz (Sample.chapter 0))
       || (Quiz.is_start_quiz (QuizTaker.quiz (Sample.quiz_of 2 50)) && false).
Proof.
  split; [reflexivity|]. split; [reflexivity|]. split; [reflexivity|]. split; [reflexivity|].
  apply (first_attempt_gate (Sample.page_context ["c-1"]) "2024-01-03T00:00:00.000Z" (of_Z 0)
           false (Sample.page ["c-1"] None) (QuizTaker.quiz (Sample.quiz_of 2 50))
           (Sample.student ["c-1"]) (Sample.chapter 0)); reflexivity.
Defined.

(** X17. When the stored attempts are an array, the course page does not
    store its attempt: the JSON sent keeps the elements of the array only,
    while the page itself holds the attempt. *)
Theorem handleQuizComplete_array_not_stored (ctx : Context) (now : string) (score : Number)
    (passed : bool) (w : World) (quiz : Quiz.t) (pr : Profile.t) (chapter : Chapter.t)
    (elems : list Attempt.t) (props : gmap string Attempt.t) :
  currentQuiz (ui w) = Some quiz -> profile ctx = Some pr ->
  currentChapter (ui w) = Some chapter ->
  stored_attempts (backend w) (Profile.user_id pr) (Chapter.id chapter)
  = Some (AttemptsArray elems props) ->
  let w' := exec (handleQuizComplete ctx now NoFault NoFault score passed) w in
  stored_attempts (backend w') (Profile.user_id pr) (Chapter.id chapter)
  = Some (AttemptsArray elems ∅)
  /\ exists held,
       progress (ui w') !! Chapter.id chapter ≫= Progress.quiz_attempts = Some held
       /\ attemptData quiz now score passed ∈ Object_values held.
Proof.
  intros Hquiz Hprofile Hchapter Hstored w'. split.
  - subst w'. rewrite (handleQuizComplete_stores ctx now score passed w quiz pr chapter)
      by assumption.
    rewrite Hstored. reflexivity.
  - destruct (handleQuizComplete_local ctx now score passed w quiz pr chapter
                Hquiz Hprofile Hchapter) as (Hlocal & _).
    eexists. split; [exact Hlocal|]. apply set_property_value.
Qed.

Lemma handleQuizComplete_array_not_stored_witness :
  currentQuiz (ui (Sample.page ["c-1"] (Some (AttemptsArray [Sample.failed_attempt] ∅))))
  = Some (QuizTaker.quiz (Sample.quiz_of 2 50))
  /\ stored_attempts
       (backend (Sample.page ["c-1"] (Some (AttemptsArray [Sample.failed_attempt] ∅))))
       (Profile.user_id (Sample.student ["c-1"])) (Chapter.id (Sample.chapter 0))
     = Some (AttemptsArray [Sample.failed_attempt] ∅)
  /\ stored_attempts
       (backend (exec (handleQuizComplete (Sample.page_context ["c-1"])
                         "2024-01-03T00:00:00.000Z" NoFault NoFault (of_Z 100) true)
                      (Sample.page ["c-1"] (Some (AttemptsArray [Sample.failed_attempt] ∅)))))
       (Profile.user_id (Sample.student ["c-1"])) (Chapter.id (Sample.chapter 0))
     = Some (AttemptsArray [Sample.failed_attempt] ∅).
Proof.
  split; [reflexivity|]. split; [reflexivity|].
  exact (proj1 (handleQuizComplete_array_not_stored (Sample.page_context ["c-1"])
                  "2024-01-03T00:00:00.000Z" (of_Z 100) true
                  (Sample.page ["c-1"] (Some (AttemptsArray [Sample.failed_attempt] ∅)))
                  (QuizTaker.quiz (Sample.quiz_of 2 50)) (Sample.student ["c-1"])
                  (Sample.chapter 0) [Sample.failed_attempt] ∅
                  eq_refl eq_refl eq_refl eq_refl)).
Defined.

Lemma existsb_untyped (type : string) (l : list Attempt.t) :
  (forall a, a ∈ l -> Attempt.quiz_type a = None) ->
  existsb (fun a => bool_decide (Attempt.quiz_type a = Some type) && Attempt.passed a) l
  = false.
Proof.
  intros Huntyped. apply not_true_is_false. intros Hex.
  apply existsb_exists in Hex as (a & Hin & Hok).
  apply list_elem_of_In, Huntyped in Hin. rewrite Hin in Hok. discriminate.
Qed.

(** X18. Attempt records without a quiz type, as the quiz taker writes
    them, count neither as a completed start quiz nor as a completed end
    quiz, so they never open a chapter that has a start quiz. *)
Theorem untyped_attempts_keep_gate_closed (s : State) (chapter : Chapter.t)
    (attempts : QuizAttempts) :
  progress s !! Chapter.id chapter ≫= Progress.quiz_attempts = Some attempts ->
  (forall a, a ∈ Object_values attempts -> Attempt.quiz_type a = None) ->
  hasCompletedStartQuiz s (Chapter.id chapter) = false
  /\ hasCompletedEndQuiz s (Chapter.id chapter) = false
  /\ canAccessChapterContent s chapter = negb (Chapter.has_start_quiz chapter).
Proof.
  intros Hattempts Huntyped.
  unfold canAccessChapterContent, hasCompletedStartQuiz, hasCompletedEndQuiz.
  rewrite Hattempts, !existsb_untyped by exact Huntyped.
  destruct (Chapter.has_start_quiz chapter); repeat split.
Qed.

Lemma untyped_attempts_keep_gate_closed_witness :
  progress Scenario.page_after_taker !! Chapter.id Scenario.gated_chapter
    ≫= Progress.quiz_attempts
  = Some (AttemptsArray [Scenario.taker_attempt] ∅)
  /\ (forall a, a ∈ Object_values (AttemptsArray [Scenario.taker_attempt] ∅) ->
                Attempt.quiz_type a = None)
  /\ canAccessChapterContent Scenario.page_after_taker Scenario.gated_chapter = false.
Proof.
  assert (forall a, a ∈ Object_values (AttemptsArray [Scenario.taker_attempt] ∅) ->
                    Attempt.quiz_type a = None) as Huntyped.
  { intros a Ha. simpl in Ha. rewrite map_to_list_empty in Ha. simpl in Ha.
    apply list_elem_of_singleton in Ha as ->. reflexivity. }
  split; [reflexivity|]. split; [exact Huntyped|].
  exact (proj2 (proj2 (untyped_attempts_keep_gate_closed Scenario.page_after_taker
                         Scenario.gated_chapter (AttemptsArray [Scenario.taker_attempt] ∅)
                         eq_refl Huntyped))).
Defined.

End GateMore.

(** ** Reloading the course page *)

Section Reload.
Import CourseLearning.

(** The loop that builds [progressMap] from the rows fetched. *)
Lemma progressMap_lookup (rows : list Progress.t) (acc : gmap string Progress.t) (c : string) :
  (forall r1 r2, r1 ∈ rows -> r2 ∈ rows ->
     Progress.chapter_id r1 = Some c -> Progress.chapter_id r2 = Some c -> r1 = r2) ->
  (forall r, r ∈ rows -> Progress.chapter_id r = Some c ->
     fold_left (fun progressMap p =>
                  match Progress.chapter_id p with
                  | Some chapter => <[chapter := p]> progressMap
                  | None => progressMap
                  end) rows acc !! c = Some r)
  /\ ((forall r, r ∈ rows -> Progress.chapter_id r <> Some c) ->
      fold_left (fun progressMap p =>
                   match Progress.chapter_id p with
                   | Some chapter => <[chapter := p]> progressMap
                   | None => progressMap
                   end) rows acc !! c = acc !! c).
Proof.
  revert acc. induction rows as [|r0 rows IH]; intros acc Huniq.
  - split; [intros r Hr; inversion Hr|reflexivity].
  - assert (forall r1 r2, r1 ∈ rows -> r2 ∈ rows ->
              Progress.chapter_id r1 = Some c -> Progress.chapter_id r2 = Some c -> r1 = r2)
      as Huniq' by (intros r1 r2 H1 H2; apply Huniq; apply list_elem_of_further; assumption).
    simpl. split.
    + intros r Hr Hc.
      destruct (decide (Exists (fun r' => Progress.chapter_id r' = Some c) rows)) as [Hex|Hno].
      * apply Exists_exists in Hex as (r' & Hr' & Hc').
        assert (r' = r) as -> by (apply Huniq; [apply list_elem_of_further| | |]; assumption).
        apply (proj1 (IH _ Huniq')); assumption.
      * assert (r = r0) as ->.
        { apply elem_of_cons in Hr as [Heq|Hin]; [exact Heq|].
          exfalso. apply Hno, Exists_exists. eauto. }
        rewrite (proj2 (IH _ Huniq')).
        -- rewrite Hc. apply lookup_insert_eq.
        -- intros r' Hr' Hc'. apply Hno, Exists_exists. eauto.
    + intros Hnone. rewrite (proj2 (IH _ Huniq')).
      * pose proof (Hnone r0 (list_elem_of_here _ _)) as Hr0.
        destruct (Progress.chapter_id r0) as [c0|]; [|reflexivity].
        apply lookup_insert_ne. congruence.
      * intros r Hr. apply Hnone, list_elem_of_further, Hr.
Qed.

(** The progress map of a page loaded without failure holds, for each
    chapter, the stored row of the user for that chapter when it belongs
    to the course. *)
Lemma fetchCourseData_progress (ctx : Context) (id : string) (pr : Profile.t) (w : World)
    (c : string) :
  courseId ctx = Some id -> id <> "" -> profile ctx = Some pr -> hasAccess pr id = true ->
  is_Some (find (fun course => String.eqb (Course.id course) id) (Backend.courses (backend w))) ->
  progress_keys_consistent (backend w) ->
  progress (ui (exec (fetchCourseData ctx NoFault NoFault NoFault) w)) !! c
  = match Backend.student_progress (backend w) !! (Profile.user_id pr, c) with
    | Some row => if decide (Progress.course_id row = Some id) then Some row else None
    | None => None
    end.
Proof.
  intros Hid Hne Hprofile Haccess [course Hcourse] Hconsistent.
  unfold fetchCourseData. rewrite Hid, Hprofile.
  apply String.eqb_neq in Hne. rewrite Hne, Haccess.
  unfold exec, try_catch, bind, await, gets, modify, ret, throw, throw_if_error, single.
  destruct w as [b s]. simpl in *. rewrite Hcourse. simpl.
  set (rows := filter (fun p => Progress.course_id p = Some id
                               ∧ Progress.user_id p = Some (Profile.user_id pr))
                      (map_to_list (Backend.student_progress b)).*2).
  assert (forall r, r ∈ rows <->
            exists chapter, Backend.student_progress b !! (Profile.user_id pr, chapter) = Some r
                            /\ Progress.course_id r = Some id) as Hrows.
  { intros r. unfold rows. rewrite list_elem_of_filter, list_elem_of_fmap. split.
    - intros [[Hcourse_id Huser] ([[u ch] r'] & -> & Hin)].
      apply elem_of_map_to_list in Hin. simpl in *.
      destruct (Hconsistent u ch r' Hin) as [Hu _].
      assert (u = Profile.user_id pr) as -> by congruence. eauto.
    - intros (ch & Hlookup & Hcourse_id).
      destruct (Hconsistent _ _ _ Hlookup) as [Hu _].
      split; [split; assumption|].
      exists (Profile.user_id pr, ch, r). split; [reflexivity|].
      apply elem_of_map_to_list. exact Hlookup. }
  assert (forall r1 r2, r1 ∈ rows -> r2 ∈ rows ->
            Progress.chapter_id r1 = Some c -> Progress.chapter_id r2 = Some c -> r1 = r2)
    as Huniq.
  { intros r1 r2 H1 H2 Hc1 Hc2.
    apply Hrows in H1 as (ch1 & Hl1 & _). apply Hrows in H2 as (ch2 & Hl2 & _).
    destruct (Hconsistent _ _ _ Hl1) as [_ Hk1]. destruct (Hconsistent _ _ _ Hl2) as [_ Hk2].
    assert (ch1 = c) as -> by congruence. assert (ch2 = c) as -> by congruence. congruence. }
  destruct (progressMap_lookup rows ∅ c Huniq) as [Hfound Hmissing].
  transitivity (fold_left (fun progressMap p =>
                             match Progress.chapter_id p with
                             | Some chapter => <[chapter := p]> progressMap
                             | None => progressMap
                             end) rows (∅ : gmap string Progress.t) !! c).
  { destruct (order_by_index _); reflexivity. }
  destruct (Backend.student_progress b !! (Profile.user_id pr, c)) as [row|] eqn:Hrow.
  - destruct (Hconsistent _ _ _ Hrow) as [_ Hchapter].
    destruct (decide (Progress.course_id row = Some id)) as [Hcourse_id|Hother].
    + apply Hfound; [apply Hrows; eauto|exact Hchapter].
    + rewrite Hmissing; [apply lookup_empty|].
      intros r Hr Hc. apply Hrows in Hr as (ch & Hl & Hcourse_id).
      destruct (Hconsistent _ _ _ Hl) as [_ Hk]. assert (ch = c) as -> by congruence.
      congruence.
  - rewrite Hmissing; [apply lookup_empty|].
    intros r Hr Hc. apply Hrows in Hr as (ch & Hl & _).
    destruct (Hconsistent _ _ _ Hl) as [_ Hk]. assert (ch = c) as -> by congruence.
    congruence.
Qed.

End Reload.

(** ** What a reload shows *)

Section ReloadShows.
Import CourseLearning.

Lemma consistent_insert (b : Backend.t) (user chapter : string) (row : Progress.t) :
  progress_keys_consistent b ->
  Progress.user_id row = Some user -> Progress.chapter_id row = Some chapter ->
  progress_keys_consistent
    (Backend.set_student_progress
       (<[(user, chapter) := row]> (Backend.student_progress b)) b).
Proof.
  intros Hconsistent Huser Hchapter u c r. simpl.
  destruct (decide ((user, chapter) = (u, c))) as [Heq|Hne].
  - injection Heq as <- <-. rewrite lookup_insert_eq. intros [= <-]. split; assumption.
  - rewrite lookup_insert_ne by exact Hne. apply Hconsistent.
Qed.

(** X19. A chapter marked as completed is shown as completed when the page
    is loaded again: what [markChapterAsCompleted] stores is what
    [fetchCourseData] reads back. *)
Theorem completed_survives_reload (ctx : Context) (id now chapterId : string) (pr : Profile.t)
    (w : World) :
  courseId ctx = Some id -> id <> "" -> profile ctx = Some pr -> hasAccess pr id = true ->
  is_Some (find (fun course => String.eqb (Course.id course) id) (Backend.courses (backend w))) ->
  progress_keys_consistent (backend w) ->
  let w1 := exec (markChapterAsCompleted ctx now NoFault chapterId) w in
  let w2 := exec (fetchCourseData ctx NoFault NoFault NoFault) w1 in
  progress (ui w2) !! chapterId ≫= Progress.completed = Some true
  /\ progress (ui w2) !! chapterId ≫= Progress.completed_at = Some now.
Proof.
  intros Hid Hne Hprofile Haccess Hcourse Hconsistent w1 w2.
  destruct (markChapterAsCompleted_effect ctx now chapterId pr w Hprofile)
    as (_ & _ & row & Hcompleted & _ & Huser & Hchapter & Hcourse_id & Hbackend).
  fold w1 in Hbackend.
  assert (Progress.completed_at row = Some now) as Hat.
  { revert Hbackend. subst w1. unfold markChapterAsCompleted. rewrite Hprofile.
    unfold exec, try_catch, upsert_progress, bind, gets, modify, ret, throw, throw_if_error.
    destruct w as [b s]. simpl.
    destruct (_ <? _); simpl; intros Heq;
      apply (f_equal (fun t => Backend.student_progress t !! (Profile.user_id pr, chapterId)))
        in Heq; simpl in Heq; rewrite !lookup_insert_eq in Heq; injection Heq as <-;
      reflexivity. }
  subst w2.
  rewrite (fetchCourseData_progress ctx id pr w1 chapterId Hid Hne Hprofile Haccess).
  - rewrite Hbackend. simpl. rewrite lookup_insert_eq.
    rewrite Hcourse_id by (rewrite Hid; eauto).
    rewrite Hid. rewrite decide_True by reflexivity. simpl. split; assumption.
  - rewrite Hbackend. exact Hcourse.
  - rewrite Hbackend. apply consistent_insert; assumption.
Qed.

Lemma sample_tables_consistent (purchased : list string) (attempts : option QuizAttempts) :
  progress_keys_consistent (Sample.tables purchased attempts).
Proof.
  intros u c r. simpl. intros Hrow.
  apply lookup_singleton_Some in Hrow as [[= <- <-] <-]. split; reflexivity.
Qed.

Lemma completed_survives_reload_witness :
  courseId (Sample.page_context ["c-1"]) = Some "c-1" /\ "c-1" <> ""
  /\ profile (Sample.page_context ["c-1"]) = Some (Sample.student ["c-1"])
  /\ hasAccess (Sample.student ["c-1"]) "c-1" = true
  /\ is_Some (find (fun course => String.eqb (Course.id course) "c-1")
                   (Backend.courses (backend (Sample.page ["c-1"] None))))
  /\ progress_keys_consistent (backend (Sample.page ["c-1"] None))
  /\ progress
       (ui (exec (fetchCourseData (Sample.page_context ["c-1"]) NoFault NoFault NoFault)
                 (exec (markChapterAsCompleted (Sample.page_context ["c-1"])
                          "2024-01-03T00:00:00.000Z" NoFault "ch1")
                       (Sample.page ["c-1"] None))))
       !! "ch1" ≫= Progress.completed = Some true.
Proof.
  assert (is_Some (find (fun course => String.eqb (Course.id course) "c-1")
                        (Backend.courses (backend (Sample.page ["c-1"] None))))) as Hcourse
    by (eexists; reflexivity).
  split; [reflexivity|]. split; [discriminate|]. split; [reflexivity|]. split; [reflexivity|].
  split; [exact Hcourse|]. split; [apply sample_tables_consistent|].
  exact (proj1 (completed_survives_reload (Sample.page_context ["c-1"]) "c-1"
                  "2024-01-03T00:00:00.000Z" "ch1" (Sample.student ["c-1"])
                  (Sample.page ["c-1"] None) eq_refl ltac:(discriminate) eq_refl eq_refl
                  Hcourse (sample_tables_consistent _ _))).
Defined.

(** The row that [handleQuizComplete] stores. *)
Lemma handleQuizComplete_row (ctx : Context) (now : string) (score : Number) (passed : bool)
    (w : World) (quiz : Quiz.t) (pr : Profile.t) (chapter : Chapter.t) :
  currentQuiz (ui w) = Some quiz -> profile ctx = Some pr ->
  currentChapter (ui w) = Some chapter ->
  exists row,
    backend (exec (handleQuizComplete ctx now NoFault NoFault score passed) w)
    = Backend.set_student_progress
        (<[(Profile.user_id pr, Chapter.id chapter) := row]>
           (Backend.student_progress (backend w))) (backend w)
    /\ Progress.user_id row = Some (Profile.user_id pr)
    /\ Progress.chapter_id row = Some (Chapter.id chapter)
    /\ (is_Some (courseId ctx) -> Progress.course_id row = courseId ctx)
    /\ Progress.quiz_attempts row
       = Some (to_json
                 (set_property (Quiz.id quiz) (attemptData quiz now score passed)
                    (default (AttemptsObject ∅)
                       (stored_attempts (backend w) (Profile.user_id pr) (Chapter.id chapter))))).
Proof.
  intros Hquiz Hprofile Hchapter.
  unfold handleQuizComplete, exec, bind, gets.
  rewrite Hquiz, Hprofile, Hchapter.
  unfold try_catch, select_progress_single, upsert_progress, await, bind, gets, modify, ret,
    throw, throw_if_error, single, stored_attempts.
  destruct w as [b s]. simpl.
  destruct (Backend.student_progress b !! (Profile.user_id pr, Chapter.id chapter));
    simpl; eexists; (split; [reflexivity|]); simpl; repeat split;
    intros [id Hid]; rewrite Hid; reflexivity.
Qed.

(** What the page holds for the current chapter when it is loaded again
    after [handleQuizComplete]. *)
Lemma reload_after_quiz (ctx : Context) (id now : string) (score : Number) (passed : bool)
    (w : World) (quiz : Quiz.t) (pr : Profile.t) (chapter : Chapter.t) :
  courseId ctx = Some id -> id <> "" -> profile ctx = Some pr -> hasAccess pr id = true ->
  is_Some (find (fun course => String.eqb (Course.id course) id) (Backend.courses (backend w))) ->
  progress_keys_consistent (backend w) ->
  currentQuiz (ui w) = Some quiz -> currentChapter (ui w) = Some chapter ->
  progress
    (ui (exec (fetchCourseData ctx NoFault NoFault NoFault)
              (exec (handleQuizComplete ctx now NoFault NoFault score passed) w)))
    !! Chapter.id chapter ≫= Progress.quiz_attempts
  = Some (to_json
            (set_property (Quiz.id quiz) (attemptData quiz now score passed)
               (default (AttemptsObject ∅)
                  (stored_attempts (backend w) (Profile.user_id pr) (Chapter.id chapter))))).
Proof.
  intros Hid Hne Hprofile Haccess Hcourse Hconsistent Hquiz Hchapter.
  destruct (handleQuizComplete_row ctx now score passed w quiz pr chapter Hquiz Hprofile Hchapter)
    as (row & Hbackend & Huser & Hchapter_id & Hcourse_id & Hattempts).
  rewrite (fetchCourseData_progress ctx id pr _ (Chapter.id chapter) Hid Hne Hprofile Haccess).
  - rewrite Hbackend. simpl. rewrite lookup_insert_eq.
    rewrite Hcourse_id by (rewrite Hid; eauto).
    rewrite Hid, decide_True by reflexivity. exact Hattempts.
  - rewrite Hbackend. exact Hcourse.
  - rewrite Hbackend. apply consistent_insert; assumption.
Qed.

(** X20. A passed start quiz that the course page stores in an attempts
    object (or as the first attempt of the chapter) still opens the
    chapter when the page is loaded again. *)
Theorem passed_start_quiz_survives_reload (ctx : Context) (id now : string) (score : Number)
    (w : World) (quiz : Quiz.t) (pr : Profile.t) (chapter : Chapter.t) :
  courseId ctx = Some id -> id <> "" -> profile ctx = Some pr -> hasAccess pr id = true ->
  is_Some (find (fun course => String.eqb (Course.id course) id) (Backend.courses (backend w))) ->
  progress_keys_consistent (backend w) ->
  currentQuiz (ui w) = Some quiz -> currentChapter (ui w) = Some chapter ->
  Quiz.is_start_quiz quiz = true ->
  (forall elems props,
     stored_attempts (backend w) (Profile.user_id pr) (Chapter.id chapter)
     <> Some (AttemptsArray elems props)) ->
  canAccessChapterContent
    (ui (exec (fetchCourseData ctx NoFault NoFault NoFault)
              (exec (handleQuizComplete ctx now NoFault NoFault score true) w)))
    chapter = true.
Proof.
  intros Hid Hne Hprofile Haccess Hcourse Hconsistent Hquiz Hchapter Hstart Hshape.
  unfold canAccessChapterContent, hasCompletedStartQuiz.
  rewrite (reload_after_quiz ctx id now score true w quiz pr chapter) by assumption.
  destruct (Chapter.has_start_quiz chapter); [simpl|reflexivity].
  apply existsb_exists. exists (attemptData quiz now score true). split.
  - apply list_elem_of_In.
    destruct (stored_attempts (backend w) (Profile.user_id pr) (Chapter.id chapter))
      as [[props|elems props]|]; simpl.
    + apply (set_property_value (Quiz.id quiz) _ (AttemptsObject props)).
    + exfalso. apply (Hshape elems props). reflexivity.
    + apply (set_property_value (Quiz.id quiz) _ (AttemptsObject ∅)).
  - simpl. rewrite Hstart. reflexivity.
Qed.

Lemma passed_start_quiz_survives_reload_witness :
  courseId (Sample.page_context ["c-1"]) = Some "c-1" /\ "c-1" <> ""
  /\ hasAccess (Sample.student ["c-1"]) "c-1" = true
  /\ progress_keys_consistent (backend (Scenario.gated_page None))
  /\ currentChapter (ui (Scenario.gated_page None)) = Some Scenario.gated_chapter
  /\ Quiz.is_start_quiz (QuizTaker.quiz (Sample.quiz_of 2 50)) = true
  /\ canAccessChapterContent
       (ui (exec (fetchCourseData (Sample.page_context ["c-1"]) NoFault NoFault NoFault)
                 (exec (handleQuizComplete (Sample.page_context ["c-1"])
                          "2024-01-03T00:00:00.000Z" NoFault NoFault (of_Z 100) true)
                       (Scenario.gated_page None))))
       Scenario.gated_chapter = true.
Proof.
  split; [reflexivity|]. split; [discriminate|]. split; [reflexivity|].
  split; [apply sample_tables_consistent|]. split; [reflexivity|]. split; [reflexivity|].
  apply (passed_start_quiz_survives_reload (Sample.page_context ["c-1"]) "c-1"
           "2024-01-03T00:00:00.000Z" (of_Z 100) (Scenario.gated_page None)
           (QuizTaker.quiz (Sample.quiz_of 2 50)) (Sample.student ["c-1"])
           Scenario.gated_chapter);
    try reflexivity; try discriminate.
  - eexists; reflexivity.
  - apply sample_tables_consistent.
Defined.

(** X21. When the stored attempts of the chapter are an array without
    typed attempts, as the quiz taker writes it, a passed start quiz opens
    the chapter on the page, but the attempt is not stored: once the page
    is loaded again the chapter is closed as before. *)
Theorem passed_start_quiz_forgotten_after_reload (ctx : Context) (id now : string)
    (score : Number) (w : World) (quiz : Quiz.t) (pr : Profile.t) (chapter : Chapter.t)
    (elems : list Attempt.t) (props : gmap string Attempt.t) :
  courseId ctx = Some id -> id <> "" -> profile ctx = Some pr -> hasAccess pr id = true ->
  is_Some (find (fun course => String.eqb (Course.id course) id) (Backend.courses (backend w))) ->
  progress_keys_consistent (backend w) ->
  currentQuiz (ui w) = Some quiz -> currentChapter (ui w) = Some chapter ->
  Quiz.is_start_quiz quiz = true -> Chapter.has_start_quiz chapter = true ->
  stored_attempts (backend w) (Profile.user_id pr) (Chapter.id chapter)
  = Some (AttemptsArray elems props) ->
  (forall a, a ∈ elems -> Attempt.quiz_type a = None) ->
  let w1 := exec (handleQuizComplete ctx now NoFault NoFault score true) w in
  let w2 := exec (fetchCourseData ctx NoFault NoFault NoFault) w1 in
  canAccessChapterContent (ui w1) chapter = true
  /\ canAccessChapterContent (ui w2) chapter = false.
Proof.
  intros Hid Hne Hprofile Haccess Hcourse Hconsistent Hquiz Hchapter Hstart Hgated Hstored
    Huntyped w1 w2.
  split.
  - destruct (handleQuizComplete_local ctx now score true w quiz pr chapter
                Hquiz Hprofile Hchapter) as (Hlocal & _).
    fold w1 in Hlocal.
    unfold canAccessChapterContent, hasCompletedStartQuiz. rewrite Hgated, Hlocal. simpl.
    apply existsb_exists. exists (attemptData quiz now score true).
    split; [apply list_elem_of_In, set_property_value|].
    simpl. rewrite Hstart. reflexivity.
  - unfold canAccessChapterContent, hasCompletedStartQuiz. subst w2 w1.
    rewrite (reload_after_quiz ctx id now score true w quiz pr chapter) by assumption.
    rewrite Hgated, Hstored. simpl. rewrite map_to_list_empty. simpl. rewrite app_nil_r.
    apply existsb_untyped. exact Huntyped.
Qed.

Lemma passed_start_quiz_forgotten_after_reload_witness :
  hasAccess (Sample.student ["c-1"]) "c-1" = true
  /\ Chapter.has_start_quiz Scenario.gated_chapter = true
  /\ stored_attempts
       (backend (Scenario.gated_page (Some (AttemptsArray [Scenario.taker_attempt] ∅))))
       (Profile.user_id (Sample.student ["c-1"])) (Chapter.id Scenario.gated_chapter)
     = Some (AttemptsArray [Scenario.taker_attempt] ∅)
  /\ (forall a, a ∈ [Scenario.taker_attempt] -> Attempt.quiz_type a = None)
  /\ canAccessChapterContent
       (ui (exec (fetchCourseData (Sample.page_context ["c-1"]) NoFault NoFault NoFault)
                 (exec (handleQuizComplete (Sample.page_context ["c-1"])
                          "2024-01-03T00:00:00.000Z" NoFault NoFault (of_Z 100) true)
                       (Scenario.gated_page (Some (AttemptsArray [Scenario.taker_attempt] ∅))))))
       Scenario.gated_chapter = false.
Proof.
  assert (forall a, a ∈ [Scenario.taker_attempt] -> Attempt.quiz_type a = None) as Huntyped
    by (intros a Ha; apply list_elem_of_singleton in Ha as ->; reflexivity).
  split; [reflexivity|]. split; [reflexivity|]. split; [reflexivity|]. split; [exact Huntyped|].
  refine (proj2 (passed_start_quiz_forgotten_after_reload (Sample.page_context ["c-1"]) "c-1"
                   "2024-01-03T00:00:00.000Z" (of_Z 100)
                   (Scenario.gated_page (Some (AttemptsArray [Scenario.taker_attempt] ∅)))
                   (QuizTaker.quiz (Sample.quiz_of 2 50)) (Sample.student ["c-1"])
                   Scenario.gated_chapter [Scenario.taker_attempt] ∅
                   eq_refl _ eq_refl eq_refl _ _ eq_refl eq_refl eq_refl eq_refl eq_refl
                   Huntyped)).
  - discriminate.
  - eexists; reflexivity.
  - apply sample_tables_consistent.
Defined.

End ReloadShows.

(** ** The quiz modal: quiz taker and course page together *)

Section Modal.
Import CourseLearning.

Lemma modal_props (wired : bool) (s : State) (quiz : Quiz.t) :
  quiz_modal_shown s = true -> currentQuiz s = Some quiz ->
  QuizModal.props wired s
  = Some {| QuizTaker.quiz := quiz; QuizTaker.questions := quizQuestions s;
            QuizTaker.onQuizComplete_given := wired |}.
Proof.
  intros Hshown Hquiz. unfold QuizModal.props. rewrite Hshown, Hquiz. reflexivity.
Qed.

(** X22. A submission in the quiz modal for a chapter that has a progress
    record, no request failing: the attempt record of the quiz taker is
    not stored.  What is stored is the record of the page, set under the
    quiz's id on the attempts that were stored; the score toast is shown
    twice and the modal is closed. *)
Theorem submit_on_recorded_chapter (ctx : Context) (now now' : string) (t : QuizTaker.State)
    (w : World) (quiz : Quiz.t) (pr : Profile.t) (chapter : Chapter.t) (row : Progress.t) :
  quiz_modal_shown (ui w) = true -> currentQuiz (ui w) = Some quiz ->
  profile ctx = Some pr -> currentChapter (ui w) = Some chapter ->
  Quiz.chapter_id quiz = Chapter.id chapter ->
  Backend.student_progress (backend w) !! (Profile.user_id pr, Chapter.id chapter) = Some row ->
  let p := {| QuizTaker.quiz := quiz; QuizTaker.questions := quizQuestions (ui w);
              QuizTaker.onQuizComplete_given := true |} in
  let score := QuizTaker.calculatedScore p t in
  let passed := QuizTaker.passed p t in
  let w' := QuizModal.submit true ctx now now' QuizModal.no_faults t w in
  stored_attempts (backend w') (Profile.user_id pr) (Chapter.id chapter)
  = Some (to_json
            (set_property (Quiz.id quiz) (attemptData quiz now' score passed)
               (default (AttemptsObject ∅) (Progress.quiz_attempts row))))
  /\ toasts (ui w') = toasts (ui w) ++ [score_toast score passed; score_toast score passed]
  /\ showQuiz (ui w') = false.
Proof.
  intros Hshown Hquiz Hprofile Hchapter Hsame Hrow p score passed w'.
  subst w' score passed. unfold QuizModal.submit.
  rewrite (modal_props true (ui w) quiz Hshown Hquiz), Hprofile.
  cbn [QuizModal.taker_auth QuizModal.taker_select QuizModal.taker_upsert
       QuizModal.page_select QuizModal.page_upsert QuizModal.no_faults fmap option_fmap
       option_map].
  fold p.
  assert (exec (QuizTaker.handleSubmitQuiz p now (Some (Profile.user_id pr))
                  NoFault NoFault NoFault) (QuizModal.taker t w)
          = {| QuizTaker.state := QuizTaker.submitted p t;
               QuizTaker.backend := backend w;
               QuizTaker.toasts :=
                 toasts (ui w)
                 ++ [score_toast (QuizTaker.calculatedScore p t) (QuizTaker.passed p t)];
               QuizTaker.onQuizComplete :=
                 [(QuizTaker.calculatedScore p t, QuizTaker.passed p t)] |}) as Htaker.
  { unfold exec.
    rewrite (handleSubmitQuiz_refused p now (Profile.user_id pr) row (QuizModal.taker t w))
      by (try reflexivity; simpl; rewrite Hsame; exact Hrow).
    reflexivity. }
  rewrite Htaker. cbn [QuizTaker.onQuizComplete fold_left].
  set (w1 := QuizModal.page _ w).
  assert (currentQuiz (ui w1) = Some quiz) as Hquiz1 by exact Hquiz.
  assert (currentChapter (ui w1) = Some chapter) as Hchapter1 by exact Hchapter.
  assert (stored_attempts (backend w1) (Profile.user_id pr) (Chapter.id chapter)
          = Progress.quiz_attempts row) as Hstored
    by (unfold stored_attempts; simpl; rewrite Hrow; reflexivity).
  split.
  - rewrite (handleQuizComplete_stores ctx now' _ _ w1 quiz pr chapter Hquiz1 Hprofile Hchapter1).
    rewrite Hstored. reflexivity.
  - destruct (handleQuizComplete_local ctx now' (QuizTaker.calculatedScore p t)
                (QuizTaker.passed p t) w1 quiz pr chapter Hquiz1 Hprofile Hchapter1)
      as (_ & Hshow & _ & _ & Htoasts).
    split; [|exact Hshow].
    rewrite Htoasts. simpl. rewrite <- app_assoc. reflexivity.
Qed.

Lemma submit_on_recorded_chapter_witness :
  quiz_modal_shown (ui (Scenario.open_quiz Scenario.started_page)) = true
  /\ currentQuiz (ui (Scenario.open_quiz Scenario.started_page))
     = Some (QuizTaker.quiz (Sample.quiz_of 3 50))
  /\ showQuiz
       (ui (QuizModal.submit true (Sample.page_context ["c-1"]) "2024-01-03T10:00:00.000Z"
              "2024-01-03T10:00:01.000Z" QuizModal.no_faults Scenario.first_try
              (Scenario.open_quiz Scenario.started_page)))
     = false.
Proof.
  set (opened := Scenario.open_quiz Scenario.started_page).
  assert (quiz_modal_shown (ui opened) = true) as Hshown by (vm_compute; reflexivity).
  assert (currentQuiz (ui opened) = Some (QuizTaker.quiz (Sample.quiz_of 3 50))) as Hquiz
    by (vm_compute; reflexivity).
  split; [exact Hshown|]. split; [exact Hquiz|].
  assert (exists row,
            Backend.student_progress (backend opened) !! ("u-1", "ch0") = Some row)
    as [row Hrow] by (eexists; vm_compute; reflexivity).
  exact (proj2 (proj2 (submit_on_recorded_chapter (Sample.page_context ["c-1"])
                         "2024-01-03T10:00:00.000Z" "2024-01-03T10:00:01.000Z"
                         Scenario.first_try opened (QuizTaker.quiz (Sample.quiz_of 3 50))
                         (Sample.student ["c-1"]) (Sample.chapter 0) row
                         Hshown Hquiz eq_refl ltac:(vm_compute; reflexivity) eq_refl Hrow))).
Defined.

(** X23. The first version of the page passes its handler as [onComplete]:
    a submission by the signed-in user, no request failing, then ends with
    the error toast after the score toast, also when the attempt was
    stored; the page's handler does not run, so the modal stays open, the
    progress map is as before and no chapter opens. *)
Theorem submit_unwired (ctx : Context) (now now' : string) (t : QuizTaker.State)
    (w : World) (quiz : Quiz.t) (pr : Profile.t) :
  quiz_modal_shown (ui w) = true -> currentQuiz (ui w) = Some quiz ->
  profile ctx = Some pr ->
  let p := {| QuizTaker.quiz := quiz; QuizTaker.questions := quizQuestions (ui w);
              QuizTaker.onQuizComplete_given := false |} in
  let w' := QuizModal.submit false ctx now now' QuizModal.no_faults t w in
  toasts (ui w')
  = toasts (ui w)
    ++ [score_toast (QuizTaker.calculatedScore p t) (QuizTaker.passed p t);
        error_toast "Failed to save quiz results"]
  /\ (Backend.student_progress (backend w) !! (Profile.user_id pr, Quiz.chapter_id quiz) = None ->
      stored_attempts (backend w') (Profile.user_id pr) (Quiz.chapter_id quiz)
      = Some (AttemptsArray [QuizTaker.quizAttempt p t now] ∅))
  /\ progress (ui w') = progress (ui w)
  /\ quiz_modal_shown (ui w') = true
  /\ forall chapter,
       canAccessChapterContent (ui w') chapter = canAccessChapterContent (ui w) chapter.
Proof.
  intros Hshown Hquiz Hprofile p w'.
  subst w'. unfold QuizModal.submit.
  rewrite (modal_props false (ui w) quiz Hshown Hquiz), Hprofile. simpl.
  unfold QuizTaker.handleSubmitQuiz, exec, try_catch, select_progress_single,
    upsert_progress_on_primary_key, await, bind, gets, modify, ret, throw, single,
    stored_attempts.
  destruct w as [b s]. simpl in *.
  destruct (Backend.student_progress b !! (Profile.user_id pr, Quiz.chapter_id quiz))
    as [row|] eqn:Hrow; simpl; rewrite ?Hrow; simpl.
  - rewrite <- app_assoc. repeat split; try discriminate; assumption.
  - rewrite <- app_assoc. repeat split; try assumption.
    intros _. rewrite lookup_insert_eq. reflexivity.
Qed.

Lemma submit_unwired_witness :
  quiz_modal_shown (ui (Scenario.open_quiz Scenario.loaded_page)) = true
  /\ currentQuiz (ui (Scenario.open_quiz Scenario.loaded_page))
     = Some (QuizTaker.quiz (Sample.quiz_of 3 50))
  /\ progress
       (ui (QuizModal.submit false (Sample.page_context ["c-1"]) "2024-01-03T10:00:00.000Z"
              "2024-01-03T10:00:01.000Z" QuizModal.no_faults Scenario.first_try
              (Scenario.open_quiz Scenario.loaded_page)))
     = progress (ui (Scenario.open_quiz Scenario.loaded_page)).
Proof.
  set (opened := Scenario.open_quiz Scenario.loaded_page).
  assert (quiz_modal_shown (ui opened) = true) as Hshown by (vm_compute; reflexivity).
  assert (currentQuiz (ui opened) = Some (QuizTaker.quiz (Sample.quiz_of 3 50))) as Hquiz
    by (vm_compute; reflexivity).
  split; [exact Hshown|]. split; [exact Hquiz|].
  exact (proj1 (proj2 (proj2 (submit_unwired (Sample.page_context ["c-1"])
                                "2024-01-03T10:00:00.000Z" "2024-01-03T10:00:01.000Z"
                                Scenario.first_try opened
                                (QuizTaker.quiz (Sample.quiz_of 3 50))
                                (Sample.student ["c-1"]) Hshown Hquiz eq_refl)))).
Defined.

End Modal.

(** ** Opening a quiz *)

Section QuizLoading.
Import CourseLearning.






(** X25. When the chapter has no quiz of the kind asked for, or several,
    or a request fails, the page shows "Failed to load quiz." and nothing
    else changes: no modal opens. *)
Theorem fetchQuizData_failure (quizzes : list Quiz.t) (quiz_questions : list QuizQuestion.t)
    (f_quiz f_questions : Fault) (chapterId : string) (isStartQuiz : bool) (w : World) :
  f_quiz <> NoFault
  \/ length (filter (fun q => Quiz.chapter_id q = chapterId
                              ∧ Quiz.is_start_quiz q = isStartQuiz
                              ∧ Quiz.is_end_quiz q = negb isStartQuiz) quizzes) <> 1%nat
  \/ f_questions <> NoFault ->
  fetchQuizData quizzes quiz_questions f_quiz f_questions chapterId isStartQuiz w
  = (on_ui (toast (error_toast "Failed to load quiz.")) w, Some tt).
Proof.
  intros Hfail.
  unfold fetchQuizData, try_catch, await, bind, gets, modify, ret, throw, throw_if_error,
    single_row.
  destruct w as [b s].
  destruct f_quiz as [|e|]; simpl; try reflexivity.
  destruct (filter _ quizzes) as [|quiz [|quiz' rest]] eqn:Hfilter; simpl; try reflexivity.
  destruct f_questions as [|e|]; simpl; try reflexivity.
  exfalso. destruct Hfail as [Hf|[Hlen|Hf]]; try congruence.
  apply Hlen. reflexivity.
Qed.

Lemma fetchQuizData_failure_witness :
  (NoFault <> NoFault
   \/ length (filter (fun q => Quiz.chapter_id q = "ch0"
                               ∧ Quiz.is_start_quiz q = false
                               ∧ Quiz.is_end_quiz q = negb false) Scenario.quizzes) <> 1%nat
   \/ NoFault <> NoFault)
  /\ showQuiz (ui (exec (fetchQuizData Scenario.quizzes Scenario.quiz_questions
                           NoFault NoFault "ch0" false) Scenario.loaded_page))
     = false.
Proof.
  assert (NoFault <> NoFault
          \/ length (filter (fun q => Quiz.chapter_id q = "ch0"
                                      ∧ Quiz.is_start_quiz q = false
                                      ∧ Quiz.is_end_quiz q = negb false) Scenario.quizzes)
             <> 1%nat
          \/ NoFault <> NoFault) as Hfail
    by (right; left; vm_compute; discriminate).
  split; [exact Hfail|].
  unfold exec.
  rewrite (fetchQuizData_failure Scenario.quizzes Scenario.quiz_questions NoFault NoFault
             "ch0" false Scenario.loaded_page Hfail).
  vm_compute. reflexivity.
Defined.

End QuizLoading.

(** ** More on the dashboard *)

Section Dashboard.
Import StudentDashboard.

(** The loop of [fetchCourseProgress] when no request rejects: the tables
    and the dashboard are not touched, and the map gets an entry for every
    id of the list. *)
Lemma fetchCourseProgress_loop_entries (pr : Profile.t) (faults : string -> Fault * Fault)
    (w : World) (ids : list string) :
  (forall id, id ∈ ids -> (faults id).1 <> Rejects /\ (faults id).2 <> Rejects) ->
  forall acc, exists m,
    fetchCourseProgress_loop pr faults ids acc w = (w, Some m)
    /\ (forall id, id ∉ ids -> m !! id = acc !! id)
    /\ (forall id, id ∈ ids ->
          exists e, m !! id = Some e
            /\ course_id e = id
            /\ total_chapters e
               = match (faults id).1 with
                 | NoFault =>
                     Z.of_nat (length (filter (fun c => Chapter.course_id c = id)
                                         (Backend.chapters (backend w))))
                 | _ => 0
                 end
            /\ (total_chapters e = 0 -> completion_percentage e = of_Z 0)).
Proof.
  induction ids as [|i ids IH]; intros Hfaults acc.
  - exists acc. split; [reflexivity|]. split; [reflexivity|].
    intros id Hin. inversion Hin.
  - assert (forall id, id ∈ ids -> (faults id).1 <> Rejects /\ (faults id).2 <> Rejects)
      as Hrest by (intros id Hin; apply Hfaults; apply list_elem_of_further; exact Hin).
    destruct (Hfaults i (list_elem_of_here _ _)) as [Hfirst Hsecond].
    assert (exists e,
              fetchCourseProgress_loop pr faults (i :: ids) acc w
              = fetchCourseProgress_loop pr faults ids (<[i := e]> acc) w
              /\ course_id e = i
              /\ total_chapters e
                 = match (faults i).1 with
                   | NoFault =>
                       Z.of_nat (length (filter (fun c => Chapter.course_id c = i)
                                           (Backend.chapters (backend w))))
                   | _ => 0
                   end
              /\ (total_chapters e = 0 -> completion_percentage e = of_Z 0))
      as (e & Hstep & Hid & Htotal & Hzero).
    { simpl. unfold bind, await, gets, ret.
      destruct (faults i) as [[|e1|] [|e2|]]; simpl in *; try congruence;
        eexists; (split; [reflexivity|]); simpl; (split; [reflexivity|]);
        (split; [reflexivity|]); intros Hzero; try reflexivity;
        rewrite Hzero; reflexivity. }
    destruct (IH Hrest (<[i := e]> acc)) as (m & Hloop & Hout & Hin).
    exists m. split; [rewrite Hstep; exact Hloop|]. split.
    + intros id Hnot. rewrite Hout by (intros Hid'; apply Hnot, list_elem_of_further, Hid').
      apply lookup_insert_ne. intros ->. apply Hnot, list_elem_of_here.
    + intros id Hid'. destruct (decide (id ∈ ids)) as [Hids|Hids]; [apply Hin, Hids|].
      apply elem_of_cons in Hid'. destruct Hid' as [->|Hid']; [|contradiction].
      exists e. rewrite (Hout i Hids), lookup_insert_eq. auto.
Qed.

(** X26. The progress cards of the dashboard: when no request rejects, the
    tables are not written and the progress map is replaced by one with an
    entry for exactly the purchased course ids.  The total of an entry is
    the number of chapter rows of the course, or 0 when that request
    returned an error, and a course without chapters has percentage 0. *)
Theorem fetchCourseProgress_entries (pr : Profile.t) (faults : string -> Fault * Fault)
    (w : World) (first : string) (rest : list string) :
  Profile.purchased_courses pr = Some (first :: rest) ->
  (forall id, id ∈ first :: rest -> (faults id).1 <> Rejects /\ (faults id).2 <> Rejects) ->
  let r := fetchCourseProgress (Some pr) faults w in
  snd r = Some tt
  /\ backend (fst r) = backend w
  /\ (forall id, id ∉ first :: rest -> courseProgress (ui (fst r)) !! id = None)
  /\ (forall id, id ∈ first :: rest ->
        exists e, courseProgress (ui (fst r)) !! id = Some e
          /\ course_id e = id
          /\ total_chapters e
             = match (faults id).1 with
               | NoFault =>
                   Z.of_nat (length (filter (fun c => Chapter.course_id c = id)
                                       (Backend.chapters (backend w))))
               | _ => 0
               end
          /\ (total_chapters e = 0 -> completion_percentage e = of_Z 0)).
Proof.
  intros Hpurchased Hfaults r. subst r.
  destruct (fetchCourseProgress_loop_entries pr faults w (first :: rest) Hfaults ∅)
    as (m & Hloop & Hout & Hin).
  unfold fetchCourseProgress. rewrite Hpurchased. unfold bind. rewrite Hloop. simpl.
  split; [reflexivity|]. split; [reflexivity|]. split.
  - intros id Hnot. rewrite (Hout id Hnot). apply lookup_empty.
  - exact Hin.
Qed.

Lemma fetchCourseProgress_entries_witness :
  Profile.purchased_courses (Sample.student ["c-1"; "c-2"]) = Some ("c-1" :: ["c-2"])
  /\ (forall id, id ∈ "c-1" :: ["c-2"] ->
        ((fun _ : string => (NoFault, NoFault)) id).1 <> Rejects
        /\ ((fun _ : string => (NoFault, NoFault)) id).2 <> Rejects)
  /\ courseProgress
       (ui (fst (fetchCourseProgress (Some (Sample.student ["c-1"; "c-2"]))
                   (fun _ => (NoFault, NoFault)) (Sample.dashboard ["c-1"; "c-2"]))))
     !! "c-3" = None.
Proof.
  assert (forall id, id ∈ "c-1" :: ["c-2"] ->
            ((fun _ : string => (NoFault, NoFault)) id).1 <> Rejects
            /\ ((fun _ : string => (NoFault, NoFault)) id).2 <> Rejects) as Hfaults
    by (intros id _; split; discriminate).
  split; [reflexivity|]. split; [exact Hfaults|].
  destruct (fetchCourseProgress_entries (Sample.student ["c-1"; "c-2"])
              (fun _ => (NoFault, NoFault)) (Sample.dashboard ["c-1"; "c-2"])
              "c-1" ["c-2"] eq_refl Hfaults) as (_ & _ & Hout & _).
  apply Hout. intros Hin.
  apply elem_of_cons in Hin. destruct Hin as [Hin|Hin]; [discriminate|].
  apply list_elem_of_singleton in Hin. discriminate.
Defined.

Lemma fetchCourseProgress_loop_rejected (pr : Profile.t) (faults : string -> Fault * Fault)
    (w : World) (ids : list string) :
  (exists id, id ∈ ids /\ ((faults id).1 = Rejects \/ (faults id).2 = Rejects)) ->
  forall acc, fetchCourseProgress_loop pr faults ids acc w = (w, None).
Proof.
  induction ids as [|i ids IH]; intros (id & Hin & Hrejects) acc.
  - inversion Hin.
  - simpl. unfold bind, await, gets, ret, throw.
    destruct (faults i) as [f1 f2] eqn:Hi.
    destruct f1 as [|e1|]; simpl; try reflexivity;
      (destruct f2 as [|e2|]; simpl; try reflexivity).
    all: apply IH; exists id; split; [|exact Hrejects].
    all: apply elem_of_cons in Hin; destruct Hin as [->|Hin]; [|exact Hin].
    all: rewrite Hi in Hrejects; simpl in Hrejects; destruct Hrejects; discriminate.
Qed.

(** X27. The progress map is left as it was when the profile has no
    purchased course, and when a request of the loop rejects: the entries
    computed before the rejected request are dropped with the rest. *)
Theorem fetchCourseProgress_unchanged (profile : option Profile.t)
    (faults : string -> Fault * Fault) (w : World) :
  (forall first rest, profile ≫= Profile.purchased_courses <> Some (first :: rest))
  \/ (exists ids id, profile ≫= Profile.purchased_courses = Some ids /\ id ∈ ids
                     /\ ((faults id).1 = Rejects \/ (faults id).2 = Rejects)) ->
  exec (fetchCourseProgress profile faults) w = w.
Proof.
  intros [Hnone|(ids & id & Hids & Hin & Hrejects)]; unfold fetchCourseProgress, exec.
  - destruct profile as [pr|]; [|reflexivity]. simpl in Hnone.
    destruct (Profile.purchased_courses pr) as [[|first rest]|]; try reflexivity.
    exfalso. apply (Hnone first rest). reflexivity.
  - destruct profile as [pr|]; [|discriminate]. simpl in Hids. rewrite Hids.
    destruct ids as [|first rest]; [inversion Hin|].
    unfold bind.
    rewrite (fetchCourseProgress_loop_rejected pr faults w (first :: rest)) by eauto.
    reflexivity.
Qed.

Lemma fetchCourseProgress_unchanged_witness :
  ((forall first rest,
      Some (Sample.student ["c-1"; "c-2"]) ≫= Profile.purchased_courses <> Some (first :: rest))
   \/ (exists ids id,
         Some (Sample.student ["c-1"; "c-2"]) ≫= Profile.purchased_courses = Some ids
         /\ id ∈ ids
         /\ (((fun id : string => (NoFault, if String.eqb id "c-2" then Rejects else NoFault)) id).1
             = Rejects
             \/ ((fun id : string => (NoFault, if String.eqb id "c-2" then Rejects else NoFault)) id).2
                = Rejects)))
  /\ exec (fetchCourseProgress (Some (Sample.student ["c-1"; "c-2"]))
             (fun id => (NoFault, if String.eqb id "c-2" then Rejects else NoFault)))
          (Sample.dashboard ["c-1"; "c-2"])
     = Sample.dashboard ["c-1"; "c-2"].
Proof.
  assert ((forall first rest,
             Some (Sample.student ["c-1"; "c-2"]) ≫= Profile.purchased_courses
             <> Some (first :: rest))
          \/ (exists ids id,
                Some (Sample.student ["c-1"; "c-2"]) ≫= Profile.purchased_courses = Some ids
                /\ id ∈ ids
                /\ (((fun id : string =>
                        (NoFault, if String.eqb id "c-2" then Rejects else NoFault)) id).1
                    = Rejects
                    \/ ((fun id : string =>
                           (NoFault, if String.eqb id "c-2" then Rejects else NoFault)) id).2
                       = Rejects))) as Hcase.
  { right. exists ["c-1"; "c-2"], "c-2". split; [reflexivity|].
    split; [apply list_elem_of_further, list_elem_of_here|]. right. reflexivity. }
  split; [exact Hcase|].
  apply (fetchCourseProgress_unchanged _ _ _ Hcase).
Defined.

(** Reloading the course lists shows no toast. *)
Lemma fetchCourses_toasts (profile : option Profile.t) (f_university f_public f_purchased : Fault)
    (w : World) :
  toasts (ui (exec (fetchCourses profile f_university f_public f_purchased) w)) = toasts (ui w).
Proof.
  unfold fetchCourses, exec, bind, modify, await, gets, ret, throw.
  destruct (profile ≫= Profile.university_id) as [university|]; simpl.
  - destruct (String.eqb university ""); simpl;
      destruct (profile ≫= Profile.purchased_courses) as [[|first rest]|]; simpl;
      destruct f_university, f_public, f_purchased; reflexivity.
  - destruct (profile ≫= Profile.purchased_courses) as [[|first rest]|]; simpl;
      destruct f_public, f_purchased; reflexivity.
Qed.

Lemma handlePurchaseCourse_toasts (profile : option Profile.t)
    (f_university f_public f_purchased : Fault) (courseId : string) (course : Course.t)
    (w : World) :
  Course.is_free course = true ->
  toasts (ui (exec (handlePurchaseCourse profile NoFault f_university f_public f_purchased
                      courseId course) w))
  = toasts (ui w) ++ [course_added].
Proof.
  intros Hfree. unfold handlePurchaseCourse. rewrite Hfree.
  unfold exec, try_catch, bind, update_purchased_courses, modify, ret, throw_if_error,
    detached, bind. simpl.
  rewrite fetchCourses_toasts. destruct profile; reflexivity.
Qed.

(** What a free-course purchase stores, whatever the refresh of the lists
    does. *)
Lemma handlePurchaseCourse_stored (profile row : Profile.t)
    (f_university f_public f_purchased : Fault) (courseId : string) (course : Course.t)
    (w : World) :
  Course.is_free course = true ->
  Backend.profiles (backend w) !! Profile.user_id profile = Some row ->
  exists row',
    Backend.profiles
      (backend (exec (handlePurchaseCourse (Some profile) NoFault f_university f_public
                        f_purchased courseId course) w))
      !! Profile.user_id profile = Some row'
    /\ Profile.purchased_courses row'
       = Some (default [] (Profile.purchased_courses profile) ++ [courseId]).
Proof.
  intros Hfree Hrow. unfold handlePurchaseCourse. rewrite Hfree.
  unfold exec, try_catch, bind, update_purchased_courses, modify, ret, throw_if_error,
    detached, bind. simpl.
  rewrite fetchCourses_backend. simpl.
  rewrite lookup_alter_eq, Hrow. simpl. eexists. split; reflexivity.
Qed.

(** X28. The dashboard keeps the profile it was given: of two free courses
    purchased one after the other, the stored list holds the second but
    not the first, since both purchases append to the list of the same
    profile. *)
Theorem second_purchase_drops_first (profile row : Profile.t)
    (f_university f_public f_purchased f_university' f_public' f_purchased' : Fault)
    (courseA courseB : Course.t) (w : World) :
  Course.is_free courseA = true -> Course.is_free courseB = true ->
  Backend.profiles (backend w) !! Profile.user_id profile = Some row ->
  Course.id courseA <> Course.id courseB ->
  Course.id courseA ∉ default [] (Profile.purchased_courses profile) ->
  let w1 := exec (handlePurchaseCourse (Some profile) NoFault f_university f_public f_purchased
                    (Course.id courseA) courseA) w in
  let w2 := exec (handlePurchaseCourse (Some profile) NoFault f_university' f_public'
                    f_purchased' (Course.id courseB) courseB) w1 in
  (exists stored,
     Backend.profiles (backend w1) !! Profile.user_id profile ≫= Profile.purchased_courses
     = Some stored /\ Course.id courseA ∈ stored)
  /\ (exists stored,
        Backend.profiles (backend w2) !! Profile.user_id profile ≫= Profile.purchased_courses
        = Some stored
        /\ Course.id courseB ∈ stored /\ Course.id courseA ∉ stored)
  /\ toasts (ui w2) = toasts (ui w) ++ [course_added; course_added].
Proof.
  intros HfreeA HfreeB Hrow Hdistinct Hnew w1 w2.
  destruct (handlePurchaseCourse_stored profile row f_university f_public f_purchased
              (Course.id courseA) courseA w HfreeA Hrow) as (row1 & Hrow1 & Hstored1).
  fold w1 in Hrow1.
  destruct (handlePurchaseCourse_stored profile row1 f_university' f_public' f_purchased'
              (Course.id courseB) courseB w1 HfreeB Hrow1) as (row2 & Hrow2 & Hstored2).
  fold w2 in Hrow2.
  split; [|split].
  - eexists. rewrite Hrow1. simpl. split; [exact Hstored1|].
    apply elem_of_app. right. apply list_elem_of_here.
  - eexists. rewrite Hrow2. simpl. split; [exact Hstored2|]. split.
    + apply elem_of_app. right. apply list_elem_of_here.
    + intros Hin. apply elem_of_app in Hin. destruct Hin as [Hin|Hin]; [contradiction|].
      apply list_elem_of_singleton in Hin. contradiction.
  - subst w2 w1. rewrite !handlePurchaseCourse_toasts by assumption.
    rewrite <- app_assoc. reflexivity.
Qed.

Lemma second_purchase_drops_first_witness :
  Course.is_free Sample.free_course = true
  /\ Course.is_free
       {| Course.id := "c-4"; Course.title := "Logic"; Course.description := "";
          Course.type_ := "public"; Course.category := "skills";
          Course.university_id := None; Course.is_active := true; Course.is_free := true |}
     = true
  /\ Backend.profiles (backend (Sample.dashboard [])) !! Profile.user_id (Sample.student [])
     = Some (Sample.student [])
  /\ Course.id Sample.free_course <> "c-4"
  /\ (Course.id Sample.free_course
      ∉ default [] (Profile.purchased_courses (Sample.student [])))
  /\ toasts
       (ui (exec (handlePurchaseCourse (Some (Sample.student [])) NoFault NoFault NoFault NoFault
                    "c-4"
                    {| Course.id := "c-4"; Course.title := "Logic"; Course.description := "";
                       Course.type_ := "public"; Course.category := "skills";
                       Course.university_id := None; Course.is_active := true;
                       Course.is_free := true |})
                 (exec (handlePurchaseCourse (Some (Sample.student [])) NoFault NoFault NoFault
                          NoFault (Course.id Sample.free_course) Sample.free_course)
                       (Sample.dashboard []))))
     = toasts (ui (Sample.dashboard [])) ++ [course_added; course_added].
Proof.
  assert (Course.id Sample.free_course
          ∉ default [] (Profile.purchased_courses (Sample.student []))) as Hnew
    by (simpl; apply not_elem_of_nil).
  split; [reflexivity|]. split; [reflexivity|]. split; [reflexivity|].
  split; [discriminate|]. split; [exact Hnew|].
  exact (proj2 (proj2 (second_purchase_drops_first (Sample.student []) (Sample.student [])
                         NoFault NoFault NoFault NoFault NoFault NoFault Sample.free_course
                         {| Course.id := "c-4"; Course.title := "Logic";
                            Course.description := ""; Course.type_ := "public";
                            Course.category := "skills"; Course.university_id := None;
                            Course.is_active := true; Course.is_free := true |}
                         (Sample.dashboard []) eq_refl eq_refl eq_refl
                         ltac:(discriminate) Hnew))).
Defined.

End Dashboard.

(** ** The profile form *)

Section ProfileForm.
Import StudentProfile.

(** X29. Saving the profile form as it was loaded: the name is kept; the
    university is kept unless it is missing, empty or the literal
    [no_university], which are all stored as no university; a missing or
    empty date of birth is stored as none; and a text column that was
    missing is stored as the empty string. *)
Theorem save_unedited_form (profile : Profile.t) (details : Details) :
  let sent := handleSave_update (loadProfileData profile details) in
  update_name sent = Profile.name profile
  /\ update_university_id sent
     = match Profile.university_id profile with
       | Some id => if bool_decide (id = "" \/ id = "no_university") then None else Some id
       | None => None
       end
  /\ update_date_of_birth sent
     = match date_of_birth details with
       | Some d => if bool_decide (d = "") then None else Some d
       | None => None
       end
  /\ update_phone sent = default "" (phone details)
  /\ update_address sent = default "" (address details)
  /\ update_student_id sent = default "" (student_id details)
  /\ update_year_of_study sent = default "" (year_of_study details)
  /\ update_major sent = default "" (major details)
  /\ update_bio sent = default "" (bio details).
Proof.
  assert (forall o : option string, or_string o "" = default "" o) as Hor.
  { intros [v|]; [|reflexivity]. unfold or_string, truthy_string. simpl.
    destruct (String.eqb v "") eqn:Hv; [|reflexivity].
    apply String.eqb_eq in Hv. subst v. reflexivity. }
  simpl. rewrite !Hor. simpl.
  split; [reflexivity|]. split; [|split; [|repeat split]].
  - destruct (Profile.university_id profile) as [id|]; [|reflexivity].
    unfold or_string, truthy_string. simpl.
    destruct (String.eqb id "") eqn:Hempty; simpl.
    + apply String.eqb_eq in Hempty. subst id. reflexivity.
    + apply String.eqb_neq in Hempty.
      destruct (String.eqb id "no_university") eqn:Hnone.
      * apply String.eqb_eq in Hnone. subst id. reflexivity.
      * apply String.eqb_neq in Hnone.
        rewrite bool_decide_eq_false_2 by tauto. reflexivity.
  - destruct (date_of_birth details) as [d|]; [|reflexivity]. simpl.
    unfold truthy_string.
    destruct (String.eqb d "") eqn:Hempty; simpl.
    + apply String.eqb_eq in Hempty. subst d. reflexivity.
    + apply String.eqb_neq in Hempty.
      rewrite bool_decide_eq_false_2 by exact Hempty. reflexivity.
Qed.

End ProfileForm.

(** ** The attempts object of the course page *)

Section AttemptsObject.
Import CourseLearning.

(** X30. When nothing or an attempts object is stored for the chapter and
    no request fails, [handleQuizComplete] stores an attempts object in
    which the entry of the quiz is the new attempt, whatever was stored
    for that quiz before, and the attempts of all other quizzes are
    kept. *)
Theorem handleQuizComplete_keeps_other_quizzes (ctx : Context) (now : string) (score : Number)
    (passed : bool) (w : World) (quiz : Quiz.t) (pr : Profile.t) (chapter : Chapter.t)
    (props : gmap string Attempt.t) :
  currentQuiz (ui w) = Some quiz -> profile ctx = Some pr ->
  currentChapter (ui w) = Some chapter ->
  default (AttemptsObject ∅)
    (stored_attempts (backend w) (Profile.user_id pr) (Chapter.id chapter))
  = AttemptsObject props ->
  exists props',
    stored_attempts
      (backend (exec (handleQuizComplete ctx now NoFault NoFault score passed) w))
      (Profile.user_id pr) (Chapter.id chapter)
    = Some (AttemptsObject props')
    /\ props' !! Quiz.id quiz = Some (attemptData quiz now score passed)
    /\ forall other, other <> Quiz.id quiz -> props' !! other = props !! other.
Proof.
  intros Hquiz Hprofile Hchapter Hstored.
  exists (<[Quiz.id quiz := attemptData quiz now score passed]> props).
  rewrite (handleQuizComplete_stores ctx now score passed w quiz pr chapter) by assumption.
  rewrite Hstored. simpl. split; [reflexivity|]. split.
  - apply lookup_insert_eq.
  - intros other Hother. apply lookup_insert_ne. congruence.
Qed.

Lemma handleQuizComplete_keeps_other_quizzes_witness :
  currentQuiz (ui (Sample.page ["c-1"]
                     (Some (AttemptsObject {[ "quiz-0" := Sample.failed_attempt ]}))))
  = Some (QuizTaker.quiz (Sample.quiz_of 2 50))
  /\ default (AttemptsObject ∅)
       (stored_attempts
          (backend (Sample.page ["c-1"]
                      (Some (AttemptsObject {[ "quiz-0" := Sample.failed_attempt ]}))))
          "u-1" "ch0")
     = AttemptsObject {[ "quiz-0" := Sample.failed_attempt ]}
  /\ exists props',
       stored_attempts
         (backend
            (exec (handleQuizComplete (Sample.page_context ["c-1"]) "2024-01-03T00:00:00.000Z"
                     NoFault NoFault (of_Z 100) true)
                  (Sample.page ["c-1"]
                     (Some (AttemptsObject {[ "quiz-0" := Sample.failed_attempt ]})))))
         "u-1" "ch0"
       = Some (AttemptsObject props')
       /\ props' !! "quiz-0" = Some Sample.failed_attempt.
Proof.
  split; [reflexivity|]. split; [reflexivity|].
  destruct (handleQuizComplete_keeps_other_quizzes (Sample.page_context ["c-1"])
              "2024-01-03T00:00:00.000Z" (of_Z 100) true
              (Sample.page ["c-1"] (Some (AttemptsObject {[ "quiz-0" := Sample.failed_attempt ]})))
              (QuizTaker.quiz (Sample.quiz_of 2 50)) (Sample.student ["c-1"]) (Sample.chapter 0)
              {[ "quiz-0" := Sample.failed_attempt ]} eq_refl eq_refl eq_refl eq_refl)
    as (props' & Hstored & _ & Hother).
  exists props'. split; [exact Hstored|].
  rewrite (Hother "quiz-0") by discriminate.
  apply lookup_singleton_eq.
Defined.

End AttemptsObject.
